(** * UML-Ontology-Pipeline: the Ollama generation call and its benchmark log

    A shallow embedding of the three versions of the generation script

    - [ontologyGenerator/models/ollama.py]          (module [ollama]),
    - [ontologyGenerator/models/ollamaTest.py]      (module [ollamaTest]),
    - [ontologyGenerator_V1/models/ollamaTest.py]   (module [ollamaTest_V1]),

    over a small model of the Python values they handle, followed by the
    properties of the benchmark record and of the results logger. *)

From Stdlib Require Import ZArith NArith List String Ascii Bool Lia.
From Stdlib Require Import DecimalString.
From Stdlib Require Import Floats.SpecFloat.
From stdpp Require Import base option list gmap.

#[local] Set Warnings "-register-all".

Open Scope Z_scope.

(** ** Text

    A Python [str] is the list of its code points.  A [str] can hold lone
    surrogates (U+D800 to U+DFFF), which [str.encode] rejects. *)

Definition pystr := list N.

(** The [str] with the characters of an ASCII literal. *)
Definition lit (s : string) : pystr := map N_of_ascii (list_ascii_of_string s).

(** [len(s)], as a Python [int]. *)
Definition len (s : pystr) : Z := Z.of_nat (length s).

(** Number of bytes of one code point in UTF-8. *)
Definition utf8_width (c : N) : Z :=
  if (c <? 0x80)%N then 1
  else if (c <? 0x800)%N then 2
  else if (c <? 0x10000)%N then 3
  else 4.

(** Number of bytes of the UTF-8 encoding of a text that has one: all its
    code points are encoded (see [encode_len] for [len(s.encode('utf-8'))]). *)
Fixpoint utf8_len (s : pystr) : Z :=
  match s with
  | [] => 0
  | c :: s' => utf8_width c + utf8_len s'
  end.

(** The code points that UTF-8 does not encode, and the texts without
    them. *)
Definition is_surrogate (c : N) : bool := ((0xD800 <=? c) && (c <=? 0xDFFF))%N.

Definition encodable (s : pystr) : bool :=
  forallb (fun c => negb (is_surrogate c)) s.

(** The first run of surrogates of a text, with its position. *)
Fixpoint leading_surrogates (s : pystr) : pystr :=
  match s with
  | c :: s' => if is_surrogate c then c :: leading_surrogates s' else []
  | [] => []
  end.

Fixpoint first_surrogates (pos : nat) (s : pystr) : option (nat * pystr) :=
  match s with
  | [] => None
  | c :: s' =>
      if is_surrogate c then Some (pos, c :: leading_surrogates s')
      else first_surrogates (S pos) s'
  end.

(** [str(n)] for a natural number, and the four hexadecimal digits of a
    code point below 0x10000. *)
Definition decimal (n : nat) : pystr :=
  map N_of_ascii (list_ascii_of_string (NilEmpty.string_of_uint (Nat.to_uint n))).

Definition hex_digit (n : N) : N := (if n <? 10 then 48 + n else 87 + n)%N.

Definition hex4 (c : N) : pystr :=
  [hex_digit (c / 4096 mod 16); hex_digit (c / 256 mod 16);
   hex_digit (c / 16 mod 16); hex_digit (c mod 16)]%N.

(** [c.isspace()]: the characters that [str.strip()] removes. *)
Definition isspace (c : N) : bool :=
  ((0x09 <=? c) && (c <=? 0x0D) || (0x1C <=? c) && (c <=? 0x20)
   || (c =? 0x85) || (c =? 0xA0) || (c =? 0x1680)
   || (0x2000 <=? c) && (c <=? 0x200A)
   || (c =? 0x2028) || (c =? 0x2029) || (c =? 0x202F) || (c =? 0x205F)
   || (c =? 0x3000))%N.

Fixpoint lstrip (s : pystr) : pystr :=
  match s with
  | [] => []
  | c :: s' => if isspace c then lstrip s' else s
  end.

Definition rstrip (s : pystr) : pystr := rev (lstrip (rev s)).

(** [s.strip()]. *)
Definition strip (s : pystr) : pystr := rstrip (lstrip s).

(** Truth value of a [str]: [not s] is [negb (str_truthy s)]. *)
Definition str_truthy (s : pystr) : bool :=
  match s with [] => false | _ => true end.

(** ** Floats

    A Python [float] is an IEEE 754 binary64 number. *)

Definition float := spec_float.

Definition prec : Z := 53.
Definition emax : Z := 1024.

Definition fzero : float := S754_zero false.
Definition fsub (x y : float) : float := SFsub prec emax x y.
Definition fdiv (x y : float) : float := SFdiv prec emax x y.
Definition fltb (x y : float) : bool := SFltb x y.

Definition is_zero (x : float) : bool :=
  match x with S754_zero _ => true | _ => false end.

Definition is_finite (x : float) : bool :=
  match x with S754_zero _ | S754_finite _ _ _ => true | _ => false end.

(** The integer [z] as an exact quotient-free pair: sign, then magnitude with
    exponent 0.  [SFdiv] rounds the quotient of two such pairs once. *)
Definition exact_int (z : Z) : float :=
  match z with
  | Z0 => S754_zero false
  | Zpos p => S754_finite false p 0
  | Zneg p => S754_finite true p 0
  end.

(** [float(z)]: the nearest binary64 number (infinite when out of range). *)
Definition float_of_int (z : Z) : float := binary_normalize prec emax z 0 false.

(** [a / b] for two [int]s with [b] non-zero: the correctly rounded
    quotient. *)
Definition int_truediv (a b : Z) : float := fdiv (exact_int a) (exact_int b).

(** [round(x, ndigits)] for a float [x] and [ndigits >= 0]: the decimal with
    [ndigits] fractional digits nearest to the exact value of [x] (ties to
    the even digit), converted back to the nearest float.  Zeros,
    infinities and NaN are returned unchanged. *)
Definition round_half_even (num den : Z) : Z :=
  let q := num / den in
  let r := num mod den in
  match 2 * r ?= den with
  | Lt => q
  | Gt => q + 1
  | Eq => if Z.even q then q else q + 1
  end.

Definition py_round (x : float) (ndigits : Z) : float :=
  match x with
  | S754_finite s m e =>
      let scale := 10 ^ ndigits in
      let n :=
        if 0 <=? e then Zpos m * 2 ^ e * scale
        else round_half_even (Zpos m * scale) (2 ^ (- e)) in
      match n with
      | Z0 => S754_zero s
      | _ => fdiv (exact_int (if s then - n else n)) (exact_int scale)
      end
  | _ => x
  end.

(** ** Values

    The Python values that travel through the scripts: what a chat reply
    holds, what a metrics dictionary holds, what [json.load] returns.  A
    [dict] keeps its keys in insertion order, as Python and the JSON file
    do. *)

Inductive pyval :=
| VNone
| VBool (b : bool)
| VInt (z : Z)
| VFloat (f : float)
| VStr (s : pystr)
| VList (l : list pyval)
| VDict (d : list (pystr * pyval)).

Definition pydict := list (pystr * pyval).

Definition str_eqb (a b : pystr) : bool := bool_decide (a = b).

(** [d.get(k)], with [None] of Rocq for a missing key. *)
Fixpoint dict_get (k : pystr) (d : pydict) : option pyval :=
  match d with
  | [] => None
  | (k', v) :: d' => if str_eqb k' k then Some v else dict_get k d'
  end.

(** [k in d]. *)
Definition dict_has (k : pystr) (d : pydict) : bool :=
  match dict_get k d with Some _ => true | None => false end.

(** [d[k] = v]: an existing key keeps its place, a new key goes last. *)
Fixpoint dict_set (k : pystr) (v : pyval) (d : pydict) : pydict :=
  match d with
  | [] => [(k, v)]
  | (k', v') :: d' =>
      if str_eqb k' k then (k', v) :: d' else (k', v') :: dict_set k v d'
  end.

(** [d.update(new)]. *)
Definition dict_update (d new : pydict) : pydict :=
  fold_left (fun acc kv => dict_set (fst kv) (snd kv) acc) new d.

(** Truth value of a Python object ([if v:]). *)
Definition truthy (v : pyval) : bool :=
  match v with
  | VNone => false
  | VBool b => b
  | VInt z => negb (z =? 0)
  | VFloat f => negb (is_zero f)
  | VStr s => str_truthy s
  | VList l => match l with [] => false | _ => true end
  | VDict d => match d with [] => false | _ => true end
  end.

(** [v is None]. *)
Definition is_none (v : pyval) : bool :=
  match v with VNone => true | _ => false end.

(** ** Exceptions

    Every class below derives from [Exception], so a handler
    [except Exception] catches all of them.  [LibraryError name] stands for
    the exception classes of the libraries underneath ([ResponseError],
    [ConnectionError], ...), which derive from [Exception] directly. *)

Inductive exn_class :=
| KeyError | IndexError | TypeError | AttributeError | ValueError
| ZeroDivisionError | OverflowError | RuntimeError
| OSError            (* [IOError] is the same class *)
| FileNotFoundError  (* a subclass of [OSError] *)
| PermissionError    (* a subclass of [OSError] *)
| JSONDecodeError    (* a subclass of [ValueError] *)
| UnicodeEncodeError (* a subclass of [ValueError] *)
| LibraryError (name : pystr).

(** An exception: its class, the text [str(e)] and the cause attached by
    [raise ... from]. *)
Inductive exn := Exn (cls : exn_class) (text : pystr) (cause : option exn).

Definition exn_cls (e : exn) : exn_class := let 'Exn c _ _ := e in c.
(** [str(e)] *)
Definition exn_str (e : exn) : pystr := let 'Exn _ t _ := e in t.

(** [type(e).__name__] *)
Definition class_name (c : exn_class) : pystr :=
  match c with
  | KeyError => lit "KeyError"
  | IndexError => lit "IndexError"
  | TypeError => lit "TypeError"
  | AttributeError => lit "AttributeError"
  | ValueError => lit "ValueError"
  | ZeroDivisionError => lit "ZeroDivisionError"
  | OverflowError => lit "OverflowError"
  | RuntimeError => lit "RuntimeError"
  | OSError => lit "OSError"
  | FileNotFoundError => lit "FileNotFoundError"
  | PermissionError => lit "PermissionError"
  | JSONDecodeError => lit "JSONDecodeError"
  | UnicodeEncodeError => lit "UnicodeEncodeError"
  | LibraryError name => name
  end.

(** [isinstance(e, KeyError)] and [isinstance(e, FileNotFoundError)]. *)
Definition is_KeyError (e : exn) : bool :=
  match exn_cls e with KeyError => true | _ => false end.
Definition is_FileNotFoundError (e : exn) : bool :=
  match exn_cls e with FileNotFoundError => true | _ => false end.
(** [isinstance(e, ValueError)]: the class itself or one of its
    subclasses. *)
Definition is_ValueError (e : exn) : bool :=
  match exn_cls e with
  | ValueError | JSONDecodeError | UnicodeEncodeError => true
  | _ => false
  end.
(** The outcome of evaluating Python code: a value or a raised exception. *)
Inductive result (A : Type) :=
| Ok (a : A)
| Raise (e : exn).
Arguments Ok {A} a.
Arguments Raise {A} e.

(** The [UnicodeEncodeError] of [s.encode('utf-8')] for a text with a
    surrogate: it names the first run of surrogates. *)
Definition surrogates_not_allowed (s : pystr) : exn :=
  Exn UnicodeEncodeError
    (match first_surrogates 0 s with
     | Some (pos, [c]) =>
         lit "'utf-8' codec can't encode character '" ++ [92; 117]%N ++ hex4 c
           ++ lit "' in position " ++ decimal pos
     | Some (pos, run) =>
         lit "'utf-8' codec can't encode characters in position "
           ++ decimal pos ++ lit "-" ++ decimal (pos + length run - 1)
     | None => lit "'utf-8' codec can't encode characters"
     end ++ lit ": surrogates not allowed") None.

(** [len(s.encode('utf-8'))]. *)
Definition encode_len (s : pystr) : result Z :=
  if encodable s then Ok (utf8_len s) else Raise (surrogates_not_allowed s).

Definition type_name (v : pyval) : pystr :=
  match v with
  | VNone => lit "NoneType"
  | VBool _ => lit "bool"
  | VInt _ => lit "int"
  | VFloat _ => lit "float"
  | VStr _ => lit "str"
  | VList _ => lit "list"
  | VDict _ => lit "dict"
  end.

(** [repr(k)] of a key without quotes or escapes, as in the [KeyError] of a
    failed [d['message']]. *)
Definition repr_key (k : pystr) : pystr := lit "'" ++ k ++ lit "'".

(** [v[k]] for a [str] key [k]. *)
Definition subscript (v : pyval) (k : pystr) : result pyval :=
  match v with
  | VDict d =>
      match dict_get k d with
      | Some x => Ok x
      | None => Raise (Exn KeyError (repr_key k) None)
      end
  | VList _ =>
      Raise (Exn TypeError
               (lit "list indices must be integers or slices, not str") None)
  | VStr _ =>
      Raise (Exn TypeError (lit "string indices must be integers, not 'str'")
               None)
  | _ =>
      Raise (Exn TypeError
               (lit "'" ++ type_name v ++ lit "' object is not subscriptable")
               None)
  end.

(** [v[0]]. *)
Definition subscript0 (v : pyval) : result pyval :=
  match v with
  | VList l =>
      match l with
      | x :: _ => Ok x
      | [] => Raise (Exn IndexError (lit "list index out of range") None)
      end
  | VStr s =>
      match s with
      | c :: _ => Ok (VStr [c])
      | [] => Raise (Exn IndexError (lit "string index out of range") None)
      end
  | VDict _ => Raise (Exn KeyError (lit "0") None)
  | _ =>
      Raise (Exn TypeError
               (lit "'" ++ type_name v ++ lit "' object is not subscriptable")
               None)
  end.

(** [v.strip()]. *)
Definition method_strip (v : pyval) : result pystr :=
  match v with
  | VStr s => Ok (strip s)
  | _ =>
      Raise (Exn AttributeError
               (lit "'" ++ type_name v ++ lit "' object has no attribute 'strip'")
               None)
  end.

(** [x / d] for a float [d]: [x] is converted to a float first. *)
Definition as_float (x : pyval) : result float :=
  match x with
  | VInt z =>
      if is_finite (float_of_int z) then Ok (float_of_int z)
      else Raise (Exn OverflowError (lit "int too large to convert to float")
                    None)
  | VBool b => Ok (float_of_int (if b then 1 else 0))
  | VFloat f => Ok f
  | _ =>
      Raise (Exn TypeError
               (lit "unsupported operand type(s) for /: '" ++ type_name x
                  ++ lit "' and 'float'") None)
  end.

Definition truediv (x : pyval) (d : float) : result float :=
  match as_float x with
  | Ok f =>
      if is_zero d
      then Raise (Exn ZeroDivisionError (lit "float division by zero") None)
      else Ok (fdiv f d)
  | Raise e => Raise e
  end.

(** [results.append(x)]. *)
Definition method_append (results x : pyval) : result pyval :=
  match results with
  | VList l => Ok (VList (l ++ [x]))
  | _ =>
      Raise (Exn AttributeError
               (lit "'" ++ type_name results
                  ++ lit "' object has no attribute 'append'") None)
  end.

(** ** The outside world

    The scripts read a clock, ask the date, call the chat endpoint of a
    local Ollama server, print, and read and write files.  [env] fixes how
    the outside answers; [world] is the state the calls leave behind. *)

Definition path := pystr.

(** What a file holds, as far as [json.load] can tell: the text of a JSON
    document, identified with the value that [json.load] returns for it
    and that [json.dump] writes, or a text that is no JSON document, with
    what the decoder says about it. *)
Inductive file :=
| JsonDoc (v : pyval)
| NotJson (complaint : pystr).

(** A file that was opened for writing and not written, or not to the
    end: no JSON document. *)
Definition truncated : file :=
  NotJson (lit "Expecting value: line 1 column 1 (char 0)").

(** [str(e)] of the [FileNotFoundError] for [p]. *)
Definition no_such_file (p : path) : exn :=
  Exn FileNotFoundError
    (lit "[Errno 2] No such file or directory: '" ++ p ++ lit "'") None.

(** The file operations that the operating system may refuse. *)
Inductive io_op :=
| OpenRead (p : path)
| ReadAll (p : path)
| OpenWrite (p : path)
| WriteAll (p : path)
| Replace (src dst : path).

Record env := Env {
  (** the n-th reading of the timer ([time.time()], [time.perf_counter()]) *)
  clock : nat -> float;
  (** the n-th [datetime.now().isoformat()] *)
  now_iso : nat -> pystr;
  (** the n-th [ollama.chat(model=..., messages=...)]: a reply or an
      exception *)
  chat : nat -> pystr -> pyval -> result pyval;
  (** the exception, if any, with which the n-th file operation fails *)
  io_fault : nat -> io_op -> option exn;
  (** the exception, if any, with which stdout, after [n] lines, refuses a
      line that holds a character outside ASCII *)
  stdout_fault : nat -> pystr -> option exn;
  (** [Path(p).with_suffix(suffix)], which raises for a path without name *)
  with_suffix : path -> pystr -> result path
}.

Record world := World {
  w_ticks : nat;                     (* timer readings so far *)
  w_nows : nat;                      (* dates asked so far *)
  w_chats : list (pystr * pyval);    (* chat calls so far: model, messages *)
  w_out : list pystr;                (* lines printed so far *)
  w_io : nat;                        (* file operations so far *)
  w_fs : gmap path file              (* the files *)
}.

Definition world0 : world := World 0 0 [] [] 0 ∅.

(** Computations: state passing over [world], with exceptions. *)
Definition M (A : Type) : Type := world -> result A * world.

Definition ret {A} (a : A) : M A := fun w => (Ok a, w).
Definition raise {A} (e : exn) : M A := fun w => (Raise e, w).
Definition bind {A B} (m : M A) (k : A -> M B) : M B :=
  fun w =>
    match m w with
    | (Ok a, w') => k a w'
    | (Raise e, w') => (Raise e, w')
    end.
(** Runs [m] and hands its outcome, value or exception, to the
    continuation: the [try] of a [try/except]. *)
Definition attempt {A} (m : M A) : M (result A) :=
  fun w => let '(r, w') := m w in (Ok r, w').
Definition lift {A} (r : result A) : M A := fun w => (r, w).

Notation "x <- m ;; k" := (bind m (fun x => k))
  (at level 100, m at next level, right associativity).
Notation "m ;;; k" := (bind m (fun _ => k))
  (at level 100, right associativity).

Section Effects.
Variable E : env.

(** [time.perf_counter()] *)
Definition perf_counter : M float :=
  fun w =>
    (Ok (clock E (w_ticks w)),
     World (S (w_ticks w)) (w_nows w) (w_chats w) (w_out w) (w_io w) (w_fs w)).

(** [time.time()] *)
Definition time_time : M float := perf_counter.

(** [datetime.now().isoformat()] *)
Definition datetime_now_isoformat : M pystr :=
  fun w =>
    (Ok (now_iso E (w_nows w)),
     World (w_ticks w) (S (w_nows w)) (w_chats w) (w_out w) (w_io w) (w_fs w)).

(** [ollama.chat(model=model, messages=messages)] *)
Definition ollama_chat (model : pystr) (messages : pyval) : M pyval :=
  fun w =>
    (chat E (length (w_chats w)) model messages,
     World (w_ticks w) (w_nows w) (w_chats w ++ [(model, messages)])
       (w_out w) (w_io w) (w_fs w)).

(** [print(s)] for a line made of ASCII text of the script and of texts
    that come from the environment (an error message, a path): stdout is
    taken to accept it. *)
Definition print (s : pystr) : M unit :=
  fun w =>
    (Ok tt,
     World (w_ticks w) (w_nows w) (w_chats w) (w_out w ++ [s]) (w_io w)
       (w_fs w)).

(** [print(s)] for a line in which the script itself writes a character
    outside ASCII: a stdout whose encoding lacks the character raises, and
    nothing is printed. *)
Definition print_symbol (s : pystr) : M unit :=
  fun w =>
    match stdout_fault E (length (w_out w)) s with
    | Some e => (Raise e, w)
    | None => print s w
    end.

Definition set_fs (fs : gmap path file) : M unit :=
  fun w =>
    (Ok tt, World (w_ticks w) (w_nows w) (w_chats w) (w_out w) (w_io w) fs).

Definition get_fs : M (gmap path file) := fun w => (Ok (w_fs w), w).

(** One file operation: it fails if the environment says so. *)
Definition io (op : io_op) : M unit :=
  fun w =>
    let w' := World (w_ticks w) (w_nows w) (w_chats w) (w_out w)
                (S (w_io w)) (w_fs w) in
    match io_fault E (w_io w) op with
    | Some e => (Raise e, w')
    | None => (Ok tt, w')
    end.

(** [Path(p).exists()] *)
Definition path_exists (p : path) : M bool :=
  fs <- get_fs ;;
  ret (match fs !! p with Some _ => true | None => false end).

(** [with open(p, 'r') as f: return json.load(f)] *)
Definition load_json (p : path) : M pyval :=
  io (OpenRead p) ;;;
  fs <- get_fs ;;
  match fs !! p with
  | None =>
      raise (no_such_file p)
  | Some c =>
      io (ReadAll p) ;;;
      match c with
      | JsonDoc v => ret v
      | NotJson complaint => raise (Exn JSONDecodeError complaint None)
      end
  end.

(** [with open(p, 'w') as f: json.dump(v, f, indent=2)]: opening
    truncates the file; a failed write leaves it partly written. *)
Definition dump_json (p : path) (v : pyval) : M unit :=
  io (OpenWrite p) ;;;
  fs <- get_fs ;;
  set_fs (<[p := truncated]> fs) ;;;
  io (WriteAll p) ;;;
  set_fs (<[p := JsonDoc v]> fs).

(** [Path(src).replace(dst)] *)
Definition path_replace (src dst : path) : M unit :=
  io (Replace src dst) ;;;
  fs <- get_fs ;;
  match fs !! src with
  | None =>
      raise (no_such_file src)
  | Some c => set_fs (<[dst := c]> (delete src fs))
  end.

End Effects.

(** [a] starts [b]; [a] occurs in [b]. *)
Fixpoint is_prefix (a b : pystr) : bool :=
  match a, b with
  | [], _ => true
  | x :: a', y :: b' => (x =? y)%N && is_prefix a' b'
  | _ :: _, [] => false
  end.

Fixpoint is_substring (a b : pystr) : bool :=
  is_prefix a b || match b with [] => false | _ :: b' => is_substring a b' end.

(** [k in v] for a [str] key [k]. *)
Definition key_in (k : pystr) (v : pyval) : result bool :=
  match v with
  | VDict d => Ok (dict_has k d)
  | VList l =>
      Ok (existsb (fun x => match x with VStr s => str_eqb s k | _ => false end)
            l)
  | VStr s => Ok (is_substring k s)
  | _ =>
      Raise (Exn TypeError
               (lit "argument of type '" ++ type_name v
                  ++ lit "' is not iterable") None)
  end.

(** [v.get(k, default)]. *)
Definition method_get (v : pyval) (k : pystr) (default : pyval) : result pyval :=
  match v with
  | VDict d => Ok (match dict_get k d with Some x => x | None => default end)
  | _ =>
      Raise (Exn AttributeError
               (lit "'" ++ type_name v ++ lit "' object has no attribute 'get'")
               None)
  end.

(** [len(v)] and [len(v.encode('utf-8'))]. *)
Definition py_len (v : pyval) : result Z :=
  match v with
  | VStr s => Ok (len s)
  | VList l => Ok (Z.of_nat (length l))
  | VDict d => Ok (Z.of_nat (length d))
  | _ =>
      Raise (Exn TypeError
               (lit "object of type '" ++ type_name v ++ lit "' has no len()")
               None)
  end.

Definition encoded_len (v : pyval) : result Z :=
  match v with
  | VStr s => encode_len s
  | _ =>
      Raise (Exn AttributeError
               (lit "'" ++ type_name v ++ lit "' object has no attribute 'encode'")
               None)
  end.

(** The [messages] argument of every chat call: one user turn. *)
Definition user_turn (prompt : pystr) : pyval :=
  VList [VDict [(lit "role", VStr (lit "user"));
                (lit "content", VStr prompt)]].

(** * First version: [ontologyGenerator/models/ollama.py] *)

Module ollama.
Section WithEnv.
Variable E : env.

Definition default_model : pystr := lit "ollama1.8b".

Definition prompt (uml : pystr) : pystr :=
  lit "You are an expert in converting UML diagrams into OWL ontologies.
    Given the following UML diagram XMI, generate a corresponding OWL ontology in Turtle format.

    UML XMI:
    " ++ uml ++ lit "
    
    Respond only with the OWL ontology in Turtle format, without any additional explanations.

    Args:
        uml (str): The UML diagram in XMI format.
        model (str): The Ollama model to use for generation.

    Respond ONLY with the OWL ontology in Turtle format in a JSON file:
    
    ".

(** [response['choices'][0]['message']['content']] *)
Definition extract (response : pyval) : result pyval :=
  match subscript response (lit "choices") with
  | Raise e => Raise e
  | Ok choices =>
      match subscript0 choices with
      | Raise e => Raise e
      | Ok choice =>
          match subscript choice (lit "message") with
          | Raise e => Raise e
          | Ok message => subscript message (lit "content")
          end
      end
  end.

Definition generate_ontology_with_ollama (uml model : pystr) : M pyval :=
  r <- attempt (response <- ollama_chat E model (user_turn (prompt uml)) ;;
                lift (extract response)) ;;
  match r with
  | Ok content => ret content
  | Raise e =>
      print (lit "Error generating ontology with Ollama: " ++ exn_str e) ;;;
      ret (VStr [])
  end.

End WithEnv.
End ollama.

(** * Second version: [ontologyGenerator/models/ollamaTest.py] *)

Module ollamaTest.

(** What the function returns: the content alone, or the pair of the
    content and the metrics dictionary. *)
Inductive output :=
| Content (ontology_content : pyval)
| WithMetrics (ontology_content : pyval) (metrics : pydict).

Definition content_of (o : output) : pyval :=
  match o with Content c | WithMetrics c _ => c end.

Section WithEnv.
Variable E : env.

Definition default_model : pystr := lit "llama3.1:8b".

Definition prompt (uml : pystr) : pystr :=
  lit "You are an expert in converting UML diagrams into OWL ontologies.
Given the following UML diagram XMI, generate a corresponding OWL ontology in Turtle format.

UML XMI:
" ++ uml ++ lit "

Respond ONLY with the OWL ontology in Turtle format, without any additional explanations or JSON wrapping.
".

(** [response['message']['content']] *)
Definition extract (response : pyval) : result pyval :=
  match subscript response (lit "message") with
  | Raise e => Raise e
  | Ok message => subscript message (lit "content")
  end.

(** The [except Exception as e] block; [metrics] is the dictionary as the
    [try] block left it when [e] was raised. *)
Definition on_error (benchmark : bool) (metrics : pydict) (e : exn)
  : M output :=
  let error_msg := lit "Error generating ontology with Ollama: " ++ exn_str e in
  print error_msg ;;;
  if benchmark then
    ret (WithMetrics (VStr [])
           (dict_update metrics
              [(lit "generation_time_seconds", VInt 0);
               (lit "output_size_chars", VInt 0);
               (lit "output_size_kb", VInt 0);
               (lit "success", VBool false);
               (lit "error", VStr (exn_str e))]))
  else ret (Content (VStr [])).

(** The dictionary literal handed to the first [metrics.update] of the
    [try] block; its entries are evaluated in order. *)
Definition success_fields (start_time end_time : float)
    (ontology_content : pyval) : result pydict :=
  match py_len ontology_content with
  | Raise e => Raise e
  | Ok chars =>
      match encoded_len ontology_content with
      | Raise e => Raise e
      | Ok bytes =>
          Ok [(lit "generation_time_seconds",
                VFloat (py_round (fsub end_time start_time) 3));
              (lit "output_size_chars", VInt chars);
              (lit "output_size_kb", VFloat (int_truediv bytes 1024));
              (lit "success", VBool true);
              (lit "error", VNone)]
      end
  end.

(** The token entries: [tokens_generated] is stored before the quotient
    of [tokens_per_second] is evaluated. *)
Definition token_fields (benchmark : bool) (start_time end_time : float)
    (response ontology_content : pyval) (metrics : pydict) : M output :=
  match key_in (lit "eval_count") response with
  | Raise e => on_error benchmark metrics e
  | Ok false => ret (WithMetrics ontology_content metrics)
  | Ok true =>
      match method_get response (lit "eval_count") (VInt 0) with
      | Raise e => on_error benchmark metrics e
      | Ok tokens =>
          let metrics := dict_set (lit "tokens_generated") tokens metrics in
          match method_get response (lit "eval_count") (VInt 0) with
          | Raise e => on_error benchmark metrics e
          | Ok tokens' =>
              match truediv tokens' (fsub end_time start_time) with
              | Raise e => on_error benchmark metrics e
              | Ok q =>
                  ret (WithMetrics ontology_content
                         (dict_set (lit "tokens_per_second")
                            (VFloat (py_round q 2)) metrics))
              end
          end
      end
  end.

Definition generate_ontology_with_ollama (uml model : pystr)
    (benchmark : bool) : M output :=
  timestamp <- datetime_now_isoformat E ;;
  input_bytes <- lift (encode_len uml) ;;
  let metrics :=
    [(lit "model", VStr model);
     (lit "timestamp", VStr timestamp);
     (lit "input_size_chars", VInt (len uml));
     (lit "input_size_kb", VFloat (int_truediv input_bytes 1024))] in
  r <- attempt
         (start_time <- time_time E ;;
          response <- ollama_chat E model (user_turn (prompt uml)) ;;
          end_time <- time_time E ;;
          ontology_content <- lift (extract response) ;;
          ret (start_time, response, end_time, ontology_content)) ;;
  match r with
  | Raise e => on_error benchmark metrics e
  | Ok (start_time, response, end_time, ontology_content) =>
      if benchmark then
        match success_fields start_time end_time ontology_content with
        | Raise e => on_error benchmark metrics e
        | Ok fields =>
            token_fields benchmark start_time end_time response
              ontology_content (dict_update metrics fields)
        end
      else ret (Content ontology_content)
  end.

(** The inner [try] of [save_benchmark_results]: the list in the file,
    or the empty list when there is no file. *)
Definition load_results (output_file : path) : M pyval :=
  loaded <- attempt (load_json E output_file) ;;
  match loaded with
  | Ok v => ret v
  | Raise e => if is_FileNotFoundError e then ret (VList []) else raise e
  end.

(** The outer [try] block of [save_benchmark_results]. *)
Definition save_body (metrics : pyval) (output_file : path) : M unit :=
  results <- load_results output_file ;;
  results <- lift (method_append results metrics) ;;
  dump_json E output_file results ;;;
  print (lit "Benchmark results saved to " ++ output_file).

(** [save_benchmark_results(metrics, output_file)] *)
Definition save_benchmark_results (metrics : pyval) (output_file : path)
  : M unit :=
  r <- attempt (save_body metrics output_file) ;;
  match r with
  | Ok _ => ret tt
  | Raise e => print (lit "Error saving benchmark results: " ++ exn_str e)
  end.

End WithEnv.
End ollamaTest.

(** * Third version: [ontologyGenerator_V1/models/ollamaTest.py] *)

Module ollamaTest_V1.

(** The dataclass [BenchmarkMetrics].  [tokens_generated] holds whatever
    the reply carries under [eval_count] ([VNone] for [None]). *)
Record BenchmarkMetrics := {
  model : pystr;
  timestamp : pystr;
  input_size_chars : Z;
  input_size_kb : float;
  generation_time_seconds : float;
  output_size_chars : Z;
  output_size_kb : float;
  success : bool;
  error : option pystr;
  tokens_generated : pyval;
  tokens_per_second : option float
}.

Definition opt_val {A} (f : A -> pyval) (o : option A) : pyval :=
  match o with Some a => f a | None => VNone end.

(** [asdict(self)]: the fields in declaration order. *)
Definition asdict (m : BenchmarkMetrics) : pydict :=
  [(lit "model", VStr (model m));
   (lit "timestamp", VStr (timestamp m));
   (lit "input_size_chars", VInt (input_size_chars m));
   (lit "input_size_kb", VFloat (input_size_kb m));
   (lit "generation_time_seconds", VFloat (generation_time_seconds m));
   (lit "output_size_chars", VInt (output_size_chars m));
   (lit "output_size_kb", VFloat (output_size_kb m));
   (lit "success", VBool (success m));
   (lit "error", opt_val VStr (error m));
   (lit "tokens_generated", tokens_generated m);
   (lit "tokens_per_second", opt_val VFloat (tokens_per_second m))].

(** [BenchmarkMetrics.to_dict]: the entries whose value is not [None]. *)
Definition to_dict (m : BenchmarkMetrics) : pydict :=
  List.filter (fun kv => negb (is_none (snd kv))) (asdict m).

(** The class [OntologyGenerator]: its only attribute is the model. *)
Record OntologyGenerator := { self_model : pystr }.

(** The class [BenchmarkLogger]: its only attribute is the path. *)
Record BenchmarkLogger := { output_file : path }.

(** What [generate] returns: the content alone, or the pair of the
    content and the metrics. *)
Inductive output :=
| Content (ontology_content : pystr)
| WithMetrics (ontology_content : pystr) (metrics : BenchmarkMetrics).

Definition content_of (o : output) : pystr :=
  match o with Content c | WithMetrics c _ => c end.

(** The fields of [BenchmarkMetrics] in declaration order: the first
    eight have no default, the last three default to [None]. *)
Definition required_fields : list pystr :=
  [lit "model"; lit "timestamp"; lit "input_size_chars"; lit "input_size_kb";
   lit "generation_time_seconds"; lit "output_size_chars";
   lit "output_size_kb"; lit "success"].

Definition optional_fields : list pystr :=
  [lit "error"; lit "tokens_generated"; lit "tokens_per_second"].

Definition field_names : list pystr := required_fields ++ optional_fields.

(** An instance built by calling [BenchmarkMetrics] with the entries of a
    dictionary as keyword arguments.  Python does not check the
    annotations, so each field holds whatever value the dictionary gives:
    the instance is represented by its fields in declaration order, as
    [asdict] lists them. *)
Definition instance := pydict.

(** [to_dict] of such an instance. *)
Definition instance_to_dict (o : instance) : pydict :=
  List.filter (fun kv => negb (is_none (snd kv))) o.

(** The names of a [TypeError] for missing arguments: ['a'], ['a' and 'b'],
    ['a', 'b', and 'c']. *)
Fixpoint quoted_tail (names : list pystr) : pystr :=
  match names with
  | [] => []
  | [n] => lit ", and '" ++ n ++ lit "'"
  | n :: rest => lit ", '" ++ n ++ lit "'" ++ quoted_tail rest
  end.

Definition quoted (names : list pystr) : pystr :=
  match names with
  | [] => []
  | [a] => lit "'" ++ a ++ lit "'"
  | [a; b] => lit "'" ++ a ++ lit "' and '" ++ b ++ lit "'"
  | a :: rest => lit "'" ++ a ++ lit "'" ++ quoted_tail rest
  end.

(** At most eight names are missing: their number is one digit. *)
Definition missing_message (names : list pystr) : pystr :=
  lit "BenchmarkMetrics.__init__() missing "
    ++ [N.of_nat (48 + length names)]
    ++ lit " required positional argument"
    ++ (match names with [_] => lit ": " | _ => lit "s: " end)
    ++ quoted names.

(** [BenchmarkMetrics] called with the entries of [kwargs] as keyword
    arguments: an unexpected key is refused first, then missing fields
    without default; a field with default that is not given is [None]. *)
Definition BenchmarkMetrics_init (kwargs : pydict) : result instance :=
  match List.find (fun kv => negb (existsb (str_eqb (fst kv)) field_names))
          kwargs with
  | Some (k, _) =>
      Raise (Exn TypeError
               (lit "BenchmarkMetrics.__init__() got an unexpected keyword argument '"
                  ++ k ++ lit "'") None)
  | None =>
      match List.filter (fun f => negb (dict_has f kwargs)) required_fields with
      | [] =>
          Ok (map (fun f => (f, match dict_get f kwargs with
                                | Some v => v
                                | None => VNone
                                end)) field_names)
      | missing => Raise (Exn TypeError (missing_message missing) None)
      end
  end.

(** The [metrics] argument of the legacy [save_benchmark_results]: a
    dictionary, or an instance of [BenchmarkMetrics]. *)
Inductive metrics_argument :=
| FromDict (d : pydict)
| Object (m : BenchmarkMetrics).

(** What the legacy [generate_ontology_with_ollama] returns: what
    [generate] returned, or the pair of the content and the metrics
    dictionary. *)
Inductive legacy_output :=
| Raw (result : output)
| WithDict (ontology : pystr) (metrics : pydict).

Section WithEnv.
Variable E : env.

Definition DEFAULT_MODEL : pystr := lit "llama3.1:8b".

(** [PROMPT_TEMPLATE.format(uml=uml)] *)
Definition _create_prompt (uml : pystr) : pystr :=
  lit "You are an expert in converting UML diagrams into OWL ontologies.
Given the following UML diagram in XMI format, generate a corresponding OWL ontology in Turtle format.

Requirements:
1. Use proper OWL/RDFS namespaces (owl:, rdfs:, rdf:)
2. Convert classes with owl:Class
3. Preserve inheritance relationships with rdfs:subClassOf
4. Define properties as owl:DatatypeProperty or owl:ObjectProperty
5. Include cardinality constraints using owl:Restriction
6. Maintain all associations and their multiplicities

UML XMI:
" ++ uml ++ lit "

Respond ONLY with the OWL ontology in Turtle format, without explanations.".

(** [_calculate_size(content)]: character count and size in KB. *)
Definition _calculate_size (content : pystr) : result (Z * float) :=
  let char_count := len content in
  match encode_len content with
  | Ok bytes =>
      let kb_size := int_truediv bytes 1024 in
      Ok (char_count, kb_size)
  | Raise e => Raise e
  end.

(** [tokens = response.get('eval_count') if response else None] *)
Definition response_tokens (response : pyval) : result pyval :=
  if truthy response then method_get response (lit "eval_count") VNone
  else Ok VNone.

(** [round(tokens / duration, 2) if tokens and duration > 0 else None] *)
Definition tokens_per_sec (tokens : pyval) (duration : float)
  : result (option float) :=
  if truthy tokens && fltb fzero duration then
    match truediv tokens duration with
    | Ok q => Ok (Some (py_round q 2))
    | Raise e => Raise e
    end
  else Ok None.

Definition _extract_metrics (self : OntologyGenerator) (uml ontology : pystr)
    (duration : float) (response : pyval) (error : option pystr)
  : M BenchmarkMetrics :=
  input_size <- lift (_calculate_size uml) ;;
  let '(input_chars, input_kb) := input_size in
  output_size <- lift (_calculate_size ontology) ;;
  let '(output_chars, output_kb) := output_size in
  tokens <- lift (response_tokens response) ;;
  tokens_per_sec <- lift (tokens_per_sec tokens duration) ;;
  now <- datetime_now_isoformat E ;;
  ret {| model := self_model self;
         timestamp := now;
         input_size_chars := input_chars;
         input_size_kb := py_round input_kb 3;
         generation_time_seconds := py_round duration 3;
         output_size_chars := output_chars;
         output_size_kb := py_round output_kb 3;
         success := match error with None => true | Some _ => false end;
         error := error;
         tokens_generated := tokens;
         tokens_per_second := tokens_per_sec |}.

(** [response['message']['content'].strip()] *)
Definition extract (response : pyval) : result pystr :=
  match subscript response (lit "message") with
  | Raise e => Raise e
  | Ok message =>
      match subscript message (lit "content") with
      | Raise e => Raise e
      | Ok content => method_strip content
      end
  end.

(** The body of the [try] block of [generate]: the reply and its trimmed
    content. *)
Definition call (self : OntologyGenerator) (prompt : pystr)
  : M (pystr * pyval) :=
  response <- ollama_chat E (self_model self) (user_turn prompt) ;;
  ontology_content <- lift (extract response) ;;
  ret (ontology_content, response).

(** The two [except] blocks: the message they build and the
    [RuntimeError] they raise from [e]. *)
Definition error_message (e : exn) : pystr :=
  if is_KeyError e
  then lit "Unexpected response format from Ollama: " ++ exn_str e
  else lit "Ollama API error: " ++ class_name (exn_cls e) ++ lit ": "
         ++ exn_str e.

Definition runtime_error (e : exn) : exn :=
  Exn RuntimeError (error_message e) (Some e).

(** [generate(self, uml, benchmark)].  After the [try] block and its
    handlers, [pending] is the exception on its way to the caller, if
    any; the [finally] block runs in both cases, and its [return]
    discards a pending exception. *)
Definition generate (self : OntologyGenerator) (uml : pystr)
    (benchmark : bool) : M output :=
  if negb (str_truthy uml) || negb (str_truthy (strip uml)) then
    raise (Exn ValueError (lit "UML input cannot be empty") None)
  else
    let prompt := _create_prompt uml in
    start_time <- perf_counter E ;;
    r <- attempt (call self prompt) ;;
    let '(ontology_content, response_data, error_msg, pending) :=
      match r with
      | Ok (content, response) => (content, response, None, None)
      | Raise e => ([], VNone, Some (error_message e), Some (runtime_error e))
      end in
    (* finally: *)
    now <- perf_counter E ;;
    let duration := fsub now start_time in
    if benchmark then
      metrics <- _extract_metrics self uml ontology_content duration
                   response_data error_msg ;;
      ret (WithMetrics ontology_content metrics)
    else
      match pending with
      | Some e => raise e
      | None => ret (Content ontology_content)
      end.

(** The [try] block of [save]. *)
Definition save_body (self : BenchmarkLogger) (metrics : BenchmarkMetrics)
  : M unit :=
  there <- path_exists (output_file self) ;;
  results <- (if there then load_json E (output_file self)
              else ret (VList [])) ;;
  results <- lift (method_append results (VDict (to_dict metrics))) ;;
  temp_file <- lift (with_suffix E (output_file self) (lit ".tmp")) ;;
  dump_json E temp_file results ;;;
  path_replace E temp_file (output_file self) ;;;
  print_symbol E
    ([0x2713%N] ++ lit " Benchmark results saved to " ++ output_file self).

(** [BenchmarkLogger.save(self, metrics)] *)
Definition save (self : BenchmarkLogger) (metrics : BenchmarkMetrics)
  : M unit :=
  r <- attempt (save_body self metrics) ;;
  match r with
  | Ok _ => ret tt
  | Raise e =>
      raise (Exn OSError (lit "Failed to save benchmark results: " ++ exn_str e)
               (Some e))
  end.

(** [BenchmarkLogger.save] for an instance built from a dictionary. *)
Definition save_instance_body (self : BenchmarkLogger) (metrics : instance)
  : M unit :=
  there <- path_exists (output_file self) ;;
  results <- (if there then load_json E (output_file self)
              else ret (VList [])) ;;
  results <- lift (method_append results (VDict (instance_to_dict metrics))) ;;
  temp_file <- lift (with_suffix E (output_file self) (lit ".tmp")) ;;
  dump_json E temp_file results ;;;
  path_replace E temp_file (output_file self) ;;;
  print_symbol E
    ([0x2713%N] ++ lit " Benchmark results saved to " ++ output_file self).

Definition save_instance (self : BenchmarkLogger) (metrics : instance)
  : M unit :=
  r <- attempt (save_instance_body self metrics) ;;
  match r with
  | Ok _ => ret tt
  | Raise e =>
      raise (Exn OSError (lit "Failed to save benchmark results: " ++ exn_str e)
               (Some e))
  end.

(** [ontology, metrics = result] followed by [metrics.to_dict()], for a
    [result] that is a string and not a pair. *)
Definition unpack_text (s : pystr) : exn :=
  match s with
  | [_; _] =>
      Exn AttributeError (lit "'str' object has no attribute 'to_dict'") None
  | [] | [_] =>
      Exn ValueError
        (lit "not enough values to unpack (expected 2, got "
           ++ [N.of_nat (48 + length s)] ++ lit ")") None
  | _ => Exn ValueError (lit "too many values to unpack (expected 2)") None
  end.

(** The legacy function [generate_ontology_with_ollama(uml, model,
    benchmark)]. *)
Definition generate_ontology_with_ollama (uml model : pystr)
    (benchmark : bool) : M legacy_output :=
  let generator := {| self_model := model |} in
  result <- generate generator uml benchmark ;;
  if benchmark then
    match result with
    | WithMetrics ontology metrics => ret (WithDict ontology (to_dict metrics))
    | Content s => raise (unpack_text s)
    end
  else ret (Raw result).

(** The legacy function [save_benchmark_results(metrics, output_file)];
    [p] is the path [Path(output_file)] that the constructor of the
    logger keeps. *)
Definition save_benchmark_results (metrics : metrics_argument) (p : path)
  : M unit :=
  let logger := {| output_file := p |} in
  match metrics with
  | FromDict d =>
      metrics_obj <- lift (BenchmarkMetrics_init d) ;;
      save_instance logger metrics_obj
  | Object metrics_obj => save logger metrics_obj
  end.

End WithEnv.
End ollamaTest_V1.

(** * Vocabulary of the properties *)

(** ** Running a computation *)

(** What a computation started in the world [w] gives its caller, and the
    world it leaves. *)
Definition outcome {A} (m : M A) (w : world) : result A := fst (m w).
Definition after {A} (m : M A) (w : world) : world := snd (m w).

(** A reply in the shape the second and third versions read: a [message]
    with a [content], and no [choices]. *)
Definition message_shape (response content : pyval) : Prop :=
  exists d m,
    response = VDict d /\ dict_get (lit "choices") d = None
    /\ dict_get (lit "message") d = Some (VDict m)
    /\ dict_get (lit "content") m = Some content.

(** A text that is empty or made of whitespace only. *)
Definition blank (s : pystr) : Prop := Forall (fun c => isspace c = true) s.

(** The condition of the guard of [generate], for a text that passes it. *)
Definition accepted (uml : pystr) : Prop :=
  str_truthy uml = true /\ str_truthy (strip uml) = true.

(** ** One call of the class-based [generate] *)

Section Generate.
Import ollamaTest_V1.
Variable E : env.
Variable w : world.
Variable self : OntologyGenerator.
Variable uml : pystr.

(** The reply, or the exception, of the chat call that [generate] makes
    from the world [w]. *)
Definition reply : result pyval :=
  chat E (length (w_chats w)) (self_model self) (user_turn (_create_prompt uml)).

(** What leaves the [try] block: the trimmed content and the reply, or
    the exception of the chat call or of the extraction. *)
Definition try_block : result (pystr * pyval) :=
  match reply with
  | Ok response =>
      match extract response with
      | Ok content => Ok (content, response)
      | Raise e => Raise e
      end
  | Raise e => Raise e
  end.

(** The duration that the [finally] block measures: the second reading
    of the timer minus the first. *)
Definition measured : float :=
  fsub (clock E (S (w_ticks w))) (clock E (w_ticks w)).

(** The record that [_extract_metrics] builds from the world [w], or the
    exception it raises: of the encoding of the UML text, of the encoding
    of the content, of the token count. *)
Definition record (ontology : pystr) (response : pyval)
    (error_msg : option pystr) : result BenchmarkMetrics :=
  match encode_len uml with
  | Raise e => Raise e
  | Ok input_bytes =>
  match encode_len ontology with
  | Raise e => Raise e
  | Ok output_bytes =>
  match response_tokens response with
  | Raise e => Raise e
  | Ok tokens =>
      match tokens_per_sec tokens measured with
      | Raise e => Raise e
      | Ok tps =>
          Ok {| model := self_model self;
                timestamp := now_iso E (w_nows w);
                input_size_chars := len uml;
                input_size_kb := py_round (int_truediv input_bytes 1024) 3;
                generation_time_seconds := py_round measured 3;
                output_size_chars := len ontology;
                output_size_kb := py_round (int_truediv output_bytes 1024) 3;
                success := match error_msg with None => true | _ => false end;
                error := error_msg;
                tokens_generated := tokens;
                tokens_per_second := tps |}
      end
  end
  end
  end.

End Generate.

(** ** One call of the function-based [generate_ontology_with_ollama] *)

Section SecondVersion.
Import ollamaTest.
Variable E : env.
Variable w : world.
Variable uml model : pystr.

(** The reply, or the exception, of the chat call made from [w]. *)
Definition reply2 : result pyval :=
  chat E (length (w_chats w)) model (user_turn (prompt uml)).

(** What leaves the first lines of the [try] block: the reply and its
    content as received, or an exception. *)
Definition try_block2 : result (pyval * pyval) :=
  match reply2 with
  | Ok response =>
      match extract response with
      | Ok content => Ok (content, response)
      | Raise e => Raise e
      end
  | Raise e => Raise e
  end.

(** [end_time - start_time] *)
Definition measured2 : float :=
  fsub (clock E (S (w_ticks w))) (clock E (w_ticks w)).

(** The value stored under [k] in the metrics of a returned pair. *)
Definition field (k : string) (o : result output) : option pyval :=
  match o with
  | Ok (WithMetrics _ metrics) => dict_get (lit k) metrics
  | _ => None
  end.

(** What one call made from [w] gives its caller. *)
Definition run2 (benchmark : bool) : result output :=
  outcome (generate_ontology_with_ollama E uml model benchmark) w.

(** The four entries every metrics dictionary starts with, for a UML
    text that UTF-8 encodes. *)
Definition base_metrics : pydict :=
  [(lit "model", VStr model);
   (lit "timestamp", VStr (now_iso E (w_nows w)));
   (lit "input_size_chars", VInt (len uml));
   (lit "input_size_kb", VFloat (int_truediv (utf8_len uml) 1024))].

(** The entries that the [except] block stores. *)
Definition failed_entries (e : exn) : pydict :=
  [(lit "generation_time_seconds", VInt 0);
   (lit "output_size_chars", VInt 0);
   (lit "output_size_kb", VInt 0);
   (lit "success", VBool false);
   (lit "error", VStr (exn_str e))].

(** The entries that the [try] block stores for the reply text [T]. *)
Definition success_entries (T : pystr) : pydict :=
  [(lit "generation_time_seconds", VFloat (py_round measured2 3));
   (lit "output_size_chars", VInt (len T));
   (lit "output_size_kb", VFloat (int_truediv (utf8_len T) 1024));
   (lit "success", VBool true);
   (lit "error", VNone)].

(** The exception that the [try] block raises with [benchmark=True]:
    that of the chat call or of the extraction; or else that of measuring
    a content that has no length or no encoding; or else that of the
    division of the token count. *)
Definition try_raises2 (e : exn) : Prop :=
  try_block2 = Raise e
  \/ (exists content response,
        try_block2 = Ok (content, response)
        /\ (success_fields (clock E (w_ticks w)) (clock E (S (w_ticks w)))
              content = Raise e
            \/ exists fields d tokens,
                 success_fields (clock E (w_ticks w))
                   (clock E (S (w_ticks w))) content = Ok fields
                 /\ response = VDict d
                 /\ dict_get (lit "eval_count") d = Some tokens
                 /\ truediv tokens measured2 = Raise e)).

(** The shapes of the pair returned with [benchmark=True]. *)
Inductive produced : result output -> Prop :=
| produced_failed (e : exn) :
    try_block2 = Raise e
    \/ (exists content response,
          try_block2 = Ok (content, response)
          /\ success_fields (clock E (w_ticks w)) (clock E (S (w_ticks w)))
               content = Raise e) ->
    produced (Ok (WithMetrics (VStr []) (base_metrics ++ failed_entries e)))
| produced_plain (T : pystr) (d : pydict) :
    try_block2 = Ok (VStr T, VDict d) ->
    encodable T = true ->
    dict_get (lit "eval_count") d = None ->
    produced (Ok (WithMetrics (VStr T) (base_metrics ++ success_entries T)))
| produced_tokens (T : pystr) (d : pydict) (tokens : pyval) (q : float) :
    try_block2 = Ok (VStr T, VDict d) ->
    encodable T = true ->
    dict_get (lit "eval_count") d = Some tokens ->
    truediv tokens measured2 = Ok q ->
    produced (Ok (WithMetrics (VStr T)
                    (base_metrics ++ success_entries T
                       ++ [(lit "tokens_generated", tokens);
                           (lit "tokens_per_second", VFloat (py_round q 2))])))
| produced_failed_tokens (T : pystr) (d : pydict) (tokens : pyval) (e : exn) :
    try_block2 = Ok (VStr T, VDict d) ->
    encodable T = true ->
    dict_get (lit "eval_count") d = Some tokens ->
    truediv tokens measured2 = Raise e ->
    produced (Ok (WithMetrics (VStr [])
                    (base_metrics ++ failed_entries e
                       ++ [(lit "tokens_generated", tokens)]))).

End SecondVersion.

(** ** Well-formed replies *)

(** A reply whose message content is the text [T]. *)
Definition text_reply (response : pyval) (T : pystr) : Prop :=
  exists d m,
    response = VDict d
    /\ dict_get (lit "message") d = Some (VDict m)
    /\ dict_get (lit "content") m = Some (VStr T).

(** The token count of a reply, if there is one, is [None] or a number. *)
Definition token_count_ok (response : pyval) : Prop :=
  forall d v,
    response = VDict d -> dict_get (lit "eval_count") d = Some v ->
    v = VNone \/ exists f, as_float v = Ok f.

(** A well-formed reply with text [T]. *)
Definition well_formed_reply (response : pyval) (T : pystr) : Prop :=
  text_reply response T /\ token_count_ok response.

(** ** The results log *)

(** No file operation is refused. *)
Definition no_faults (E : env) : Prop := forall n op, io_fault E n op = None.

(** Stdout prints every line: its encoding has the characters of the
    script. *)
Definition stdout_prints (E : env) : Prop :=
  forall n s, stdout_fault E n s = None.

(** The line that [save] prints when it is done. *)
Definition saved_line (p : path) : pystr :=
  [0x2713%N] ++ lit " Benchmark results saved to " ++ p.

(** The JSON object that [save] stores for a record: the eight fields
    without default, then [error], [tokens_generated] and
    [tokens_per_second] where they are not [None]. *)
Definition stored (m : ollamaTest_V1.BenchmarkMetrics) : pyval :=
  VDict
    ([(lit "model", VStr (ollamaTest_V1.model m));
      (lit "timestamp", VStr (ollamaTest_V1.timestamp m));
      (lit "input_size_chars", VInt (ollamaTest_V1.input_size_chars m));
      (lit "input_size_kb", VFloat (ollamaTest_V1.input_size_kb m));
      (lit "generation_time_seconds",
       VFloat (ollamaTest_V1.generation_time_seconds m));
      (lit "output_size_chars", VInt (ollamaTest_V1.output_size_chars m));
      (lit "output_size_kb", VFloat (ollamaTest_V1.output_size_kb m));
      (lit "success", VBool (ollamaTest_V1.success m))]
       ++ match ollamaTest_V1.error m with
          | Some s => [(lit "error", VStr s)]
          | None => []
          end
       ++ (if is_none (ollamaTest_V1.tokens_generated m) then []
           else [(lit "tokens_generated", ollamaTest_V1.tokens_generated m)])
       ++ match ollamaTest_V1.tokens_per_second m with
          | Some f => [(lit "tokens_per_second", VFloat f)]
          | None => []
          end).

(** The list of records that a save finds at [p]: the empty list when the
    file does not exist, the list in the file when it holds one. *)
Definition log_at (fs : gmap path file) (p : path) : option (list pyval) :=
  match fs !! p with
  | None => Some []
  | Some (JsonDoc (VList l)) => Some l
  | Some _ => None
  end.

(** [N] sequential calls of [save], one per record. *)
Fixpoint save_all (E : env) (self : ollamaTest_V1.BenchmarkLogger)
    (ms : list ollamaTest_V1.BenchmarkMetrics) : M unit :=
  match ms with
  | [] => ret tt
  | m :: ms' => ollamaTest_V1.save E self m ;;; save_all E self ms'
  end.

(** The same for [save_benchmark_results]. *)
Fixpoint save_all2 (E : env) (output_file : path) (ms : list pyval) : M unit :=
  match ms with
  | [] => ret tt
  | m :: ms' =>
      ollamaTest.save_benchmark_results E m output_file ;;;
      save_all2 E output_file ms'
  end.

(** ** Further vocabulary *)

(** A reply in the shape the first version reads: a list [choices] whose
    first element has a [message] with a [content]. *)
Definition choices_shape (response content : pyval) : Prop :=
  exists d choice rest m,
    response = VDict d
    /\ dict_get (lit "choices") d = Some (VList (VDict choice :: rest))
    /\ dict_get (lit "message") choice = Some (VDict m)
    /\ dict_get (lit "content") m = Some content.



(** The two calls that build the log in the example of the class-based
    version: [generate] with [benchmark=True], then [save] of the record
    it returned. *)
Definition generate_and_save (E : env)
    (generator : ollamaTest_V1.OntologyGenerator)
    (logger : ollamaTest_V1.BenchmarkLogger) (uml : pystr) : M pystr :=
  r <- ollamaTest_V1.generate E generator uml true ;;
  match r with
  | ollamaTest_V1.WithMetrics ontology metrics =>
      ollamaTest_V1.save E logger metrics ;;; ret ontology
  | ollamaTest_V1.Content ontology => ret ontology
  end.

(** The same two calls through the legacy functions, as [run.py] makes
    them: the metrics travel as a dictionary. *)
Definition legacy_generate_and_save (E : env) (uml model : pystr) (p : path)
  : M pystr :=
  r <- ollamaTest_V1.generate_ontology_with_ollama E uml model true ;;
  match r with
  | ollamaTest_V1.WithDict ontology metrics =>
      ollamaTest_V1.save_benchmark_results E (ollamaTest_V1.FromDict metrics) p
      ;;; ret ontology
  | ollamaTest_V1.Raw o => ret (ollamaTest_V1.content_of o)
  end.

(** Dictionaries with the keys of the function-based version, whatever
    their values. *)
Definition nine_entries (v1 v2 v3 v4 v5 v6 v7 v8 v9 : pyval) : pydict :=
  [(lit "model", v1); (lit "timestamp", v2); (lit "input_size_chars", v3);
   (lit "input_size_kb", v4); (lit "generation_time_seconds", v5);
   (lit "output_size_chars", v6); (lit "output_size_kb", v7);
   (lit "success", v8); (lit "error", v9)].

(** ** Sample data *)

(** [with_suffix] on a path that ends in a file name: the last
    extension of the name, if it has one, is replaced (46 is the dot, 47
    the slash). *)
Fixpoint drop_extension (rev_name : pystr) : option pystr :=
  match rev_name with
  | [] => None
  | c :: rest =>
      if (c =? 46)%N then
        match rest with
        | [] => None
        | c' :: _ => if (c' =? 47)%N then None else Some rest
        end
      else if (c =? 47)%N then None
      else drop_extension rest
  end.

Definition replace_suffix (p suffix : pystr) : result path :=
  match p with
  | [] => Raise (Exn ValueError (lit "PosixPath('.') has an empty name") None)
  | _ =>
      match rev p with
      | c :: rest =>
          if (c =? 46)%N then Ok (p ++ suffix)
          else match drop_extension (c :: rest) with
               | Some stem => Ok (rev stem ++ suffix)
               | None => Ok (p ++ suffix)
               end
      | [] => Ok (p ++ suffix)
      end
  end.

(** A concrete environment: the timer readings [ticks] (then zero), one
    reply for every chat call, no file operation refused. *)
Definition simple_env (ticks : list float) (reply : result pyval) : env :=
  {| clock := fun n => nth n ticks fzero;
     now_iso := fun _ => lit "2025-01-01T00:00:00";
     chat := fun _ _ _ => reply;
     io_fault := fun _ _ => None;
     stdout_fault := fun _ _ => None;
     with_suffix := replace_suffix |}.

(** A reply of the chat endpoint with the given message content and
    further entries. *)
Definition reply_of (content : pyval) (extra : pydict) : pyval :=
  VDict ((lit "message",
           VDict [(lit "role", VStr (lit "assistant"));
                  (lit "content", content)]) :: extra).

(** An exception of the transport under the chat call. *)
Definition connection_refused : exn :=
  Exn (LibraryError (lit "ConnectionError")) (lit "connection refused") None.

(** [OntologyGenerator()] with its default model. *)
Definition llama : ollamaTest_V1.OntologyGenerator :=
  {| ollamaTest_V1.self_model := ollamaTest_V1.DEFAULT_MODEL |}.


(** The example of the specification: 26 tokens in 2 seconds. *)
Definition example_env (tokens : pyval) : env :=
  simple_env [float_of_int 10; float_of_int 12]
    (Ok (reply_of (VStr (lit "ontology-text")) [(lit "eval_count", tokens)])).

(** [BenchmarkLogger()] with its default path. *)
Definition results_file : path := lit "benchmark_results.json".

Definition logger : ollamaTest_V1.BenchmarkLogger :=
  {| ollamaTest_V1.output_file := results_file |}.

(** A record as [save] receives it. *)
Definition sample_record (success : bool) (error : option pystr)
  : ollamaTest_V1.BenchmarkMetrics :=
  {| ollamaTest_V1.model := lit "x";
     ollamaTest_V1.timestamp := lit "2025-01-01T00:00:00";
     ollamaTest_V1.input_size_chars := 8;
     ollamaTest_V1.input_size_kb := int_truediv 8 1000;
     ollamaTest_V1.generation_time_seconds := float_of_int 2;
     ollamaTest_V1.output_size_chars := 13;
     ollamaTest_V1.output_size_kb := int_truediv 13 1000;
     ollamaTest_V1.success := success;
     ollamaTest_V1.error := error;
     ollamaTest_V1.tokens_generated := VNone;
     ollamaTest_V1.tokens_per_second := None |}.

(** An empty results file, which is no JSON document, and an operating
    system that refuses to open files for writing. *)
Definition broken_world : world :=
  World 0 0 [] [] 0 {[ results_file := truncated ]}.


(** A results file that holds one record, and a full disk: files open,
    every write is refused. *)
Definition logged_world : world :=
  World 0 0 [] [] 0
    {[ results_file :=
         JsonDoc (VList [VDict (ollamaTest_V1.to_dict (sample_record true None))]) ]}.

Definition no_space_left : exn :=
  Exn OSError (lit "[Errno 28] No space left on device") None.

Definition disk_full_env : env :=
  {| clock := fun _ => fzero;
     now_iso := fun _ => lit "2025-01-01T00:00:00";
     chat := fun _ _ _ => Ok VNone;
     io_fault := fun _ op =>
       match op with
       | WriteAll _ => Some no_space_left
       | _ => None
       end;
     stdout_fault := fun _ _ => None;
     with_suffix := replace_suffix |}.

(** A stdout in the ASCII encoding, which has no check mark: nothing
    else is refused. *)
Definition no_check_mark : exn :=
  Exn UnicodeEncodeError
    (lit "'ascii' codec can't encode character '" ++ [92%N]
       ++ lit "u2713' in position 0: ordinal not in range(128)") None.

Definition ascii_stdout_env : env :=
  {| clock := fun _ => fzero;
     now_iso := fun _ => lit "2025-01-01T00:00:00";
     chat := fun _ _ _ => Ok VNone;
     io_fault := fun _ _ => None;
     stdout_fault := fun _ _ => Some no_check_mark;
     with_suffix := replace_suffix |}.

(** A text with a lone surrogate. *)
Definition lone_surrogate : pystr := lit "<model>" ++ [0xD800%N] ++ lit "</model>".

(** * Facts *)

(** ** Rounding *)

Example round_one_byte :
  py_round (int_truediv 1 1024) 3 = S754_finite false 4611686018427388 (-62).
Proof. vm_compute. reflexivity. Qed.

(* 2.675 is stored as 2.67499999999999982236431605997495353221893310546875 *)
Example round_2_675 :
  py_round (int_truediv 2675 1000) 2 = int_truediv 267 100.
Proof. vm_compute. reflexivity. Qed.

Example round_tie_even :
  py_round (int_truediv 1 8) 2 = int_truediv 12 100.
Proof. vm_compute. reflexivity. Qed.

Example tokens_per_second_example :
  py_round (fdiv (float_of_int 26) (float_of_int 2)) 2 = float_of_int 13.
Proof. vm_compute. reflexivity. Qed.

(** ** Encoding *)

Example encode_lone_surrogate :
  encode_len (lit "a" ++ [0xD800%N])
  = Raise (Exn UnicodeEncodeError
             (lit "'utf-8' codec can't encode character '" ++ [92%N]
                ++ lit "ud800' in position 1: surrogates not allowed") None).
Proof. vm_compute. reflexivity. Qed.

Example encode_run_of_surrogates :
  encode_len ([0xDFFF; 0xD800; 0xDBFF]%N ++ lit " x")
  = Raise (Exn UnicodeEncodeError
             (lit "'utf-8' codec can't encode characters in position 0-2: surrogates not allowed")
             None).
Proof. vm_compute. reflexivity. Qed.

Example encode_later_surrogate :
  encode_len (lit "abababababab" ++ [0xDABC%N])
  = Raise (Exn UnicodeEncodeError
             (lit "'utf-8' codec can't encode character '" ++ [92%N]
                ++ lit "udabc' in position 12: surrogates not allowed") None).
Proof. vm_compute. reflexivity. Qed.

Example encode_check_mark : encode_len ([0x2713%N] ++ lit " ok") = Ok 6.
Proof. vm_compute. reflexivity. Qed.

Lemma encode_len_encodable (s : pystr) :
  encodable s = true -> encode_len s = Ok (utf8_len s).
Proof. unfold encode_len. intros ->. reflexivity. Qed.

Lemma encode_len_surrogate (s : pystr) :
  encodable s = false -> encode_len s = Raise (surrogates_not_allowed s).
Proof. unfold encode_len. intros ->. reflexivity. Qed.

Lemma encode_len_inv (s : pystr) (n : Z) :
  encode_len s = Ok n -> encodable s = true /\ n = utf8_len s.
Proof.
  unfold encode_len. destruct (encodable s); [|discriminate].
  intros [= <-]. split; reflexivity.
Qed.

Lemma encode_len_raise (s : pystr) (e : exn) :
  encode_len s = Raise e -> encodable s = false /\ e = surrogates_not_allowed s.
Proof.
  unfold encode_len. destruct (encodable s); [discriminate|].
  intros [= <-]. split; reflexivity.
Qed.

Lemma isspace_not_surrogate (c : N) : isspace c = true -> is_surrogate c = false.
Proof.
  unfold isspace, is_surrogate. intros H.
  apply andb_false_iff. destruct (N.leb_spec 0xD800 c) as [Hc|Hc];
    [|left; reflexivity].
  exfalso. revert H.
  repeat match goal with
         | |- context [(?a <=? ?b)%N] =>
             destruct (N.leb_spec a b); try lia
         | |- context [(?a =? ?b)%N] =>
             destruct (N.eqb_spec a b); try lia
         end; cbn; discriminate.
Qed.

Lemma encodable_lstrip (s : pystr) :
  encodable s = true -> encodable (lstrip s) = true.
Proof.
  induction s as [|c s IH]; cbn; [reflexivity|].
  destruct (isspace c); [|tauto].
  intros H. apply andb_prop in H as [_ H]. exact (IH H).
Qed.

Lemma encodable_rev (s : pystr) : encodable (rev s) = encodable s.
Proof.
  unfold encodable.
  destruct (forallb _ s) eqn:Hs.
  - apply forallb_forall. intros c Hc. apply in_rev in Hc.
    exact (proj1 (forallb_forall _ _) Hs c Hc).
  - destruct (forallb _ (rev s)) eqn:Hr; [|reflexivity].
    rewrite <- Hs. symmetry. apply forallb_forall. intros c Hc.
    apply in_rev in Hc. exact (proj1 (forallb_forall _ _) Hr c Hc).
Qed.

(** Trimming keeps a text encodable. *)
Lemma encodable_strip (s : pystr) :
  encodable s = true -> encodable (strip s) = true.
Proof.
  intros H. unfold strip, rstrip. rewrite encodable_rev.
  apply encodable_lstrip. rewrite encodable_rev.
  apply encodable_lstrip, H.
Qed.

#[global] Arguments encode_len : simpl never.
#[global] Arguments encodable : simpl never.
#[global] Arguments lit : simpl never.
#[global] Arguments fsub : simpl never.
#[global] Arguments fdiv : simpl never.
#[global] Arguments fltb : simpl never.
#[global] Arguments py_round : simpl never.
#[global] Arguments int_truediv : simpl never.
#[global] Arguments float_of_int : simpl never.
#[global] Arguments strip : simpl never.
#[global] Arguments utf8_len : simpl never.
#[global] Arguments str_eqb : simpl never.
#[global] Arguments ollamaTest_V1.to_dict : simpl never.

(** C9: a reply in the message/content shape of the later versions makes
    the first version fail on ['choices']: the extraction of the later
    version yields the content, the extraction of the first version raises
    [KeyError], and the first version's function prints the error and
    returns the empty string, not the message content. *)
Theorem first_version_misses_message_content :
  forall (E : env) (w : world) (uml model : pystr) (response content : pyval),
    message_shape response content ->
    chat E (length (w_chats w)) model (user_turn (ollama.prompt uml))
      = Ok response ->
    ollamaTest.extract response = Ok content
    /\ ollama.extract response = Raise (Exn KeyError (lit "'choices'") None)
    /\ outcome (ollama.generate_ontology_with_ollama E uml model) w
       = Ok (VStr [])
    /\ w_out (after (ollama.generate_ontology_with_ollama E uml model) w)
       = w_out w ++ [lit "Error generating ontology with Ollama: 'choices'"]
    /\ (content <> VStr [] ->
        outcome (ollama.generate_ontology_with_ollama E uml model) w
        <> Ok content).
Proof.
  intros E w uml model response content (d & m & -> & Hc & Hm & Hk) Hchat.
  assert (Hx : ollama.extract (VDict d)
               = Raise (Exn KeyError (lit "'choices'") None)).
  { unfold ollama.extract. cbn. rewrite Hc. reflexivity. }
  split; [|split; [exact Hx|]].
  - unfold ollamaTest.extract. cbn. rewrite Hm. cbn. rewrite Hk. reflexivity.
  - unfold outcome, after, ollama.generate_ontology_with_ollama, bind, attempt,
      ollama_chat, lift, print, ret.
    cbn. rewrite Hchat, Hx. cbn. split; [reflexivity|].
    split; [reflexivity|]. intros Hne [= <-]. apply Hne. reflexivity.
Qed.

Lemma first_version_misses_message_content_witness :
  let response := reply_of (VStr (lit "@prefix owl: <x> .")) [] in
  let E := simple_env [] (Ok response) in
  message_shape response (VStr (lit "@prefix owl: <x> ."))
  /\ ollamaTest.extract response = Ok (VStr (lit "@prefix owl: <x> ."))
  /\ outcome (ollama.generate_ontology_with_ollama E (lit "<model/>")
                ollama.default_model) world0
     = Ok (VStr []).
Proof.
  intros response E.
  assert (Hs : message_shape response (VStr (lit "@prefix owl: <x> ."))).
  { eexists _, _. repeat split; vm_compute; reflexivity. }
  split; [exact Hs|].
  pose proof (first_version_misses_message_content E world0 (lit "<model/>")
                ollama.default_model response _ Hs eq_refl) as H.
  split; [apply H | apply H].
Defined.

(** ** Validation of the UML text *)

Lemma lstrip_blank (s : pystr) : blank s -> lstrip s = [].
Proof.
  induction 1 as [|c s Hc _ IH]; cbn; [reflexivity|].
  rewrite Hc. exact IH.
Qed.

Lemma strip_blank (s : pystr) : blank s -> strip s = [].
Proof.
  intros H. unfold strip, rstrip. rewrite (lstrip_blank s H). reflexivity.
Qed.

Ltac run :=
  unfold outcome, after, bind, attempt, lift, ret, raise, print,
    time_time, perf_counter, datetime_now_isoformat, ollama_chat; cbn.

(** A blank text has an encoding. *)
Lemma blank_encodable (s : pystr) : blank s -> encodable s = true.
Proof.
  intros H. apply forallb_forall. intros c Hc. unfold blank in H.
  rewrite Forall_forall in H. rewrite (isspace_not_surrogate c); [reflexivity|].
  apply H. apply list_elem_of_In. exact Hc.
Qed.

(** The second version calls the chat endpoint once, whatever the text
    that UTF-8 encodes. *)
Lemma second_version_always_calls (E : env) (w : world) (uml model : pystr)
    (benchmark : bool) :
  encodable uml = true ->
  w_chats (after (ollamaTest.generate_ontology_with_ollama E uml model
                    benchmark) w)
  = w_chats w ++ [(model, user_turn (ollamaTest.prompt uml))].
Proof.
  intros Hu.
  unfold ollamaTest.generate_ontology_with_ollama, ollamaTest.token_fields,
    ollamaTest.on_error.
  rewrite (encode_len_encodable uml Hu).
  run.
  destruct (chat E _ _ _) as [response|e]; cbn.
  - destruct (ollamaTest.extract response) as [c|e]; cbn;
      [|destruct benchmark; reflexivity].
    destruct benchmark; [|reflexivity].
    destruct (ollamaTest.success_fields _ _ c); [|reflexivity].
    destruct (key_in _ response) as [[|]|]; try reflexivity.
    destruct (method_get response _ _); [|reflexivity].
    destruct (truediv _ _); reflexivity.
  - destruct benchmark; reflexivity.
Qed.

(** C3, as amended: in the class-based version an empty or blank UML text
    makes [generate] raise [ValueError] before anything else happens, so
    no chat call is made; the function-based version has no such check and
    makes its chat call for these texts too. *)
Theorem blank_uml_is_rejected_by_generate_only :
  forall (E : env) (w : world) (uml : pystr),
    blank uml ->
    (forall (self : ollamaTest_V1.OntologyGenerator) (benchmark : bool),
        outcome (ollamaTest_V1.generate E self uml benchmark) w
        = Raise (Exn ValueError (lit "UML input cannot be empty") None)
        /\ after (ollamaTest_V1.generate E self uml benchmark) w = w)
    /\ (forall (model : pystr) (benchmark : bool),
          length (w_chats (after (ollamaTest.generate_ontology_with_ollama
                                    E uml model benchmark) w))
          = S (length (w_chats w))).
Proof.
  intros E w uml Hb. split.
  - intros self benchmark. unfold ollamaTest_V1.generate.
    rewrite (strip_blank uml Hb). cbn.
    rewrite orb_true_r. split; reflexivity.
  - intros model benchmark.
    rewrite second_version_always_calls by exact (blank_encodable uml Hb).
    rewrite length_app. cbn. lia.
Qed.

Lemma blank_uml_is_rejected_by_generate_only_witness :
  let E := simple_env [] (Ok (reply_of (VStr (lit "ttl")) [])) in
  let uml := lit "  " ++ [0x0A%N; 0x09%N] in
  blank uml
  /\ outcome (ollamaTest_V1.generate E {| ollamaTest_V1.self_model := lit "m" |}
                uml true) world0
     = Raise (Exn ValueError (lit "UML input cannot be empty") None).
Proof.
  intros E uml.
  assert (Hb : blank uml) by (repeat constructor).
  split; [exact Hb|].
  apply (blank_uml_is_rejected_by_generate_only E world0 uml Hb).
Defined.

(** C3 fails for the function-based version: with the empty text it
    calls the chat endpoint and returns normally. *)
Lemma second_version_accepts_empty_uml :
  let E := simple_env [] (Ok (reply_of (VStr (lit "ttl")) [])) in
  blank []
  /\ (exists o,
        outcome (ollamaTest.generate_ontology_with_ollama E [] (lit "m") true)
          world0 = Ok o)
  /\ length (w_chats (after (ollamaTest.generate_ontology_with_ollama
                               E [] (lit "m") true) world0)) = 1%nat.
Proof.
  intros E. split; [constructor|]. split.
  - eexists. vm_compute. reflexivity.
  - vm_compute. reflexivity.
Qed.

(** ** The class-based [generate], case by case *)

Section GenerateFacts.
Import ollamaTest_V1.
Variable E : env.
Variable w : world.
Variable self : OntologyGenerator.
Variable uml : pystr.

Lemma generate_outcome (benchmark : bool) :
  accepted uml ->
  outcome (generate E self uml benchmark) w
  = match try_block E w self uml with
    | Ok (content, response) =>
        if benchmark then
          match record E w self uml content response None with
          | Ok m => Ok (WithMetrics content m)
          | Raise e => Raise e
          end
        else Ok (Content content)
    | Raise e =>
        if benchmark then
          match record E w self uml [] VNone (Some (error_message e)) with
          | Ok m => Ok (WithMetrics [] m)
          | Raise e' => Raise e'
          end
        else Raise (runtime_error e)
    end.
Proof.
  intros [H1 H2]. unfold generate, try_block, record, reply, measured.
  rewrite H1, H2. cbn [negb orb].
  unfold call, _extract_metrics, _calculate_size. run.
  destruct (chat E _ _ _) as [response|e]; cbn.
  - destruct (extract response) as [content|e]; cbn.
    + destruct benchmark; [|reflexivity].
      destruct (encode_len uml); cbn; [|reflexivity].
      destruct (encode_len content); cbn; [|reflexivity].
      destruct (response_tokens response) as [tokens|e]; cbn; [|reflexivity].
      destruct (tokens_per_sec tokens _) as [tps|e]; reflexivity.
    + destruct benchmark; [|reflexivity].
      destruct (encode_len uml); reflexivity.
  - destruct benchmark; [|reflexivity].
    destruct (encode_len uml); reflexivity.
Qed.

(** The chat call is made once, by every accepted call of [generate]. *)
Lemma generate_calls_once (benchmark : bool) :
  accepted uml ->
  w_chats (after (generate E self uml benchmark) w)
  = w_chats w ++ [(self_model self, user_turn (_create_prompt uml))].
Proof.
  intros [H1 H2]. unfold generate. rewrite H1, H2. cbn [negb orb].
  unfold call, _extract_metrics, _calculate_size. run.
  destruct (chat E _ _ _) as [response|e]; cbn.
  - destruct (extract response) as [content|e]; cbn.
    + destruct benchmark; [|reflexivity].
      destruct (encode_len uml); cbn; [|reflexivity].
      destruct (encode_len content); cbn; [|reflexivity].
      destruct (response_tokens response) as [tokens|e]; cbn; [|reflexivity].
      destruct (tokens_per_sec tokens _) as [tps|e]; reflexivity.
    + destruct benchmark; [|reflexivity].
      destruct (encode_len uml); reflexivity.
  - destruct benchmark; [|reflexivity].
    destruct (encode_len uml); reflexivity.
Qed.

End GenerateFacts.

(** ** The function-based [generate_ontology_with_ollama], case by case *)

(** ** The function-based [generate_ontology_with_ollama], case by case *)

Lemma N_of_ascii_inj (a b : ascii) : N_of_ascii a = N_of_ascii b -> a = b.
Proof.
  intros H. rewrite <- (ascii_N_embedding a), <- (ascii_N_embedding b), H.
  reflexivity.
Qed.

Lemma lit_inj (a b : string) : lit a = lit b -> a = b.
Proof.
  revert b. induction a as [|x a IH]; intros [|y b]; cbn; try discriminate.
  - reflexivity.
  - unfold lit. cbn. intros H. injection H as Hx Hr.
    apply N_of_ascii_inj in Hx. apply IH in Hr. congruence.
Qed.

(** Comparing two literal keys. *)
Lemma str_eqb_lit (a b : string) : str_eqb (lit a) (lit b) = String.eqb a b.
Proof.
  unfold str_eqb. destruct (String.eqb_spec a b) as [->|Hne].
  - apply bool_decide_eq_true. reflexivity.
  - apply bool_decide_eq_false. intros H. apply Hne, lit_inj, H.
Qed.

Ltac keys :=
  repeat (cbn [dict_update dict_set dict_get dict_has fold_left fst snd];
          rewrite ?str_eqb_lit;
          cbn [String.eqb Ascii.eqb Bool.eqb andb]).

Section SecondVersionFacts.
Import ollamaTest.
Variable E : env.
Variable w : world.
Variable uml model : pystr.

(** A UML text with a lone surrogate: the function raises while it
    builds its first dictionary, after asking the date and before the
    [try] block. *)
Lemma run2_unencodable (benchmark : bool) :
  encodable uml = false ->
  generate_ontology_with_ollama E uml model benchmark w
  = (Raise (surrogates_not_allowed uml),
     World (w_ticks w) (S (w_nows w)) (w_chats w) (w_out w) (w_io w) (w_fs w)).
Proof.
  intros Hu. unfold generate_ontology_with_ollama.
  rewrite (encode_len_surrogate uml Hu). reflexivity.
Qed.

Lemma run2_failed (e : exn) :
  encodable uml = true ->
  try_block2 E w uml model = Raise e ->
  run2 E w uml model true
  = Ok (WithMetrics (VStr [])
          [(lit "model", VStr model);
           (lit "timestamp", VStr (now_iso E (w_nows w)));
           (lit "input_size_chars", VInt (len uml));
           (lit "input_size_kb", VFloat (int_truediv (utf8_len uml) 1024));
           (lit "generation_time_seconds", VInt 0);
           (lit "output_size_chars", VInt 0);
           (lit "output_size_kb", VInt 0);
           (lit "success", VBool false);
           (lit "error", VStr (exn_str e))])
  /\ run2 E w uml model false = Ok (Content (VStr [])).
Proof.
  intros Hu.
  unfold try_block2, reply2, run2, generate_ontology_with_ollama, on_error.
  rewrite (encode_len_encodable uml Hu).
  run. destruct (chat E _ _ _) as [response|e']; cbn.
  - destruct (extract response) as [content|e']; [discriminate|].
    intros [= ->]. cbn. keys. split; reflexivity.
  - intros [= ->]. keys. split; reflexivity.
Qed.

Lemma run2_plain (content response : pyval) :
  encodable uml = true ->
  try_block2 E w uml model = Ok (content, response) ->
  run2 E w uml model false = Ok (Content content).
Proof.
  intros Hu.
  unfold try_block2, reply2, run2, generate_ontology_with_ollama.
  rewrite (encode_len_encodable uml Hu).
  run. destruct (chat E _ _ _) as [r|e']; cbn; [|discriminate].
  destruct (extract r) as [c|e']; [|discriminate].
  intros [= -> ->]. reflexivity.
Qed.

End SecondVersionFacts.

Section SecondVersionRecords.
Import ollamaTest.
Variable E : env.
Variable w : world.
Variable uml model : pystr.

Lemma extract_dict (response content : pyval) :
  extract response = Ok content -> exists d, response = VDict d.
Proof.
  destruct response; cbn; try discriminate. intros _. eexists. reflexivity.
Qed.

(** Only a text that UTF-8 encodes can be measured. *)
Lemma success_fields_inv (start_time end_time : float) (content : pyval)
    (fields : pydict) :
  success_fields start_time end_time content = Ok fields ->
  exists T,
    content = VStr T /\ encodable T = true
    /\ fields
       = [(lit "generation_time_seconds",
            VFloat (py_round (fsub end_time start_time) 3));
          (lit "output_size_chars", VInt (len T));
          (lit "output_size_kb", VFloat (int_truediv (utf8_len T) 1024));
          (lit "success", VBool true);
          (lit "error", VNone)].
Proof.
  unfold success_fields.
  destruct content as [| | | |T|l|d]; cbn; try discriminate.
  destruct (encode_len T) as [n|e] eqn:Hn; [|discriminate].
  apply encode_len_inv in Hn as [HT ->].
  intros [= <-]. exists T. repeat split. exact HT.
Qed.

Lemma run2_produced :
  encodable uml = true -> produced E w uml model (run2 E w uml model true).
Proof.
  intros Hu.
  destruct (try_block2 E w uml model) as [[content response]|e] eqn:Ht.
  2:{ destruct (run2_failed E w uml model e Hu Ht) as [-> _].
      apply produced_failed. left. exact Ht. }
  pose proof Ht as Ht0. revert Ht.
  unfold try_block2, reply2, run2, generate_ontology_with_ollama, token_fields,
    on_error.
  rewrite (encode_len_encodable uml Hu).
  run. destruct (chat E _ _ _) as [r|e'] eqn:Hc; cbn; [|discriminate].
  destruct (extract r) as [c|e'] eqn:Hx; [|discriminate].
  intros [= -> ->]. cbn.
  destruct (extract_dict _ _ Hx) as [d ->].
  destruct (success_fields _ _ content) as [fields|e] eqn:Hs.
  2:{ cbn. keys. apply produced_failed. right.
      eexists _, _. split; [exact Ht0|exact Hs]. }
  apply success_fields_inv in Hs as (T & -> & HT & ->).
  cbn. keys. unfold dict_has.
  destruct (dict_get (lit "eval_count") d) as [tokens|] eqn:Hd; cbn; keys.
  - destruct (truediv tokens _) as [q|e] eqn:Hq; cbn; keys.
    + eapply (produced_tokens E w uml model T d tokens q); eauto.
    + eapply (produced_failed_tokens E w uml model T d tokens e); eauto.
  - eapply (produced_plain E w uml model T d); eauto.
Qed.

(** What a call with [benchmark=True] gives its caller: the
    [UnicodeEncodeError] of the UML text, or a pair in one of the shapes
    of [produced]. *)
Lemma run2_cases :
  (encodable uml = false
   /\ run2 E w uml model true = Raise (surrogates_not_allowed uml))
  \/ (encodable uml = true /\ produced E w uml model (run2 E w uml model true)).
Proof.
  destruct (encodable uml) eqn:Hu.
  - right. split; [reflexivity|exact (run2_produced Hu)].
  - left. split; [reflexivity|]. unfold run2, outcome.
    rewrite (run2_unencodable E w uml model true Hu). reflexivity.
Qed.

End SecondVersionRecords.

(** ** Failure of the generation step *)

Lemma truediv_raises (x : pyval) (d : float) (e : exn) :
  truediv x d = Raise e -> exn_cls e <> RuntimeError.
Proof.
  unfold truediv, as_float.
  destruct x; try (intros [= <-]; discriminate).
  - destruct (is_zero d); intros [= <-]; discriminate.
  - destruct (is_finite _); [destruct (is_zero d)|]; intros [= <-];
      discriminate.
  - destruct (is_zero d); intros [= <-]; discriminate.
Qed.

Lemma record_raises (E : env) (w : world)
    (self : ollamaTest_V1.OntologyGenerator) (uml ontology : pystr)
    (response : pyval) (msg : option pystr) (e : exn) :
  record E w self uml ontology response msg = Raise e ->
  exn_cls e <> RuntimeError.
Proof.
  unfold record.
  destruct (encode_len uml) as [ib|e1] eqn:H1.
  2:{ intros [= <-]. apply encode_len_raise in H1 as [_ ->]. discriminate. }
  destruct (encode_len ontology) as [ob|e2] eqn:H2.
  2:{ intros [= <-]. apply encode_len_raise in H2 as [_ ->]. discriminate. }
  unfold ollamaTest_V1.response_tokens, ollamaTest_V1.tokens_per_sec.
  destruct (truthy response).
  - destruct response; cbn; try (intros [= <-]; discriminate).
    destruct (_ && _); [|discriminate].
    destruct (truediv _ _) eqn:Hq; [discriminate|].
    intros [= <-]. eapply truediv_raises, Hq.
  - cbn. discriminate.
Qed.

(** C10, as amended: in the class-based version, when the [try] block of
    [generate] fails (the chat call raises, or the reply lacks the
    expected fields) on a UML text that UTF-8 encodes, a call with
    [benchmark=True] returns the pair of the empty string and a failed
    record; a call with [benchmark=False] raises the [RuntimeError]; with
    [benchmark=True] no [RuntimeError] reaches the caller at all, whatever
    the text. *)
Theorem generate_benchmark_swallows_failure :
  forall (E : env) (w : world) (self : ollamaTest_V1.OntologyGenerator)
         (uml : pystr),
    (forall e,
        accepted uml ->
        try_block E w self uml = Raise e ->
        (encodable uml = true ->
         exists m,
           outcome (ollamaTest_V1.generate E self uml true) w
           = Ok (ollamaTest_V1.WithMetrics [] m)
           /\ ollamaTest_V1.success m = false
           /\ ollamaTest_V1.error m
              = Some (ollamaTest_V1.error_message e))
        /\ outcome (ollamaTest_V1.generate E self uml false) w
           = Raise (Exn RuntimeError (ollamaTest_V1.error_message e) (Some e)))
    /\ (forall e',
          outcome (ollamaTest_V1.generate E self uml true) w = Raise e' ->
          exn_cls e' <> RuntimeError).
Proof.
  intros E w self uml. split.
  - intros e Ha Ht. rewrite !generate_outcome by exact Ha. rewrite Ht. cbn.
    split; [|reflexivity]. intros Hu. unfold record.
    rewrite (encode_len_encodable uml Hu). cbn.
    eexists. repeat split.
  - intros e'.
    destruct (str_truthy uml) eqn:H1;
      [destruct (str_truthy (strip uml)) eqn:H2|].
    + rewrite generate_outcome by (split; assumption).
      destruct (try_block E w self uml) as [[content response]|e]; cbn.
      * destruct (record _ _ _ _ content response None) eqn:Hr;
          [discriminate|].
        intros [= <-]. eapply record_raises, Hr.
      * destruct (record _ _ _ _ [] VNone _) eqn:Hr; [discriminate|].
        intros [= <-]. eapply record_raises, Hr.
    + unfold ollamaTest_V1.generate, outcome. rewrite H1, H2. cbn.
      intros [= <-]. discriminate.
    + unfold ollamaTest_V1.generate, outcome. rewrite H1. cbn.
      intros [= <-]. discriminate.
Qed.

(** A chat call that raises makes the [try] block fail with the same
    exception. *)
Lemma chat_failure_fails_try_block (E : env) (w : world)
    (self : ollamaTest_V1.OntologyGenerator) (uml : pystr) (e : exn) :
  reply E w self uml = Raise e -> try_block E w self uml = Raise e.
Proof. unfold try_block. intros ->. reflexivity. Qed.

Lemma generate_benchmark_swallows_failure_witness :
  let E := simple_env [float_of_int 10; float_of_int 12]
             (Raise connection_refused) in
  accepted (lit "<model/>")
  /\ try_block E world0 llama (lit "<model/>") = Raise connection_refused
  /\ (exists m,
         outcome (ollamaTest_V1.generate E llama (lit "<model/>") true) world0
         = Ok (ollamaTest_V1.WithMetrics [] m))
  /\ outcome (ollamaTest_V1.generate E llama (lit "<model/>") false) world0
     = Raise (Exn RuntimeError
                (lit "Ollama API error: ConnectionError: connection refused")
                (Some connection_refused)).
Proof.
  intros E.
  assert (Ha : accepted (lit "<model/>")) by (split; reflexivity).
  assert (Ht : try_block E world0 llama (lit "<model/>")
               = Raise connection_refused) by reflexivity.
  destruct (generate_benchmark_swallows_failure E world0 llama (lit "<model/>"))
    as [H _].
  destruct (H connection_refused Ha Ht) as [Hp Hf].
  destruct (Hp eq_refl) as [m [Hm _]].
  split; [exact Ha|]. split; [exact Ht|].
  split; [exists m; exact Hm | exact Hf].
Defined.

(** C10 fails for a UML text with a lone surrogate: the chat call is
    refused, and the caller of [generate] with [benchmark=True] receives
    no pair but the [UnicodeEncodeError] that [_calculate_size] raises in
    the [finally] block. *)
Lemma surrogate_uml_escapes_the_finally_block :
  let E := simple_env [float_of_int 10; float_of_int 12]
             (Raise connection_refused) in
  accepted lone_surrogate
  /\ try_block E world0 llama lone_surrogate = Raise connection_refused
  /\ outcome (ollamaTest_V1.generate E llama lone_surrogate true) world0
     = Raise (Exn UnicodeEncodeError
                (lit "'utf-8' codec can't encode character '" ++ [92%N]
                   ++ lit "ud800' in position 7: surrogates not allowed") None)
  /\ (forall c m,
        outcome (ollamaTest_V1.generate E llama lone_surrogate true) world0
        <> Ok (ollamaTest_V1.WithMetrics c m)).
Proof.
  intros E.
  assert (Ho : outcome (ollamaTest_V1.generate E llama lone_surrogate true)
                 world0
               = Raise (Exn UnicodeEncodeError
                          (lit "'utf-8' codec can't encode character '"
                             ++ [92%N]
                             ++ lit "ud800' in position 7: surrogates not allowed")
                          None)) by (vm_compute; reflexivity).
  split; [split; reflexivity|]. split; [reflexivity|]. split; [exact Ho|].
  intros c m H. rewrite Ho in H. discriminate H.
Qed.




(** ** Well-formed replies *)

Lemma text_reply_extract (response : pyval) (T : pystr) :
  text_reply response T ->
  ollamaTest_V1.extract response = Ok (strip T)
  /\ ollamaTest.extract response = Ok (VStr T).
Proof.
  intros (d & m & -> & Hm & Hc).
  unfold ollamaTest_V1.extract, ollamaTest.extract. cbn.
  rewrite Hm. cbn. rewrite Hc. split; reflexivity.
Qed.

Lemma fltb_zero_nonzero (d : float) : fltb fzero d = true -> is_zero d = false.
Proof. destruct d; cbn; try reflexivity. discriminate. Qed.

Lemma well_formed_tokens_per_sec (response : pyval) (T : pystr) (d : float) :
  well_formed_reply response T ->
  exists tokens tps,
    ollamaTest_V1.response_tokens response = Ok tokens
    /\ ollamaTest_V1.tokens_per_sec tokens d = Ok tps.
Proof.
  intros [(dd & m & -> & Hm & Hc) Hok].
  unfold ollamaTest_V1.response_tokens, ollamaTest_V1.tokens_per_sec.
  assert (Ht : truthy (VDict dd) = true)
    by (destruct dd; [discriminate|reflexivity]).
  rewrite Ht. cbn.
  destruct (dict_get (lit "eval_count") dd) as [v|] eqn:Hv.
  - destruct (Hok dd v eq_refl Hv) as [->|[f Hf]].
    + eexists _, _. split; reflexivity.
    + destruct (truthy v && fltb fzero d) eqn:Hg.
      * pose proof Hg as Hz.
        apply andb_prop in Hz as [_ Hz]. apply fltb_zero_nonzero in Hz.
        eexists v, _. split; [reflexivity|].
        rewrite Hg. unfold truediv. rewrite Hf, Hz. reflexivity.
      * eexists v, _. split; [reflexivity|]. rewrite Hg. reflexivity.
  - eexists _, _. split; reflexivity.
Qed.

(** On a well-formed reply the class-based [generate] returns, with the
    trimmed text and, with [benchmark=True] and texts that UTF-8 encodes,
    the record of [_extract_metrics]. *)
Lemma generate_well_formed (E : env) (w : world)
    (self : ollamaTest_V1.OntologyGenerator) (uml T : pystr)
    (response : pyval) :
  accepted uml ->
  reply E w self uml = Ok response ->
  well_formed_reply response T ->
  outcome (ollamaTest_V1.generate E self uml false) w
  = Ok (ollamaTest_V1.Content (strip T))
  /\ (encodable uml = true ->
      encodable T = true ->
      exists m,
        record E w self uml (strip T) response None = Ok m
        /\ outcome (ollamaTest_V1.generate E self uml true) w
           = Ok (ollamaTest_V1.WithMetrics (strip T) m)).
Proof.
  intros Ha Hr Hwf. rewrite !generate_outcome by exact Ha.
  unfold try_block. rewrite Hr.
  destruct (text_reply_extract response T (proj1 Hwf)) as [-> _].
  split; [reflexivity|]. intros Hu HT.
  destruct (well_formed_tokens_per_sec response T (measured E w) Hwf)
    as (tokens & tps & H1 & H2).
  unfold record. rewrite (encode_len_encodable uml Hu).
  rewrite (encode_len_encodable _ (encodable_strip T HT)).
  rewrite H1, H2. eexists. split; reflexivity.
Qed.

(** The fields of the record built by [_extract_metrics]. *)
Lemma record_fields (E : env) (w : world)
    (self : ollamaTest_V1.OntologyGenerator) (uml ontology : pystr)
    (response : pyval) (msg : option pystr) (m : ollamaTest_V1.BenchmarkMetrics) :
  record E w self uml ontology response msg = Ok m ->
  ollamaTest_V1.input_size_chars m = len uml
  /\ ollamaTest_V1.input_size_kb m
     = py_round (int_truediv (utf8_len uml) 1024) 3
  /\ ollamaTest_V1.output_size_chars m = len ontology
  /\ ollamaTest_V1.output_size_kb m
     = py_round (int_truediv (utf8_len ontology) 1024) 3
  /\ ollamaTest_V1.generation_time_seconds m = py_round (measured E w) 3
  /\ ollamaTest_V1.success m = match msg with None => true | _ => false end
  /\ ollamaTest_V1.error m = msg
  /\ ollamaTest_V1.response_tokens response
     = Ok (ollamaTest_V1.tokens_generated m)
  /\ ollamaTest_V1.tokens_per_sec (ollamaTest_V1.tokens_generated m)
       (measured E w)
     = Ok (ollamaTest_V1.tokens_per_second m).
Proof.
  unfold record.
  destruct (encode_len uml) as [ib|] eqn:Hi; [|discriminate].
  destruct (encode_len ontology) as [ob|] eqn:Ho; [|discriminate].
  apply encode_len_inv in Hi as [_ ->]. apply encode_len_inv in Ho as [_ ->].
  destruct (ollamaTest_V1.response_tokens response) as [tokens|]; [|discriminate].
  destruct (ollamaTest_V1.tokens_per_sec tokens _) as [tps|] eqn:Htps;
    [|discriminate].
  intros [= <-]. cbn. rewrite Htps. repeat split.
Qed.

(** A record is built only from texts that UTF-8 encodes. *)
Lemma record_encodable (E : env) (w : world)
    (self : ollamaTest_V1.OntologyGenerator) (uml ontology : pystr)
    (response : pyval) (msg : option pystr) (m : ollamaTest_V1.BenchmarkMetrics) :
  record E w self uml ontology response msg = Ok m ->
  encodable uml = true /\ encodable ontology = true.
Proof.
  unfold record.
  destruct (encode_len uml) as [ib|] eqn:Hi; [|discriminate].
  destruct (encode_len ontology) as [ob|] eqn:Ho; [|discriminate].
  apply encode_len_inv in Hi as [Hi _]. apply encode_len_inv in Ho as [Ho _].
  intros _. split; assumption.
Qed.

(** A call of [generate] that returns had its text accepted. *)
Lemma generate_returns_accepted (E : env) (w : world)
    (self : ollamaTest_V1.OntologyGenerator) (uml : pystr) (benchmark : bool)
    (o : ollamaTest_V1.output) :
  outcome (ollamaTest_V1.generate E self uml benchmark) w = Ok o ->
  accepted uml.
Proof.
  unfold ollamaTest_V1.generate, outcome, accepted.
  destruct (str_truthy uml); [destruct (str_truthy (strip uml))|]; cbn;
    try discriminate.
  intros _. split; reflexivity.
Qed.

(** A record returned by [generate] is the one of [_extract_metrics]: for
    the trimmed content and the reply when the [try] block succeeded, for
    the empty content and the error message when it failed. *)
Lemma generate_record (E : env) (w : world)
    (self : ollamaTest_V1.OntologyGenerator) (uml c : pystr) (benchmark : bool)
    (m : ollamaTest_V1.BenchmarkMetrics) :
  outcome (ollamaTest_V1.generate E self uml benchmark) w
  = Ok (ollamaTest_V1.WithMetrics c m) ->
  (exists response,
      try_block E w self uml = Ok (c, response)
      /\ record E w self uml c response None = Ok m)
  \/ (exists e,
        try_block E w self uml = Raise e /\ c = []
        /\ record E w self uml [] VNone (Some (ollamaTest_V1.error_message e))
           = Ok m).
Proof.
  intros H. pose proof (generate_returns_accepted _ _ _ _ _ _ H) as Ha.
  rewrite generate_outcome in H by exact Ha.
  destruct (try_block E w self uml) as [[content response]|e].
  - destruct benchmark; [|discriminate].
    destruct (record _ _ _ _ content response None) as [m'|] eqn:Hr;
      [|discriminate].
    injection H as -> ->. left. eexists. split; [reflexivity|exact Hr].
  - destruct benchmark; [|discriminate].
    destruct (record _ _ _ _ [] VNone _) as [m'|] eqn:Hr; [|discriminate].
    injection H as <- ->. right. eexists. repeat split. exact Hr.
Qed.


(** ** The invariant of the benchmark record *)



(** The same for the function-based version: the chat call is refused,
    and the error of the failed record is the text of that exception. *)
Example second_version_failed_record_error :
  let E := simple_env [float_of_int 10; float_of_int 12]
             (Raise connection_refused) in
  let o := run2 E world0 (lit "<model/>") ollamaTest.default_model true in
  try_raises2 E world0 (lit "<model/>") ollamaTest.default_model
    connection_refused
  /\ field "success" o = Some (VBool false)
  /\ field "error" o = Some (VStr (exn_str connection_refused)).
Proof.
  intros E o. split; [left; reflexivity|]. vm_compute. split; reflexivity.
Qed.


(** The same invariant breaks in the function-based version on a reply
    that carries a token count when the two timer readings coincide: the
    division fails after [tokens_generated] was stored. *)
Lemma second_version_failed_record_keeps_tokens :
  let E := simple_env [float_of_int 10; float_of_int 10]
             (Ok (reply_of (VStr (lit "ttl")) [(lit "eval_count", VInt 26)])) in
  let o := run2 E world0 (lit "<model/>") ollamaTest.default_model true in
  field "success" o = Some (VBool false)
  /\ field "error" o = Some (VStr (lit "float division by zero"))
  /\ field "tokens_generated" o = Some (VInt 26).
Proof. vm_compute. repeat split. Qed.

(** ** Token throughput *)

Lemma truediv_nonzero (x : pyval) (d q : float) :
  truediv x d = Ok q -> is_zero d = false.
Proof.
  unfold truediv. destruct (as_float x); [|discriminate].
  destruct (is_zero d); [discriminate|reflexivity].
Qed.

Lemma tokens_per_sec_spec (tokens : pyval) (d : float) (tps : option float) :
  ollamaTest_V1.tokens_per_sec tokens d = Ok tps ->
  (tps <> None <-> truthy tokens = true /\ fltb fzero d = true)
  /\ (forall x, tps = Some x ->
        exists q, truediv tokens d = Ok q /\ x = py_round q 2).
Proof.
  unfold ollamaTest_V1.tokens_per_sec.
  destruct (truthy tokens && fltb fzero d) eqn:Hg.
  - destruct (truediv tokens d) as [q|] eqn:Hq; [|discriminate].
    intros [= <-]. apply andb_prop in Hg. split.
    + split; [intros _; exact Hg|discriminate].
    + intros x [= <-]. exists q. split; reflexivity.
  - intros [= <-]. split.
    + split; [congruence|]. intros [H1 H2]. rewrite H1, H2 in Hg.
      discriminate.
    + discriminate.
Qed.

(** C4, as amended: in a record of the class-based version
    [tokens_per_second] is present exactly when [tokens_generated] is
    present and not zero (it passes the truth test) and the measured
    duration is greater than 0; in the function-based version it is
    present only in a successful record, whose duration is then not
    zero, and a successful record has it exactly when it has
    [tokens_generated].  In both, when present, it is the quotient of
    [tokens_generated] by the measured duration rounded to 2 decimals. *)
Theorem tokens_per_second_presence :
  forall (E : env) (w : world) (uml : pystr),
    let d := fsub (clock E (S (w_ticks w))) (clock E (w_ticks w)) in
    (forall self benchmark c m,
        outcome (ollamaTest_V1.generate E self uml benchmark) w
        = Ok (ollamaTest_V1.WithMetrics c m) ->
        (ollamaTest_V1.tokens_per_second m <> None
         <-> truthy (ollamaTest_V1.tokens_generated m) = true
             /\ fltb fzero d = true)
        /\ (forall x,
              ollamaTest_V1.tokens_per_second m = Some x ->
              exists q,
                truediv (ollamaTest_V1.tokens_generated m) d = Ok q
                /\ x = py_round q 2))
    /\ (forall model,
          let o := run2 E w uml model true in
          (forall v,
              field "tokens_per_second" o = Some v ->
              field "success" o = Some (VBool true)
              /\ is_zero d = false
              /\ exists tokens q,
                   field "tokens_generated" o = Some tokens
                   /\ truediv tokens d = Ok q
                   /\ v = VFloat (py_round q 2))
          /\ (field "success" o = Some (VBool true) ->
              (field "tokens_per_second" o <> None
               <-> field "tokens_generated" o <> None))).
Proof.
  intros E w uml d. split.
  - intros self benchmark c m H.
    destruct (generate_record _ _ _ _ _ _ _ H)
      as [(response & _ & Hr)|(e & _ & _ & Hr)];
      destruct (record_fields _ _ _ _ _ _ _ _ Hr)
        as (_ & _ & _ & _ & _ & _ & _ & _ & Hp);
      exact (tokens_per_sec_spec _ _ _ Hp).
  - intros model o. subst o.
    destruct (run2_cases E w uml model) as [[_ Hr]|[_ Hp]].
    { rewrite Hr. unfold field.
      split; [intros v Hv; discriminate Hv|intros Hs; discriminate Hs]. }
    destruct Hp as [e _|T dd _ _ _|T dd tokens q _ _ _ Hq|
                    T dd tokens e _ _ _ _];
      unfold field, base_metrics, failed_entries, success_entries; cbn [app];
      keys.
    + split; [intros v Hv; discriminate Hv|intros Hs; discriminate Hs].
    + split; [intros v Hv; discriminate Hv|].
      intros _. split; intros Hn; now elim Hn.
    + split.
      * intros v [= <-]. split; [reflexivity|]. split.
        -- exact (truediv_nonzero _ _ _ Hq).
        -- exists tokens, q. repeat split. exact Hq.
      * intros _. split; discriminate.
    + split; [intros v Hv; discriminate Hv|intros Hs; discriminate Hs].
Qed.

Lemma tokens_per_second_presence_witness :
  exists m,
    outcome (ollamaTest_V1.generate (example_env (VInt 26)) llama
               (lit "<model/>") true) world0
    = Ok (ollamaTest_V1.WithMetrics (lit "ontology-text") m)
    /\ ollamaTest_V1.tokens_per_second m = Some (float_of_int 13)
    /\ truthy (ollamaTest_V1.tokens_generated m) = true
    /\ exists q,
         truediv (ollamaTest_V1.tokens_generated m) (float_of_int 2) = Ok q
         /\ float_of_int 13 = py_round q 2.
Proof.
  destruct (outcome (ollamaTest_V1.generate (example_env (VInt 26)) llama
                       (lit "<model/>") true) world0)
    as [[c|c m]|e] eqn:Ho; try (vm_compute in Ho; discriminate).
  assert (Hc : c = lit "ontology-text")
    by (vm_compute in Ho; injection Ho as <- _; reflexivity).
  subst c. exists m. split; [reflexivity|].
  assert (Hp : ollamaTest_V1.tokens_per_second m = Some (float_of_int 13))
    by (vm_compute in Ho; injection Ho as <-; reflexivity).
  split; [exact Hp|].
  destruct (tokens_per_second_presence (example_env (VInt 26)) world0
              (lit "<model/>")) as [H _].
  destruct (H llama true _ m Ho) as [Hiff Hval].
  split.
  - apply Hiff. rewrite Hp. discriminate.
  - exact (Hval _ Hp).
Defined.

(** The example of the specification, in the function-based version:
    the text ["<model/>"], the reply ["ontology-text"], 26 tokens in 2
    seconds. *)
Example second_version_example :
  let o := run2 (example_env (VInt 26)) world0 (lit "<model/>")
             ollamaTest.default_model true in
  field "tokens_per_second" o = Some (VFloat (float_of_int 13))
  /\ field "output_size_chars" o = Some (VInt 13)
  /\ field "input_size_chars" o = Some (VInt 8)
  /\ field "success" o = Some (VBool true).
Proof. vm_compute. repeat split. Qed.

(** C4 fails for the class-based version: a reply with a token count of 0
    gives a record in which [tokens_generated] is present (it is 0) and the
    duration is 2 seconds, and [tokens_per_second] is absent. *)
Lemma zero_tokens_without_tokens_per_second :
  exists m,
    outcome (ollamaTest_V1.generate (example_env (VInt 0)) llama
               (lit "<model/>") true) world0
    = Ok (ollamaTest_V1.WithMetrics (lit "ontology-text") m)
    /\ ollamaTest_V1.tokens_generated m = VInt 0
    /\ dict_get (lit "tokens_generated") (ollamaTest_V1.to_dict m)
       = Some (VInt 0)
    /\ ollamaTest_V1.generation_time_seconds m = float_of_int 2
    /\ fltb fzero (float_of_int 2) = true
    /\ ollamaTest_V1.tokens_per_second m = None.
Proof. eexists. vm_compute. repeat split. Qed.

(** ** Sizes and returned text *)

Lemma text_reply_try_block2 (E : env) (w : world) (uml model T : pystr)
    (response : pyval) :
  reply2 E w uml model = Ok response ->
  text_reply response T ->
  try_block2 E w uml model = Ok (VStr T, response).
Proof.
  intros Hr Ht. unfold try_block2. rewrite Hr.
  destruct (text_reply_extract response T Ht) as [_ ->]. reflexivity.
Qed.

(** C6, as amended: for a UML text that UTF-8 encodes, on a well-formed
    reply with text [T] the function-based version, in a successful
    record, stores the character length of [T] and its UTF-8 length
    divided by 1024, and likewise for the UML text; the class-based
    version, when [T] is encodable too, measures the trimmed text
    [T.strip()] and stores the kilobytes rounded to three decimals, for
    the output and for the input. *)
Theorem record_sizes :
  forall (E : env) (w : world) (uml T : pystr),
    encodable uml = true ->
    (forall self response,
        accepted uml ->
        encodable T = true ->
        reply E w self uml = Ok response ->
        well_formed_reply response T ->
        exists m,
          outcome (ollamaTest_V1.generate E self uml true) w
          = Ok (ollamaTest_V1.WithMetrics (strip T) m)
          /\ ollamaTest_V1.output_size_chars m = len (strip T)
          /\ ollamaTest_V1.output_size_kb m
             = py_round (int_truediv (utf8_len (strip T)) 1024) 3
          /\ ollamaTest_V1.input_size_chars m = len uml
          /\ ollamaTest_V1.input_size_kb m
             = py_round (int_truediv (utf8_len uml) 1024) 3)
    /\ (forall model response,
          reply2 E w uml model = Ok response ->
          text_reply response T ->
          let o := run2 E w uml model true in
          field "input_size_chars" o = Some (VInt (len uml))
          /\ field "input_size_kb" o
             = Some (VFloat (int_truediv (utf8_len uml) 1024))
          /\ (field "success" o = Some (VBool true) ->
              field "output_size_chars" o = Some (VInt (len T))
              /\ field "output_size_kb" o
                 = Some (VFloat (int_truediv (utf8_len T) 1024)))).
Proof.
  intros E w uml T Hu. split.
  - intros self response Ha HT Hr Hwf.
    destruct (generate_well_formed E w self uml T response Ha Hr Hwf)
      as (_ & Hg).
    destruct (Hg Hu HT) as (m & Hm & Ho).
    exists m. split; [exact Ho|].
    destruct (record_fields _ _ _ _ _ _ _ _ Hm)
      as (H1 & H2 & H3 & H4 & _).
    repeat split; assumption.
  - intros model response Hr Ht o. subst o.
    pose proof (text_reply_try_block2 E w uml model T response Hr Ht) as Htb.
    destruct (run2_produced E w uml model Hu)
      as [e _|T' dd Htb' _ _|T' dd tokens q Htb' _ _ _|
          T' dd tokens e Htb' _ _ _];
      try (rewrite Htb in Htb'; injection Htb' as <- _);
      unfold field, base_metrics, failed_entries, success_entries; cbn [app];
      keys; (split; [reflexivity|]); (split; [reflexivity|]);
      first [intros Hs; discriminate Hs | intros _; split; reflexivity].
Qed.

Lemma record_sizes_witness :
  exists m,
    outcome (ollamaTest_V1.generate (example_env (VInt 26)) llama
               (lit "<model/>") true) world0
    = Ok (ollamaTest_V1.WithMetrics (lit "ontology-text") m)
    /\ ollamaTest_V1.output_size_chars m = 13
    /\ ollamaTest_V1.output_size_kb m = int_truediv 13 1000
    /\ ollamaTest_V1.input_size_chars m = 8
    /\ ollamaTest_V1.input_size_kb m = int_truediv 8 1000.
Proof.
  set (response :=
         reply_of (VStr (lit "ontology-text")) [(lit "eval_count", VInt 26)]).
  assert (Ha : accepted (lit "<model/>")) by (split; reflexivity).
  assert (Hwf : well_formed_reply response (lit "ontology-text")).
  { split.
    - eexists _, _. repeat split; vm_compute; reflexivity.
    - intros d v [= <-] Hv. vm_compute in Hv. injection Hv as <-.
      right. eexists. vm_compute. reflexivity. }
  destruct (record_sizes (example_env (VInt 26)) world0 (lit "<model/>")
              (lit "ontology-text") eq_refl) as [H _].
  destruct (H llama response Ha eq_refl eq_refl Hwf)
    as (m & Ho & H1 & H2 & H3 & H4).
  exists m. split; [exact Ho|].
  rewrite H1, H2, H3, H4. vm_compute. repeat split.
Defined.

(** C6 fails for the class-based version: for the reply text [" a"] (two
    characters, two bytes) the record says one character and 0.001 KB,
    which is neither 2/1024 = 0.001953125 nor 1/1024 = 0.0009765625. *)
Lemma class_based_sizes_are_trimmed_and_rounded :
  let E := simple_env [float_of_int 10; float_of_int 12]
             (Ok (reply_of (VStr (lit " a")) [])) in
  len (lit " a") = 2
  /\ utf8_len (lit " a") = 2
  /\ exists m,
       outcome (ollamaTest_V1.generate E llama (lit "<model/>") true) world0
       = Ok (ollamaTest_V1.WithMetrics (lit "a") m)
       /\ ollamaTest_V1.output_size_chars m = 1
       /\ ollamaTest_V1.output_size_kb m = int_truediv 1 1000
       /\ int_truediv 1 1000 <> int_truediv 2 1024
       /\ int_truediv 1 1000 <> int_truediv 1 1024.
Proof.
  intros E. split; [reflexivity|]. split; [reflexivity|].
  eexists. vm_compute. repeat split; discriminate.
Qed.

(** C8, as amended: on a well-formed reply the class-based [generate]
    returns the reply text with leading and trailing whitespace trimmed,
    with [benchmark=False] always and with [benchmark=True] when UTF-8
    encodes the UML text and the reply text; the function-based version,
    for a UML text that UTF-8 encodes, returns the reply text as it was
    received. *)
Theorem returned_text :
  forall (E : env) (w : world) (uml T : pystr),
    (forall self response benchmark,
        accepted uml ->
        reply E w self uml = Ok response ->
        well_formed_reply response T ->
        benchmark = false \/ (encodable uml = true /\ encodable T = true) ->
        exists o,
          outcome (ollamaTest_V1.generate E self uml benchmark) w = Ok o
          /\ ollamaTest_V1.content_of o = strip T)
    /\ (forall model response,
          encodable uml = true ->
          reply2 E w uml model = Ok response ->
          text_reply response T ->
          run2 E w uml model false = Ok (ollamaTest.Content (VStr T))
          /\ (field "success" (run2 E w uml model true) = Some (VBool true) ->
              exists o,
                run2 E w uml model true = Ok o
                /\ ollamaTest.content_of o = VStr T)).
Proof.
  intros E w uml T. split.
  - intros self response benchmark Ha Hr Hwf Hb.
    destruct (generate_well_formed E w self uml T response Ha Hr Hwf)
      as (Hf & Hg).
    destruct benchmark.
    + destruct Hb as [Hb|[Hu HT]]; [discriminate Hb|].
      destruct (Hg Hu HT) as (m & _ & Ht).
      eexists. split; [exact Ht|reflexivity].
    + eexists. split; [exact Hf|reflexivity].
  - intros model response Hu Hr Ht.
    pose proof (text_reply_try_block2 E w uml model T response Hr Ht) as Htb.
    split; [exact (run2_plain E w uml model _ _ Hu Htb)|].
    destruct (run2_produced E w uml model Hu)
      as [e _|T' dd Htb' _ _|T' dd tokens q Htb' _ _ _|
          T' dd tokens e Htb' _ _ _];
      try (rewrite Htb in Htb'; injection Htb' as <- _);
      unfold field, base_metrics, failed_entries, success_entries; cbn [app];
      keys;
      first [intros Hs; discriminate Hs
            | intros _; eexists; split; reflexivity].
Qed.

Lemma returned_text_witness :
  let response := reply_of (VStr ([0x0A%N] ++ lit " ontology-text ")) [] in
  let E := simple_env [float_of_int 10; float_of_int 12] (Ok response) in
  well_formed_reply response ([0x0A%N] ++ lit " ontology-text ")
  /\ exists o,
       outcome (ollamaTest_V1.generate E llama (lit "<model/>") true) world0
       = Ok o
       /\ ollamaTest_V1.content_of o = lit "ontology-text".
Proof.
  intros response E.
  assert (Ha : accepted (lit "<model/>")) by (split; reflexivity).
  assert (Hwf : well_formed_reply response ([0x0A%N] ++ lit " ontology-text ")).
  { split.
    - eexists _, _. repeat split; vm_compute; reflexivity.
    - intros d v [= <-] Hv. vm_compute in Hv. discriminate Hv. }
  split; [exact Hwf|].
  destruct (returned_text E world0 (lit "<model/>")
              ([0x0A%N] ++ lit " ontology-text ")) as [H _].
  destruct (H llama response true Ha eq_refl Hwf
              (or_intror (conj eq_refl eq_refl))) as (o & Ho & Hc).
  exists o. split; [exact Ho|]. rewrite Hc. vm_compute. reflexivity.
Defined.

(** C8 fails for the function-based version: the reply text comes back
    with its surrounding whitespace. *)
Lemma second_version_returns_untrimmed_text :
  let T := [0x0A%N] ++ lit " ontology-text " in
  let E := simple_env [float_of_int 10; float_of_int 12]
             (Ok (reply_of (VStr T) [])) in
  run2 E world0 (lit "<model/>") ollamaTest.default_model false
  = Ok (ollamaTest.Content (VStr T))
  /\ (exists metrics,
         run2 E world0 (lit "<model/>") ollamaTest.default_model true
         = Ok (ollamaTest.WithMetrics (VStr T) metrics))
  /\ strip T = lit "ontology-text"
  /\ T <> strip T.
Proof.
  intros T E. split; [vm_compute; reflexivity|].
  split; [eexists; vm_compute; reflexivity|].
  split; [vm_compute; reflexivity|]. vm_compute. discriminate.
Qed.

(** ** The results log *)

(** *** Steps of the file operations *)

Lemma bind_ok {A B} (m : M A) (k : A -> M B) (w w' : world) (a : A) :
  m w = (Ok a, w') -> bind m k w = k a w'.
Proof. unfold bind. intros ->. reflexivity. Qed.


Lemma bind_run {A B} (m : M A) (k : A -> M B) (w w2 : world) (r : result B) :
  bind m k w = (r, w2) ->
  (exists a w1, m w = (Ok a, w1) /\ k a w1 = (r, w2))
  \/ (exists e, m w = (Raise e, w2) /\ r = Raise e).
Proof.
  unfold bind. destruct (m w) as [[a|e] w1]; intros H.
  - left. exists a, w1. split; [reflexivity|exact H].
  - right. injection H as <- <-. exists e. split; reflexivity.
Qed.


Lemma load_json_inv (E : env) (p : path) (w w1 : world) (v : pyval) :
  load_json E p w = (Ok v, w1) ->
  w_fs w !! p = Some (JsonDoc v) /\ w_fs w1 = w_fs w.
Proof.
  unfold load_json, bind, get_fs, io, ret, raise.
  destruct (io_fault E (w_io w) _); [discriminate|].
  cbn -[lookup]. destruct (w_fs w !! p) as [[v'|]|]; try discriminate.
  - cbn -[lookup]. destruct (io_fault E _ _); [discriminate|].
    intros [= -> <-]. split; reflexivity.
  - cbn -[lookup]. destruct (io_fault E _ _); discriminate.
Qed.

Lemma load_json_run (E : env) (p : path) (w : world) (v : pyval) :
  no_faults E ->
  w_fs w !! p = Some (JsonDoc v) ->
  exists w1, load_json E p w = (Ok v, w1) /\ w_fs w1 = w_fs w.
Proof.
  intros Hnf Hp. unfold load_json, bind, get_fs, io, ret.
  rewrite Hnf. cbn -[lookup]. rewrite Hp. cbn -[lookup]. rewrite Hnf.
  eexists. split; reflexivity.
Qed.

Lemma load_json_missing (E : env) (p : path) (w : world) :
  no_faults E ->
  w_fs w !! p = None ->
  exists e w1,
    load_json E p w = (Raise e, w1) /\ is_FileNotFoundError e = true
    /\ w_fs w1 = w_fs w.
Proof.
  intros Hnf Hp. unfold load_json, bind, get_fs, io, raise.
  rewrite Hnf. cbn -[lookup]. rewrite Hp.
  eexists _, _. repeat split.
Qed.

Lemma dump_json_inv (E : env) (p : path) (v : pyval) (w w1 : world) (u : unit) :
  dump_json E p v w = (Ok u, w1) ->
  w_fs w1 = <[p := JsonDoc v]> (w_fs w).
Proof.
  unfold dump_json, bind, get_fs, set_fs, io.
  destruct (io_fault E (w_io w) _); [discriminate|].
  cbn -[insert]. destruct (io_fault E _ _); [discriminate|].
  intros [= _ <-]. reflexivity.
Qed.

Lemma dump_json_run (E : env) (p : path) (v : pyval) (w : world) :
  no_faults E ->
  exists w1,
    dump_json E p v w = (Ok tt, w1) /\ w_fs w1 = <[p := JsonDoc v]> (w_fs w).
Proof.
  intros Hnf. unfold dump_json, bind, get_fs, set_fs, io.
  rewrite Hnf. cbn -[insert]. rewrite Hnf. eexists. split; reflexivity.
Qed.

Lemma path_replace_inv (E : env) (src dst : path) (w w1 : world) (u : unit) :
  path_replace E src dst w = (Ok u, w1) ->
  exists c,
    w_fs w !! src = Some c /\ w_fs w1 = <[dst := c]> (delete src (w_fs w)).
Proof.
  unfold path_replace, bind, get_fs, set_fs, io, raise.
  destruct (io_fault E (w_io w) _); [discriminate|].
  cbn -[lookup insert delete].
  destruct (w_fs w !! src) as [c|]; [|discriminate].
  intros [= _ <-]. exists c. split; reflexivity.
Qed.

Lemma path_replace_run (E : env) (src dst : path) (w : world) (c : file) :
  no_faults E ->
  w_fs w !! src = Some c ->
  exists w1,
    path_replace E src dst w = (Ok tt, w1)
    /\ w_fs w1 = <[dst := c]> (delete src (w_fs w)).
Proof.
  intros Hnf Hs. unfold path_replace, bind, get_fs, set_fs, io.
  rewrite Hnf. cbn -[lookup insert delete]. rewrite Hs.
  eexists. split; reflexivity.
Qed.

Lemma method_append_inv (results x v : pyval) :
  method_append results x = Ok v ->
  exists l, results = VList l /\ v = VList (l ++ [x]).
Proof.
  destruct results; cbn; try discriminate.
  intros [= <-]. eexists. split; reflexivity.
Qed.

Lemma path_exists_run (p : path) (w : world) :
  path_exists p w
  = (Ok (match w_fs w !! p with Some _ => true | None => false end), w).
Proof. reflexivity. Qed.

Lemma print_fs (s : pystr) (w : world) :
  exists w1, print s w = (Ok tt, w1) /\ w_fs w1 = w_fs w.
Proof. eexists. split; reflexivity. Qed.


Lemma print_symbol_raise (E : env) (s : pystr) (w w1 : world) (e : exn) :
  print_symbol E s w = (Raise e, w1) ->
  stdout_fault E (length (w_out w)) s = Some e /\ w1 = w.
Proof.
  unfold print_symbol, print.
  destruct (stdout_fault E _ s); [|discriminate].
  intros [= <- <-]. split; reflexivity.
Qed.

Lemma print_symbol_run (E : env) (s : pystr) (w : world) :
  stdout_fault E (length (w_out w)) s = None ->
  print_symbol E s w = print s w.
Proof. unfold print_symbol. intros ->. reflexivity. Qed.

(** The dictionary of a record is the object that [stored] spells out. *)
Lemma to_dict_stored (m : ollamaTest_V1.BenchmarkMetrics) :
  VDict (ollamaTest_V1.to_dict m) = stored m.
Proof.
  unfold stored, ollamaTest_V1.to_dict, ollamaTest_V1.asdict,
    ollamaTest_V1.opt_val.
  cbn.
  destruct (ollamaTest_V1.error m), (ollamaTest_V1.tokens_per_second m),
    (is_none (ollamaTest_V1.tokens_generated m)); reflexivity.
Qed.

(** What the file holds after writing [doc] to the temporary file [t] and
    renaming it to [p]. *)
Lemma lookup_after_replace (fs : gmap path file) (p t : path) (doc c : file) :
  <[t := doc]> fs !! t = Some c ->
  <[p := c]> (delete t (<[t := doc]> fs)) !! p = Some doc.
Proof.
  rewrite lookup_insert_eq. intros [= <-]. apply lookup_insert_eq.
Qed.

(** *** The class-based logger *)


Lemma load_json_out (E : env) (p : path) (w : world) :
  w_out (snd (load_json E p w)) = w_out w.
Proof.
  unfold load_json, bind, get_fs, io, ret, raise.
  destruct (io_fault E (w_io w) _); [reflexivity|].
  cbn -[lookup]. destruct (w_fs w !! p) as [[v|c]|]; cbn -[lookup];
    try reflexivity; destruct (io_fault E _ _); reflexivity.
Qed.

Lemma dump_json_out (E : env) (p : path) (v : pyval) (w : world) :
  w_out (snd (dump_json E p v w)) = w_out w.
Proof.
  unfold dump_json, bind, get_fs, set_fs, io.
  destruct (io_fault E (w_io w) _); [reflexivity|].
  cbn -[insert]. destruct (io_fault E _ _); reflexivity.
Qed.

Lemma path_replace_out (E : env) (src dst : path) (w : world) :
  w_out (snd (path_replace E src dst w)) = w_out w.
Proof.
  unfold path_replace, bind, get_fs, set_fs, io, raise.
  destruct (io_fault E (w_io w) _); [reflexivity|].
  cbn -[lookup insert delete].
  destruct (w_fs w !! src) as [c|]; reflexivity.
Qed.

(** When nothing is refused, the [try] block of [save] comes to its last
    line with the new list in the results file and nothing printed. *)
Lemma save_body_run (E : env) (w : world)
    (self : ollamaTest_V1.BenchmarkLogger) (m : ollamaTest_V1.BenchmarkMetrics)
    (t : path) (old : list pyval) :
  no_faults E ->
  with_suffix E (ollamaTest_V1.output_file self) (lit ".tmp") = Ok t ->
  log_at (w_fs w) (ollamaTest_V1.output_file self) = Some old ->
  exists we,
    ollamaTest_V1.save_body E self m w
    = print_symbol E (saved_line (ollamaTest_V1.output_file self)) we
    /\ w_fs we !! ollamaTest_V1.output_file self
       = Some (JsonDoc (VList (old ++ [VDict (ollamaTest_V1.to_dict m)])))
    /\ w_out we = w_out w.
Proof.
  destruct self as [p]. cbn [ollamaTest_V1.output_file].
  intros Hnf Ht Hlog. unfold ollamaTest_V1.save_body.
  cbn [ollamaTest_V1.output_file].
  erewrite bind_ok by apply path_exists_run.
  assert (Hres : exists wa,
             (if match w_fs w !! p with Some _ => true | None => false end
              then load_json E p else ret (VList [])) w = (Ok (VList old), wa)
             /\ w_fs wa = w_fs w /\ w_out wa = w_out w).
  { unfold log_at in Hlog. destruct (w_fs w !! p) as [[v|]|] eqn:Hw;
      try discriminate.
    - destruct v; try discriminate. injection Hlog as ->.
      destruct (load_json_run E p w _ Hnf Hw) as (wa & Hl & Hf).
      exists wa. split; [exact Hl|]. split; [exact Hf|].
      pose proof (load_json_out E p w) as Ho. rewrite Hl in Ho. exact Ho.
    - injection Hlog as <-. eexists. repeat split. }
  destruct Hres as (wa & Ha & _ & Hoa).
  erewrite bind_ok by exact Ha.
  erewrite bind_ok by reflexivity.
  rewrite Ht. erewrite bind_ok by reflexivity.
  destruct (dump_json_run E t (VList (old ++ [VDict (ollamaTest_V1.to_dict m)]))
              wa Hnf) as (wd & Hd & Hfs).
  erewrite bind_ok by exact Hd.
  destruct (path_replace_run E t p wd
              (JsonDoc (VList (old ++ [VDict (ollamaTest_V1.to_dict m)])))
              Hnf) as (we & He & Hfe).
  { rewrite Hfs. apply lookup_insert_eq. }
  erewrite bind_ok by exact He.
  exists we. split; [reflexivity|]. split.
  - rewrite Hfe. apply lookup_insert_eq.
  - pose proof (path_replace_out E t p wd) as H1. rewrite He in H1.
    pose proof (dump_json_out E t
                  (VList (old ++ [VDict (ollamaTest_V1.to_dict m)])) wa) as H2.
    rewrite Hd in H2. cbn [snd] in H1, H2. congruence.
Qed.


(** When nothing is refused the record is in the file after [save],
    whether or not stdout takes the last line. *)
Lemma save_stored (E : env) (w : world) (self : ollamaTest_V1.BenchmarkLogger)
    (m : ollamaTest_V1.BenchmarkMetrics) (t : path) (old : list pyval) :
  no_faults E ->
  with_suffix E (ollamaTest_V1.output_file self) (lit ".tmp") = Ok t ->
  log_at (w_fs w) (ollamaTest_V1.output_file self) = Some old ->
  w_fs (after (ollamaTest_V1.save E self m) w)
    !! ollamaTest_V1.output_file self
  = Some (JsonDoc (VList (old ++ [VDict (ollamaTest_V1.to_dict m)]))).
Proof.
  intros Hnf Ht Hlog.
  destruct (save_body_run E w self m t old Hnf Ht Hlog) as (we & Hb & Hf & _).
  unfold after, ollamaTest_V1.save, bind, attempt. rewrite Hb.
  unfold print_symbol. destruct (stdout_fault E _ _); cbn -[lookup]; exact Hf.
Qed.

Lemma save_run (E : env) (w : world) (self : ollamaTest_V1.BenchmarkLogger)
    (m : ollamaTest_V1.BenchmarkMetrics) (t : path) (old : list pyval) :
  no_faults E ->
  stdout_prints E ->
  with_suffix E (ollamaTest_V1.output_file self) (lit ".tmp") = Ok t ->
  log_at (w_fs w) (ollamaTest_V1.output_file self) = Some old ->
  outcome (ollamaTest_V1.save E self m) w = Ok tt
  /\ w_fs (after (ollamaTest_V1.save E self m) w)
       !! ollamaTest_V1.output_file self
     = Some (JsonDoc (VList (old ++ [VDict (ollamaTest_V1.to_dict m)]))).
Proof.
  intros Hnf Hp Ht Hlog. split; [|exact (save_stored E w self m t old Hnf Ht Hlog)].
  destruct (save_body_run E w self m t old Hnf Ht Hlog) as (we & Hb & _ & _).
  unfold outcome, ollamaTest_V1.save, bind, attempt. rewrite Hb.
  rewrite print_symbol_run by apply Hp. reflexivity.
Qed.


(** *** The function-based logger *)

Lemma load_results_run (E : env) (w : world) (p : path) (old : list pyval) :
  no_faults E ->
  log_at (w_fs w) p = Some old ->
  exists w1,
    ollamaTest.load_results E p w = (Ok (VList old), w1) /\ w_fs w1 = w_fs w.
Proof.
  intros Hnf Hlog. unfold ollamaTest.load_results, bind, attempt, log_at in *.
  destruct (w_fs w !! p) as [[v|]|] eqn:Hw; try discriminate.
  - destruct v; try discriminate. injection Hlog as ->.
    destruct (load_json_run E p w _ Hnf Hw) as (w1 & -> & Hfs).
    exists w1. split; [reflexivity|exact Hfs].
  - injection Hlog as <-.
    destruct (load_json_missing E p w Hnf Hw) as (e & w1 & -> & He & Hfs).
    rewrite He. exists w1. split; [reflexivity|exact Hfs].
Qed.

Lemma save_body2_run (E : env) (w : world) (metrics : pyval) (p : path)
    (old : list pyval) :
  no_faults E ->
  log_at (w_fs w) p = Some old ->
  exists w1,
    ollamaTest.save_body E metrics p w = (Ok tt, w1)
    /\ w_fs w1 !! p = Some (JsonDoc (VList (old ++ [metrics]))).
Proof.
  intros Hnf Hlog. unfold ollamaTest.save_body.
  destruct (load_results_run E w p old Hnf Hlog) as (wa & Ha & Hfa).
  erewrite bind_ok by exact Ha.
  erewrite bind_ok by reflexivity.
  destruct (dump_json_run E p (VList (old ++ [metrics])) wa Hnf)
    as (wd & Hd & Hfd).
  erewrite bind_ok by exact Hd.
  eexists. split; [reflexivity|].
  cbn -[lookup]. rewrite Hfd. apply lookup_insert_eq.
Qed.



(** [save_benchmark_results] returns normally in every case. *)
Lemma save_benchmark_results_returns (E : env) (w : world) (metrics : pyval)
    (p : path) :
  outcome (ollamaTest.save_benchmark_results E metrics p) w = Ok tt.
Proof.
  unfold outcome, ollamaTest.save_benchmark_results, bind, attempt.
  destruct (ollamaTest.save_body E metrics p w) as [[u|e] w1]; reflexivity.
Qed.

Lemma save_benchmark_results_run (E : env) (w : world) (metrics : pyval)
    (p : path) (old : list pyval) :
  no_faults E ->
  log_at (w_fs w) p = Some old ->
  w_fs (after (ollamaTest.save_benchmark_results E metrics p) w) !! p
  = Some (JsonDoc (VList (old ++ [metrics]))).
Proof.
  intros Hnf Hlog.
  destruct (save_body2_run E w metrics p old Hnf Hlog) as (w1 & H1 & Hfs).
  unfold after, ollamaTest.save_benchmark_results, bind, attempt.
  rewrite H1. exact Hfs.
Qed.

Lemma log_at_list (fs : gmap path file) (p : path) (l : list pyval) :
  fs !! p = Some (JsonDoc (VList l)) -> log_at fs p = Some l.
Proof. unfold log_at. intros ->. reflexivity. Qed.

Lemma log_at_missing (fs : gmap path file) (p : path) :
  fs !! p = None -> log_at fs p = Some [].
Proof. unfold log_at. intros ->. reflexivity. Qed.

Lemma save_all_run (E : env) (self : ollamaTest_V1.BenchmarkLogger) (t : path)
    (ms : list ollamaTest_V1.BenchmarkMetrics) :
  no_faults E ->
  stdout_prints E ->
  with_suffix E (ollamaTest_V1.output_file self) (lit ".tmp") = Ok t ->
  forall (w : world) (old : list pyval),
    w_fs w !! ollamaTest_V1.output_file self = Some (JsonDoc (VList old)) ->
    outcome (save_all E self ms) w = Ok tt
    /\ w_fs (after (save_all E self ms) w) !! ollamaTest_V1.output_file self
       = Some (JsonDoc (VList (old ++ map stored ms))).
Proof.
  intros Hnf Hp Ht. induction ms as [|m ms IH]; intros w old Hw.
  - cbn. rewrite app_nil_r. split; [reflexivity|exact Hw].
  - destruct (save_run E w self m t old Hnf Hp Ht (log_at_list _ _ _ Hw))
      as [Ho Hfs].
    rewrite to_dict_stored in Hfs.
    unfold outcome, after in *. cbn [save_all]. unfold bind.
    destruct (ollamaTest_V1.save E self m w) as [[u|e] w1];
      [|discriminate].
    cbn [fst snd] in *. destruct (IH w1 _ Hfs) as [Ho' Hfs'].
    split; [exact Ho'|]. rewrite Hfs'. cbn [map].
    rewrite <- app_assoc. reflexivity.
Qed.

Lemma save_all2_run (E : env) (p : path) (ms : list pyval) :
  no_faults E ->
  forall (w : world) (old : list pyval),
    w_fs w !! p = Some (JsonDoc (VList old)) ->
    outcome (save_all2 E p ms) w = Ok tt
    /\ w_fs (after (save_all2 E p ms) w) !! p
       = Some (JsonDoc (VList (old ++ ms))).
Proof.
  intros Hnf. induction ms as [|m ms IH]; intros w old Hw.
  - cbn. rewrite app_nil_r. split; [reflexivity|exact Hw].
  - pose proof (save_benchmark_results_returns E w m p) as Ho.
    pose proof (save_benchmark_results_run E w m p old Hnf
                  (log_at_list _ _ _ Hw)) as Hfs.
    unfold outcome, after in *. cbn [save_all2]. unfold bind.
    destruct (ollamaTest.save_benchmark_results E m p w) as [[u|e] w1];
      [|discriminate].
    cbn [fst snd] in *. destruct (IH w1 _ Hfs) as [Ho' Hfs'].
    split; [exact Ho'|]. rewrite Hfs'.
    rewrite <- app_assoc. reflexivity.
Qed.

(** C1, as amended: when no file operation is refused, [N >= 1]
    sequential saves that start without a log file leave a file holding
    the list of the [N] records in call order, and a save against a file
    that holds a list of records leaves that list with the new record
    appended at the end.  This holds for [save_benchmark_results] of the
    function-based version, and for [BenchmarkLogger.save] when the path
    has a name for the temporary file: the record written has the fields
    of [metrics] that are not [None], and the calls return normally when
    stdout prints their last line. *)
Theorem sequential_saves_build_the_log :
  forall (E : env) (w : world),
    no_faults E ->
    (forall (self : ollamaTest_V1.BenchmarkLogger) (t : path),
        let p := ollamaTest_V1.output_file self in
        with_suffix E p (lit ".tmp") = Ok t ->
        (forall m ms,
            stdout_prints E ->
            w_fs w !! p = None ->
            outcome (save_all E self (m :: ms)) w = Ok tt
            /\ w_fs (after (save_all E self (m :: ms)) w) !! p
               = Some (JsonDoc (VList (map stored (m :: ms))))
            /\ length (map stored (m :: ms)) = length (m :: ms))
        /\ (forall old m,
              w_fs w !! p = Some (JsonDoc (VList old)) ->
              w_fs (after (ollamaTest_V1.save E self m) w) !! p
              = Some (JsonDoc (VList (old ++ [stored m])))
              /\ (stdout_prints E ->
                  outcome (ollamaTest_V1.save E self m) w = Ok tt)))
    /\ (forall (p : path),
          (forall m ms,
              w_fs w !! p = None ->
              outcome (save_all2 E p (m :: ms)) w = Ok tt
              /\ w_fs (after (save_all2 E p (m :: ms)) w) !! p
                 = Some (JsonDoc (VList (m :: ms))))
          /\ (forall old m,
                w_fs w !! p = Some (JsonDoc (VList old)) ->
                outcome (ollamaTest.save_benchmark_results E m p) w = Ok tt
                /\ w_fs (after (ollamaTest.save_benchmark_results E m p) w) !! p
                   = Some (JsonDoc (VList (old ++ [m]))))).
Proof.
  intros E w Hnf. split.
  - intros self t p Ht. split.
    + intros m ms Hp Hw.
      destruct (save_run E w self m t [] Hnf Hp Ht (log_at_missing _ _ Hw))
        as [Ho Hfs].
      rewrite to_dict_stored in Hfs.
      unfold outcome, after in *. cbn [save_all]. unfold bind.
      destruct (ollamaTest_V1.save E self m w) as [[u|e] w1];
        [|discriminate].
      cbn [fst snd] in *.
      destruct (save_all_run E self t ms Hnf Hp Ht w1 _ Hfs) as [Ho' Hfs'].
      split; [exact Ho'|]. split; [exact Hfs'|apply length_map].
    + intros old m Hw. split.
      * rewrite <- to_dict_stored.
        exact (save_stored E w self m t old Hnf Ht (log_at_list _ _ _ Hw)).
      * intros Hp.
        exact (proj1 (save_run E w self m t old Hnf Hp Ht
                        (log_at_list _ _ _ Hw))).
  - intros p. split.
    + intros m ms Hw.
      pose proof (save_benchmark_results_returns E w m p) as Ho.
      pose proof (save_benchmark_results_run E w m p [] Hnf
                    (log_at_missing _ _ Hw)) as Hfs.
      unfold outcome, after in *. cbn [save_all2]. unfold bind.
      destruct (ollamaTest.save_benchmark_results E m p w) as [[u|e] w1];
        [|discriminate].
      cbn [fst snd] in *.
      exact (save_all2_run E p ms Hnf w1 _ Hfs).
    + intros old m Hw. split.
      * apply save_benchmark_results_returns.
      * exact (save_benchmark_results_run E w m p old Hnf
                 (log_at_list _ _ _ Hw)).
Qed.

Lemma simple_env_no_faults (ticks : list float) (r : result pyval) :
  no_faults (simple_env ticks r).
Proof. intros n op. reflexivity. Qed.

Lemma simple_env_prints (ticks : list float) (r : result pyval) :
  stdout_prints (simple_env ticks r).
Proof. intros n s. reflexivity. Qed.

Lemma sequential_saves_build_the_log_witness :
  let E := simple_env [] (Ok VNone) in
  let m1 := sample_record true None in
  let m2 := sample_record false (Some (lit "Ollama API error")) in
  no_faults E
  /\ w_fs world0 !! results_file = None
  /\ outcome (save_all E logger [m1; m2]) world0 = Ok tt
  /\ w_fs (after (save_all E logger [m1; m2]) world0) !! results_file
     = Some (JsonDoc (VList [stored m1; stored m2])).
Proof.
  intros E m1 m2.
  assert (Hnf : no_faults E) by apply simple_env_no_faults.
  assert (Hp : stdout_prints E) by apply simple_env_prints.
  assert (Hw : w_fs world0 !! results_file = None) by apply lookup_empty.
  split; [exact Hnf|]. split; [exact Hw|].
  destruct (sequential_saves_build_the_log E world0 Hnf) as [H _].
  destruct (H logger (lit "benchmark_results.tmp") eq_refl) as [Hseq _].
  destruct (Hseq m1 [m2] Hp Hw) as (Ho & Hfs & _).
  split; [exact Ho|exact Hfs].
Defined.

(** C1 fails when a file operation is refused: on a full disk one save
    that starts without a log file leaves no log file at all in the
    class-based version, whose call raises, and a file that is no JSON
    document in the function-based version, whose call returns. *)
Lemma refused_write_leaves_no_log :
  let m := sample_record true None in
  w_fs world0 !! results_file = None
  /\ (exists e, outcome (save_all disk_full_env logger [m]) world0 = Raise e)
  /\ w_fs (after (save_all disk_full_env logger [m]) world0) !! results_file
     = None
  /\ outcome (save_all2 disk_full_env results_file [stored m]) world0 = Ok tt
  /\ w_fs (after (save_all2 disk_full_env results_file [stored m]) world0)
       !! results_file
     = Some truncated
  /\ log_at (w_fs (after (save_all2 disk_full_env results_file [stored m])
                     world0)) results_file
     = None.
Proof.
  intros m. split; [apply lookup_empty|].
  split; [eexists; vm_compute; reflexivity|].
  repeat split; vm_compute; reflexivity.
Qed.

(** ** Failures of the results log *)



(** The last line of [save] on a stdout without the check mark: the
    record is in the file, and [save] raises. *)
Example save_raises_after_writing :
  let m := sample_record true None in
  outcome (ollamaTest_V1.save ascii_stdout_env logger m) world0
  = Raise (Exn OSError
             (lit "Failed to save benchmark results: " ++ exn_str no_check_mark)
             (Some no_check_mark))
  /\ w_fs (after (ollamaTest_V1.save ascii_stdout_env logger m) world0)
       !! results_file
     = Some (JsonDoc (VList [stored m])).
Proof. split; vm_compute; reflexivity. Qed.


(** * Further properties *)

(** ** The first version *)


(** X2: On a reply in the choices shape the first version returns the
    message content as it is and prints nothing. *)
Theorem first_version_returns_choices_content :
  forall (E : env) (w : world) (uml model : pystr) (response content : pyval),
    choices_shape response content ->
    chat E (length (w_chats w)) model (user_turn (ollama.prompt uml))
      = Ok response ->
    outcome (ollama.generate_ontology_with_ollama E uml model) w = Ok content
    /\ w_out (after (ollama.generate_ontology_with_ollama E uml model) w)
       = w_out w.
Proof.
  intros E w uml model response content
    (d & choice & rest & m & -> & Hc & Hm & Hk) Hchat.
  unfold ollama.generate_ontology_with_ollama. run. rewrite Hchat.
  unfold ollama.extract. cbn. rewrite Hc. cbn. rewrite Hm. cbn. rewrite Hk.
  cbn. split; reflexivity.
Qed.

Lemma first_version_returns_choices_content_witness :
  let response :=
    VDict [(lit "choices",
            VList [VDict [(lit "message",
                           VDict [(lit "role", VStr (lit "assistant"));
                                  (lit "content", VStr (lit " ttl "))])]])] in
  let E := simple_env [] (Ok response) in
  choices_shape response (VStr (lit " ttl "))
  /\ outcome (ollama.generate_ontology_with_ollama E (lit "<model/>")
                ollama.default_model) world0
     = Ok (VStr (lit " ttl ")).
Proof.
  intros response E.
  assert (Hs : choices_shape response (VStr (lit " ttl "))).
  { eexists _, _, _, _. repeat split; vm_compute; reflexivity. }
  split; [exact Hs|].
  apply (first_version_returns_choices_content E world0 (lit "<model/>")
           ollama.default_model response _ Hs eq_refl).
Defined.


(** ** The function-based version *)







(** ** The class-based [generate] *)

Lemma lstrip_split (s : pystr) :
  exists pre, s = pre ++ lstrip s /\ blank pre.
Proof.
  induction s as [|c s (pre & Hs & Hb)]; cbn.
  - exists []. split; [reflexivity|constructor].
  - destruct (isspace c) eqn:Hc.
    + exists (c :: pre). split; [cbn; congruence|constructor; assumption].
    + exists []. split; [reflexivity|constructor].
Qed.

Lemma lstrip_head (s r : pystr) (c : N) :
  lstrip s = c :: r -> isspace c = false.
Proof.
  induction s as [|x s IH]; cbn; [discriminate|].
  destruct (isspace x) eqn:Hx; [exact IH|].
  intros [= <- _]. exact Hx.
Qed.

Lemma lstrip_nil_blank (s : pystr) : lstrip s = [] -> blank s.
Proof.
  intros H. destruct (lstrip_split s) as (pre & Hs & Hb).
  rewrite H, app_nil_r in Hs. subst. exact Hb.
Qed.

Lemma strip_nil_blank (s : pystr) : strip s = [] -> blank s.
Proof.
  unfold strip, rstrip. intros H.
  assert (H1 : lstrip (rev (lstrip s)) = []).
  { destruct (lstrip (rev (lstrip s))) as [|c r]; [reflexivity|].
    cbn in H. destruct (rev r); discriminate. }
  apply lstrip_nil_blank in H1. unfold blank in H1.
  apply Forall_rev in H1. rewrite rev_involutive in H1.
  destruct (lstrip s) as [|c r] eqn:Hl; [exact (lstrip_nil_blank s Hl)|].
  apply lstrip_head in Hl. inversion H1; congruence.
Qed.

(** The guard of [generate] lets a text pass exactly when it is not
    blank. *)
Lemma accepted_not_blank (uml : pystr) : accepted uml <-> ~ blank uml.
Proof.
  unfold accepted. split.
  - intros [H1 H2] Hb. rewrite (strip_blank uml Hb) in H2. discriminate.
  - intros Hnb. split.
    + destruct uml; [exfalso; apply Hnb; constructor|reflexivity].
    + destruct (strip uml) eqn:Hs; [|reflexivity].
      exfalso. exact (Hnb (strip_nil_blank uml Hs)).
Qed.

Lemma truediv_raise_class (x : pyval) (d : float) (e : exn) :
  truediv x d = Raise e ->
  exn_cls e = TypeError \/ exn_cls e = OverflowError
  \/ exn_cls e = ZeroDivisionError.
Proof.
  unfold truediv, as_float.
  destruct x; try (intros [= <-]; left; reflexivity).
  - destruct (is_zero d); intros [= <-]. right; right; reflexivity.
  - destruct (is_finite _); [destruct (is_zero d)|]; intros [= <-];
      [right; right; reflexivity|right; left; reflexivity].
  - destruct (is_zero d); intros [= <-]. right; right; reflexivity.
Qed.

Lemma record_raise_class (E : env) (w : world)
    (self : ollamaTest_V1.OntologyGenerator) (uml ontology : pystr)
    (response : pyval) (msg : option pystr) (e : exn) :
  record E w self uml ontology response msg = Raise e ->
  (is_ValueError e = false
   /\ (exn_cls e = TypeError \/ exn_cls e = OverflowError
       \/ exn_cls e = ZeroDivisionError \/ exn_cls e = AttributeError))
  \/ (exn_cls e = UnicodeEncodeError
      /\ (encodable uml = false \/ encodable ontology = false)).
Proof.
  unfold record.
  destruct (encode_len uml) as [ib|e1] eqn:H1.
  2:{ intros [= <-]. apply encode_len_raise in H1 as [H1 ->].
      right. split; [reflexivity|left; exact H1]. }
  destruct (encode_len ontology) as [ob|e2] eqn:H2.
  2:{ intros [= <-]. apply encode_len_raise in H2 as [H2 ->].
      right. split; [reflexivity|right; exact H2]. }
  unfold ollamaTest_V1.response_tokens, ollamaTest_V1.tokens_per_sec.
  intros H. left. revert H.
  destruct (truthy response).
  - destruct response; cbn;
      try (intros [= <-]; split; [reflexivity|]; right; right; right;
           reflexivity).
    destruct (_ && _); [|discriminate].
    destruct (truediv _ _) eqn:Hq; [discriminate|].
    intros [= <-]. unfold is_ValueError.
    destruct (truediv_raise_class _ _ _ Hq) as [H|[H|H]]; rewrite H;
      (split; [reflexivity|tauto]).
  - cbn. discriminate.
Qed.

Lemma blank_or_not (uml : pystr) : blank uml \/ ~ blank uml.
Proof.
  destruct (str_truthy uml) eqn:H1; [destruct (str_truthy (strip uml)) eqn:H2|].
  - right. apply accepted_not_blank. split; assumption.
  - left. apply strip_nil_blank. destruct (strip uml); [reflexivity|discriminate].
  - left. destruct uml; [constructor|discriminate].
Qed.

Lemma blank_uml_rejected (E : env) (w : world)
    (self : ollamaTest_V1.OntologyGenerator) (uml : pystr) (benchmark : bool) :
  blank uml ->
  ollamaTest_V1.generate E self uml benchmark w
  = (Raise (Exn ValueError (lit "UML input cannot be empty") None), w).
Proof.
  intros Hb. unfold ollamaTest_V1.generate.
  rewrite (strip_blank uml Hb). cbn. rewrite orb_true_r. reflexivity.
Qed.

(** X5: [generate] raises its [ValueError] exactly for the blank texts,
    and exactly for them it makes no chat call.  For a text that is not
    blank the only exception in the class [ValueError] that it raises is
    the [UnicodeEncodeError], a subclass, of its [finally] block with
    [benchmark=True], for a UML text or a reply content that UTF-8 does
    not encode; with [benchmark=False] it raises an instance of
    [ValueError] for the blank texts only. *)
Theorem generate_rejects_exactly_blank_text :
  forall (E : env) (w : world) (self : ollamaTest_V1.OntologyGenerator)
         (uml : pystr) (benchmark : bool),
    let m := ollamaTest_V1.generate E self uml benchmark in
    (blank uml <->
     outcome m w = Raise (Exn ValueError (lit "UML input cannot be empty") None))
    /\ (blank uml <-> w_chats (after m w) = w_chats w)
    /\ (~ blank uml ->
        forall e,
          outcome m w = Raise e ->
          is_ValueError e = true ->
          benchmark = true
          /\ exn_cls e = UnicodeEncodeError
          /\ (encodable uml = false
              \/ exists content response,
                   try_block E w self uml = Ok (content, response)
                   /\ encodable content = false))
    /\ (benchmark = false ->
        (blank uml <->
         exists e, outcome m w = Raise e /\ is_ValueError e = true)).
Proof.
  intros E w self uml benchmark m. subst m.
  destruct (blank_or_not uml) as [Hb|Hnb].
  - unfold outcome, after.
    rewrite (blank_uml_rejected E w self uml benchmark Hb). cbn.
    split; [split; intros _; [reflexivity|exact Hb]|].
    split; [split; intros _; [reflexivity|exact Hb]|].
    split; [intros Hn; contradiction|].
    intros _. split; intros _; [|exact Hb].
    eexists. split; reflexivity.
  - pose proof (proj2 (accepted_not_blank uml) Hnb) as Ha.
    assert (Hcases : forall e,
               outcome (ollamaTest_V1.generate E self uml benchmark) w
               = Raise e ->
               is_ValueError e = true ->
               benchmark = true
               /\ exn_cls e = UnicodeEncodeError
               /\ (encodable uml = false
                   \/ exists content response,
                        try_block E w self uml = Ok (content, response)
                        /\ encodable content = false)).
    { intros e Ho Hv. rewrite generate_outcome in Ho by exact Ha.
      destruct (try_block E w self uml) as [[content response]|e0] eqn:Ht;
        destruct benchmark; try discriminate Ho.
      - destruct (record _ _ _ _ content response None) eqn:Hr;
          [discriminate Ho|]. injection Ho as ->.
        destruct (record_raise_class _ _ _ _ _ _ _ _ Hr)
          as [[Hn _]|[Hc Hu]]; [congruence|].
        split; [reflexivity|]. split; [exact Hc|].
        destruct Hu as [Hu|Hu]; [left; exact Hu|right].
        exists content, response. split; [reflexivity|exact Hu].
      - destruct (record _ _ _ _ [] VNone _) eqn:Hr;
          [discriminate Ho|]. injection Ho as ->.
        destruct (record_raise_class _ _ _ _ _ _ _ _ Hr)
          as [[Hn _]|[Hc Hu]]; [congruence|].
        split; [reflexivity|]. split; [exact Hc|].
        destruct Hu as [Hu|Hu]; [left; exact Hu|discriminate Hu].
      - injection Ho as <-. discriminate Hv. }
    split; [split; intros H; [contradiction|exfalso]|].
    { destruct (Hcases _ H eq_refl) as (_ & Hc & _). discriminate Hc. }
    split; [split; intros H; [contradiction|exfalso]|].
    { rewrite generate_calls_once in H by exact Ha.
      apply (f_equal (@length _)) in H. rewrite length_app in H. cbn in H.
      lia. }
    split; [intros _; exact Hcases|].
    intros ->. split; intros H; [contradiction|exfalso].
    destruct H as (e & Ho & Hv).
    destruct (Hcases e Ho Hv) as (Hb & _). discriminate Hb.
Qed.

Lemma generate_rejects_exactly_blank_text_witness :
  let E := simple_env [] (Raise connection_refused) in
  ~ blank (lit " <model/> ")
  /\ length (w_chats (after (ollamaTest_V1.generate E llama (lit " <model/> ")
                              true) world0)) = 1%nat.
Proof.
  intros E.
  destruct (generate_rejects_exactly_blank_text E world0 llama
              (lit " <model/> ") true) as (_ & [H1 H2] & _).
  assert (Hc : w_chats (after (ollamaTest_V1.generate E llama
                                 (lit " <model/> ") true) world0)
               <> w_chats world0) by (vm_compute; discriminate).
  split.
  - intros Hb. exact (Hc (H1 Hb)).
  - vm_compute. reflexivity.
Defined.

(** A text that is not blank and that UTF-8 does not encode: [generate]
    with [benchmark=True] raises an instance of [ValueError] that is not
    the one of its guard. *)
Example generate_raises_unicode_error :
  let E := simple_env [float_of_int 10; float_of_int 12]
             (Ok (reply_of (VStr (lit "ttl")) [])) in
  ~ blank lone_surrogate
  /\ exists e,
       outcome (ollamaTest_V1.generate E llama lone_surrogate true) world0
       = Raise e
       /\ is_ValueError e = true
       /\ exn_cls e = UnicodeEncodeError.
Proof.
  intros E. split.
  - apply accepted_not_blank. split; reflexivity.
  - eexists. split; [vm_compute; reflexivity|]. split; reflexivity.
Qed.

(** [generate] leaves the files as they are. *)
Lemma generate_keeps_files (E : env) (w : world)
    (self : ollamaTest_V1.OntologyGenerator) (uml : pystr) (benchmark : bool) :
  w_fs (after (ollamaTest_V1.generate E self uml benchmark) w) = w_fs w.
Proof.
  unfold ollamaTest_V1.generate.
  destruct (negb (str_truthy uml) || negb (str_truthy (strip uml)));
    [reflexivity|].
  unfold ollamaTest_V1.call, ollamaTest_V1._extract_metrics,
    ollamaTest_V1._calculate_size. run.
  destruct (chat E _ _ _) as [response|e]; cbn.
  - destruct (ollamaTest_V1.extract response) as [content|e]; cbn.
    + destruct benchmark; [|reflexivity].
      destruct (encode_len uml); cbn; [|reflexivity].
      destruct (encode_len content); cbn; [|reflexivity].
      destruct (ollamaTest_V1.response_tokens response) as [tokens|e]; cbn;
        [|reflexivity].
      destruct (ollamaTest_V1.tokens_per_sec tokens _) as [tps|e]; reflexivity.
    + destruct benchmark; [|reflexivity].
      destruct (encode_len uml); reflexivity.
  - destruct benchmark; [|reflexivity].
    destruct (encode_len uml); reflexivity.
Qed.

(** X6: A call of [generate] whose text is accepted reads the timer twice
    and calls the chat endpoint once, with one user turn that carries the
    prompt, whether the call succeeds or fails; it prints nothing and
    touches no file. *)
Theorem generate_side_effects :
  forall (E : env) (w : world) (self : ollamaTest_V1.OntologyGenerator)
         (uml : pystr) (benchmark : bool),
    accepted uml ->
    let m := ollamaTest_V1.generate E self uml benchmark in
    w_chats (after m w)
    = w_chats w
        ++ [(ollamaTest_V1.self_model self,
             user_turn (ollamaTest_V1._create_prompt uml))]
    /\ w_ticks (after m w) = S (S (w_ticks w))
    /\ w_out (after m w) = w_out w
    /\ w_fs (after m w) = w_fs w
    /\ w_io (after m w) = w_io w.
Proof.
  intros E w self uml benchmark [H1 H2] m. subst m.
  unfold ollamaTest_V1.generate. rewrite H1, H2. cbn [negb orb].
  unfold ollamaTest_V1.call, ollamaTest_V1._extract_metrics,
    ollamaTest_V1._calculate_size. run.
  destruct (chat E _ _ _) as [response|e]; cbn.
  - destruct (ollamaTest_V1.extract response) as [content|e]; cbn.
    + destruct benchmark; [|repeat split].
      destruct (encode_len uml); cbn; [|repeat split].
      destruct (encode_len content); cbn; [|repeat split].
      destruct (ollamaTest_V1.response_tokens response) as [tokens|e]; cbn;
        [|repeat split].
      destruct (ollamaTest_V1.tokens_per_sec tokens _) as [tps|e];
        repeat split.
    + destruct benchmark; [|repeat split].
      destruct (encode_len uml); repeat split.
  - destruct benchmark; [|repeat split].
    destruct (encode_len uml); repeat split.
Qed.

Lemma generate_side_effects_witness :
  let E := simple_env [float_of_int 10; float_of_int 12]
             (Raise connection_refused) in
  let m := ollamaTest_V1.generate E llama (lit "<model/>") true in
  accepted (lit "<model/>")
  /\ w_ticks (after m world0) = 2%nat
  /\ w_out (after m world0) = []
  /\ w_fs (after m world0) = ∅.
Proof.
  intros E m.
  assert (Ha : accepted (lit "<model/>")) by (split; reflexivity).
  destruct (generate_side_effects E world0 llama (lit "<model/>") true Ha)
    as (_ & Ht & Ho & Hf & _).
  split; [exact Ha|]. split; [exact Ht|]. split; [exact Ho|exact Hf].
Defined.

(** X7: How [generate] reports a reply that lacks what it reads.  A reply
    without [message], or a message without [content], raises
    [RuntimeError] with the text for an unexpected response format and
    the name of the missing key; a content that is no string is reported
    as an API error, with the [AttributeError] of the failed [strip]. *)
Theorem generate_reports_malformed_replies :
  forall (E : env) (w : world) (self : ollamaTest_V1.OntologyGenerator)
         (uml : pystr) (d : pydict),
    accepted uml ->
    reply E w self uml = Ok (VDict d) ->
    let caller := outcome (ollamaTest_V1.generate E self uml false) w in
    (dict_get (lit "message") d = None ->
     caller
     = Raise (Exn RuntimeError
                (lit "Unexpected response format from Ollama: 'message'")
                (Some (Exn KeyError (lit "'message'") None))))
    /\ (forall m,
          dict_get (lit "message") d = Some (VDict m) ->
          dict_get (lit "content") m = None ->
          caller
          = Raise (Exn RuntimeError
                     (lit "Unexpected response format from Ollama: 'content'")
                     (Some (Exn KeyError (lit "'content'") None))))
    /\ (forall m c,
          dict_get (lit "message") d = Some (VDict m) ->
          dict_get (lit "content") m = Some c ->
          (forall T, c <> VStr T) ->
          caller
          = Raise (Exn RuntimeError
                     (lit "Ollama API error: AttributeError: '"
                        ++ type_name c
                        ++ lit "' object has no attribute 'strip'")
                     (Some (Exn AttributeError
                              (lit "'" ++ type_name c
                                 ++ lit "' object has no attribute 'strip'")
                              None)))).
Proof.
  intros E w self uml d Ha Hr caller. subst caller.
  rewrite generate_outcome by exact Ha. unfold try_block. rewrite Hr.
  unfold ollamaTest_V1.extract. cbn. split; [|split].
  - intros ->. reflexivity.
  - intros m -> Hc. cbn. rewrite Hc. reflexivity.
  - intros m c -> Hc Hn. cbn. rewrite Hc.
    destruct c; try reflexivity. exfalso. exact (Hn _ eq_refl).
Qed.

Lemma generate_reports_malformed_replies_witness :
  let d := [(lit "message", VDict [(lit "role", VStr (lit "assistant"));
                                   (lit "content", VNone)])] in
  let E := simple_env [] (Ok (VDict d)) in
  accepted (lit "<model/>")
  /\ outcome (ollamaTest_V1.generate E llama (lit "<model/>") false) world0
     = Raise (Exn RuntimeError
                (lit "Ollama API error: AttributeError: 'NoneType' object has no attribute 'strip'")
                (Some (Exn AttributeError
                         (lit "'NoneType' object has no attribute 'strip'")
                         None))).
Proof.
  intros d E.
  assert (Ha : accepted (lit "<model/>")) by (split; reflexivity).
  split; [exact Ha|].
  destruct (generate_reports_malformed_replies E world0 llama (lit "<model/>")
              d Ha eq_refl) as (_ & _ & H).
  apply (H [(lit "role", VStr (lit "assistant")); (lit "content", VNone)]
           VNone); [reflexivity|reflexivity|discriminate].
Defined.

(** X8: A token count that is no number breaks the benchmarked call only.
    When the reply carries under [eval_count] a value that passes the
    truth test and cannot be divided (a string, a list), the measured
    duration is positive and UTF-8 encodes the UML text and the reply
    text, [generate] with [benchmark=True] raises the [TypeError] of the
    division out of its [finally] block, although the chat call
    succeeded; with [benchmark=False] it returns the text. *)
Theorem generate_raises_on_token_count_that_is_no_number :
  forall (E : env) (w : world) (self : ollamaTest_V1.OntologyGenerator)
         (uml T : pystr) (d : pydict) (v : pyval) (e : exn),
    accepted uml ->
    encodable uml = true ->
    encodable T = true ->
    reply E w self uml = Ok (VDict d) ->
    text_reply (VDict d) T ->
    dict_get (lit "eval_count") d = Some v ->
    truthy v = true ->
    as_float v = Raise e ->
    fltb fzero (measured E w) = true ->
    outcome (ollamaTest_V1.generate E self uml true) w = Raise e
    /\ outcome (ollamaTest_V1.generate E self uml false) w
       = Ok (ollamaTest_V1.Content (strip T)).
Proof.
  intros E w self uml T d v e Ha Hu HT Hr Ht Hv Htr Hf Hpos.
  rewrite !generate_outcome by exact Ha. unfold try_block. rewrite Hr.
  destruct (text_reply_extract _ T Ht) as [-> _].
  split; [|reflexivity].
  unfold record. rewrite (encode_len_encodable uml Hu).
  rewrite (encode_len_encodable _ (encodable_strip T HT)).
  unfold ollamaTest_V1.response_tokens, ollamaTest_V1.tokens_per_sec.
  assert (Hd : truthy (VDict d) = true)
    by (destruct d; [discriminate Hv|reflexivity]).
  rewrite Hd. cbn. rewrite Hv, Htr, Hpos. cbn.
  unfold truediv. rewrite Hf. reflexivity.
Qed.

Lemma generate_raises_on_token_count_that_is_no_number_witness :
  let d := [(lit "message", VDict [(lit "content", VStr (lit " ttl "))]);
            (lit "eval_count", VStr (lit "26"))] in
  let E := simple_env [float_of_int 10; float_of_int 12] (Ok (VDict d)) in
  outcome (ollamaTest_V1.generate E llama (lit "<model/>") true) world0
  = Raise (Exn TypeError
             (lit "unsupported operand type(s) for /: 'str' and 'float'") None)
  /\ outcome (ollamaTest_V1.generate E llama (lit "<model/>") false) world0
     = Ok (ollamaTest_V1.Content (lit "ttl")).
Proof.
  intros d E.
  assert (Ha : accepted (lit "<model/>")) by (split; reflexivity).
  assert (Ht : text_reply (VDict d) (lit " ttl ")).
  { eexists _, _. repeat split; vm_compute; reflexivity. }
  exact (generate_raises_on_token_count_that_is_no_number E world0 llama
           (lit "<model/>") (lit " ttl ") d (VStr (lit "26")) _ Ha eq_refl
           eq_refl eq_refl Ht eq_refl eq_refl eq_refl eq_refl).
Defined.

(** ** The record as a dictionary *)

(** [to_dict] spelled out: the eight fields without default, then each
    of the three others if it is set. *)
Lemma to_dict_entries (m : ollamaTest_V1.BenchmarkMetrics) :
  ollamaTest_V1.to_dict m
  = [(lit "model", VStr (ollamaTest_V1.model m));
     (lit "timestamp", VStr (ollamaTest_V1.timestamp m));
     (lit "input_size_chars", VInt (ollamaTest_V1.input_size_chars m));
     (lit "input_size_kb", VFloat (ollamaTest_V1.input_size_kb m));
     (lit "generation_time_seconds",
      VFloat (ollamaTest_V1.generation_time_seconds m));
     (lit "output_size_chars", VInt (ollamaTest_V1.output_size_chars m));
     (lit "output_size_kb", VFloat (ollamaTest_V1.output_size_kb m));
     (lit "success", VBool (ollamaTest_V1.success m))]
    ++ match ollamaTest_V1.error m with
       | Some s => [(lit "error", VStr s)]
       | None => []
       end
    ++ (if is_none (ollamaTest_V1.tokens_generated m) then []
        else [(lit "tokens_generated", ollamaTest_V1.tokens_generated m)])
    ++ match ollamaTest_V1.tokens_per_second m with
       | Some f => [(lit "tokens_per_second", VFloat f)]
       | None => []
       end.
Proof.
  unfold ollamaTest_V1.to_dict, ollamaTest_V1.asdict, ollamaTest_V1.opt_val.
  cbn.
  destruct (ollamaTest_V1.error m), (ollamaTest_V1.tokens_per_second m),
    (is_none (ollamaTest_V1.tokens_generated m)); reflexivity.
Qed.

(** X9: [to_dict] never stores [None]: the eight fields without default are
    always there, and [error], [tokens_generated] and [tokens_per_second]
    are there exactly when they are set. *)
Theorem to_dict_has_no_none :
  forall (m : ollamaTest_V1.BenchmarkMetrics),
    let d := ollamaTest_V1.to_dict m in
    Forall (fun kv => snd kv <> VNone) d
    /\ (forall f, In f ollamaTest_V1.required_fields ->
          dict_get f d = dict_get f (ollamaTest_V1.asdict m)
          /\ dict_has f d = true)
    /\ dict_get (lit "error") d = option_map VStr (ollamaTest_V1.error m)
    /\ dict_get (lit "tokens_generated") d
       = (if is_none (ollamaTest_V1.tokens_generated m) then None
          else Some (ollamaTest_V1.tokens_generated m))
    /\ dict_get (lit "tokens_per_second") d
       = option_map VFloat (ollamaTest_V1.tokens_per_second m).
Proof.
  intros m d. subst d. rewrite to_dict_entries.
  unfold ollamaTest_V1.required_fields, ollamaTest_V1.asdict.
  split; [|split; [|split; [|split]]].
  - destruct (ollamaTest_V1.error m), (ollamaTest_V1.tokens_per_second m),
      (ollamaTest_V1.tokens_generated m); cbn;
      repeat (constructor; [cbn; discriminate|]); constructor.
  - intros f Hin. unfold dict_has. cbn in Hin.
    repeat (destruct Hin as [<-|Hin]; [keys; split; reflexivity|]).
    destruct Hin.
  - destruct (ollamaTest_V1.error m),
      (is_none (ollamaTest_V1.tokens_generated m)),
      (ollamaTest_V1.tokens_per_second m); cbn [app]; keys; reflexivity.
  - destruct (ollamaTest_V1.error m),
      (is_none (ollamaTest_V1.tokens_generated m)),
      (ollamaTest_V1.tokens_per_second m); cbn [app]; keys; reflexivity.
  - destruct (ollamaTest_V1.error m),
      (is_none (ollamaTest_V1.tokens_generated m)),
      (ollamaTest_V1.tokens_per_second m); cbn [app]; keys; reflexivity.
Qed.

Lemma to_dict_has_no_none_witness :
  let d := ollamaTest_V1.to_dict (sample_record false (Some (lit "x"))) in
  dict_has (lit "success") d = true
  /\ dict_get (lit "tokens_per_second") d = None.
Proof.
  intros d.
  destruct (to_dict_has_no_none (sample_record false (Some (lit "x"))))
    as (_ & Hr & _ & _ & Ht).
  split; [|exact Ht].
  apply Hr. do 7 right. left. reflexivity.
Defined.

(** ** Building a record from a dictionary *)

Lemma init_to_dict (m : ollamaTest_V1.BenchmarkMetrics) :
  ollamaTest_V1.BenchmarkMetrics_init (ollamaTest_V1.to_dict m)
  = Ok (ollamaTest_V1.asdict m).
Proof.
  rewrite to_dict_entries.
  unfold ollamaTest_V1.asdict, ollamaTest_V1.opt_val.
  destruct (ollamaTest_V1.error m), (ollamaTest_V1.tokens_per_second m),
    (ollamaTest_V1.tokens_generated m);
    generalize (ollamaTest_V1.model m) (ollamaTest_V1.timestamp m)
      (ollamaTest_V1.input_size_chars m) (ollamaTest_V1.input_size_kb m)
      (ollamaTest_V1.generation_time_seconds m)
      (ollamaTest_V1.output_size_chars m) (ollamaTest_V1.output_size_kb m)
      (ollamaTest_V1.success m); intros; vm_compute; reflexivity.
Qed.

(** X10: The round trip of the legacy interface: the dictionary of a record
    builds, as keyword arguments of [BenchmarkMetrics], an instance with
    the fields of the record, and the dictionary of that instance is the
    one it was built from. *)
Theorem to_dict_round_trip :
  forall (m : ollamaTest_V1.BenchmarkMetrics),
    ollamaTest_V1.BenchmarkMetrics_init (ollamaTest_V1.to_dict m)
    = Ok (ollamaTest_V1.asdict m)
    /\ ollamaTest_V1.instance_to_dict (ollamaTest_V1.asdict m)
       = ollamaTest_V1.to_dict m.
Proof.
  intros m. split; [apply init_to_dict|reflexivity].
Qed.

Lemma str_eqb_true (a b : pystr) : str_eqb a b = true <-> a = b.
Proof. unfold str_eqb. apply bool_decide_eq_true. Qed.

Lemma dict_has_in (k : pystr) (d : pydict) :
  dict_has k d = true <-> In k (map fst d).
Proof.
  unfold dict_has. induction d as [|[k' v] d IH]; cbn.
  - split; [discriminate|tauto].
  - destruct (str_eqb k' k) eqn:He.
    + apply str_eqb_true in He. split; [intros _; left; exact He|reflexivity].
    + rewrite IH. split; [tauto|]. intros [H|H]; [|exact H].
      apply str_eqb_true in H. congruence.
Qed.

Lemma is_field_name (k : pystr) :
  existsb (str_eqb k) ollamaTest_V1.field_names = true
  <-> In k ollamaTest_V1.field_names.
Proof.
  rewrite existsb_exists. split.
  - intros (x & Hin & He). apply str_eqb_true in He. subst. exact Hin.
  - intros Hin. exists k. split; [exact Hin|apply str_eqb_true; reflexivity].
Qed.

Lemma dict_get_tabulate (h : pystr -> pyval) (names : list pystr) (f : pystr) :
  In f names ->
  dict_get f (map (fun g => (g, h g)) names) = Some (h f).
Proof.
  induction names as [|g names IH]; cbn; [tauto|].
  intros Hin. destruct (str_eqb g f) eqn:He.
  - apply str_eqb_true in He. subst. reflexivity.
  - destruct Hin as [->|Hin]; [|exact (IH Hin)].
    assert (H : str_eqb f f = true) by (apply str_eqb_true; reflexivity).
    congruence.
Qed.

(** X11: The constructor accepts a dictionary exactly when all its keys are
    field names and the eight fields without default are among them;
    every field of the instance then holds the value of the dictionary,
    or [None] for a key that is not given.  An unknown key and a missing
    field raise [TypeError]. *)
Theorem BenchmarkMetrics_init_accepts :
  forall (d : pydict),
    ((forall k, In k (map fst d) -> In k ollamaTest_V1.field_names) ->
     (forall f, In f ollamaTest_V1.required_fields -> In f (map fst d)) ->
     exists o,
       ollamaTest_V1.BenchmarkMetrics_init d = Ok o
       /\ map fst o = ollamaTest_V1.field_names
       /\ forall f, In f ollamaTest_V1.field_names ->
            dict_get f o
            = Some (match dict_get f d with Some v => v | None => VNone end))
    /\ ((exists k, In k (map fst d) /\ ~ In k ollamaTest_V1.field_names) ->
        exists e,
          ollamaTest_V1.BenchmarkMetrics_init d = Raise e
          /\ exn_cls e = TypeError)
    /\ ((exists f, In f ollamaTest_V1.required_fields /\ ~ In f (map fst d)) ->
        exists e,
          ollamaTest_V1.BenchmarkMetrics_init d = Raise e
          /\ exn_cls e = TypeError).
Proof.
  intros d. unfold ollamaTest_V1.BenchmarkMetrics_init.
  destruct (List.find _ d) as [[k v]|] eqn:Hfind.
  - apply find_some in Hfind as [Hin Hk]. cbn [fst] in Hk.
    apply negb_true_iff in Hk.
    assert (Hnot : ~ In k ollamaTest_V1.field_names).
    { intros H. apply is_field_name in H. congruence. }
    split; [|split].
    + intros Hall _. exfalso. apply Hnot, Hall.
      apply in_map_iff. exists (k, v). split; [reflexivity|exact Hin].
    + intros _. eexists. split; reflexivity.
    + intros _. eexists. split; reflexivity.
  - destruct (List.filter _ ollamaTest_V1.required_fields) as [|f0 fs] eqn:Hfil.
    + split; [|split].
      * intros _ _. eexists. split; [reflexivity|]. split.
        -- rewrite map_map. cbn [fst]. apply map_id.
        -- intros f Hin.
           exact (dict_get_tabulate
                    (fun f => match dict_get f d with
                              | Some v => v
                              | None => VNone
                              end) _ f Hin).
      * intros (k & Hin & Hnot). exfalso.
        apply in_map_iff in Hin as ([k' v] & <- & Hin).
        pose proof (find_none _ _ Hfind _ Hin) as Hk. cbn [fst] in Hk.
        apply negb_false_iff in Hk. apply is_field_name in Hk.
        exact (Hnot Hk).
      * intros (f & Hin & Hnot). exfalso.
        assert (Hf : In f (List.filter (fun f => negb (dict_has f d))
                             ollamaTest_V1.required_fields)).
        { apply filter_In. split; [exact Hin|]. apply negb_true_iff.
          destruct (dict_has f d) eqn:Hh; [|reflexivity].
          apply dict_has_in in Hh. contradiction. }
        rewrite Hfil in Hf. destruct Hf.
    + assert (Hf : In f0 (List.filter (fun f => negb (dict_has f d))
                            ollamaTest_V1.required_fields))
        by (rewrite Hfil; left; reflexivity).
      apply filter_In in Hf as [Hin Hmiss]. apply negb_true_iff in Hmiss.
      split; [|split].
      * intros _ Hreq. exfalso. apply Hreq, dict_has_in in Hin. congruence.
      * intros _. eexists. split; reflexivity.
      * intros _. eexists. split; reflexivity.
Qed.

Lemma BenchmarkMetrics_init_accepts_witness :
  let d := [(lit "success", VBool true); (lit "retries", VInt 3)] in
  (exists k, In k (map fst d) /\ ~ In k ollamaTest_V1.field_names)
  /\ exists e,
       ollamaTest_V1.BenchmarkMetrics_init d = Raise e
       /\ exn_cls e = TypeError.
Proof.
  intros d.
  assert (Hk : exists k, In k (map fst d) /\ ~ In k ollamaTest_V1.field_names).
  { exists (lit "retries"). split; [right; left; reflexivity|].
    intros H. apply is_field_name in H. vm_compute in H. discriminate H. }
  split; [exact Hk|].
  destruct (BenchmarkMetrics_init_accepts d) as (_ & H & _).
  exact (H Hk).
Defined.

Example BenchmarkMetrics_init_unexpected :
  ollamaTest_V1.BenchmarkMetrics_init
    [(lit "success", VBool true); (lit "retries", VInt 3)]
  = Raise (Exn TypeError
             (lit "BenchmarkMetrics.__init__() got an unexpected keyword argument 'retries'")
             None).
Proof. vm_compute. reflexivity. Qed.

Example BenchmarkMetrics_init_missing :
  ollamaTest_V1.BenchmarkMetrics_init
    [(lit "model", VStr (lit "x")); (lit "success", VBool true)]
  = Raise (Exn TypeError
             (lit "BenchmarkMetrics.__init__() missing 6 required positional arguments: 'timestamp', 'input_size_chars', 'input_size_kb', 'generation_time_seconds', 'output_size_chars', and 'output_size_kb'")
             None).
Proof. vm_compute. reflexivity. Qed.

(** ** The legacy interface of the class-based version *)

Lemma init_nine_entries (v1 v2 v3 v4 v5 v6 v7 v8 v9 : pyval)
    (rest : pydict) :
  rest = []
  \/ (exists t, rest = [(lit "tokens_generated", t)])
  \/ (exists t p, rest = [(lit "tokens_generated", t);
                          (lit "tokens_per_second", p)]) ->
  exists o,
    ollamaTest_V1.BenchmarkMetrics_init
      (nine_entries v1 v2 v3 v4 v5 v6 v7 v8 v9 ++ rest) = Ok o
    /\ ollamaTest_V1.instance_to_dict o
       = List.filter (fun kv => negb (is_none (snd kv)))
           (nine_entries v1 v2 v3 v4 v5 v6 v7 v8 v9 ++ rest).
Proof.
  intros [->|[[t ->]|[t [p ->]]]]; eexists;
    (split; [vm_compute; reflexivity|vm_compute; reflexivity]).
Qed.

(** X12: The legacy [save_benchmark_results] of the class-based version
    accepts every metrics dictionary that the function-based version
    returns: the constructor builds an instance from it, and the record
    that [save] then writes is that dictionary without its entries that
    are [None]. *)
Theorem legacy_save_accepts_second_version_dictionaries :
  forall (E : env) (w : world) (uml model : pystr) (c : pyval)
         (metrics : pydict),
    run2 E w uml model true = Ok (ollamaTest.WithMetrics c metrics) ->
    exists o,
      ollamaTest_V1.BenchmarkMetrics_init metrics = Ok o
      /\ ollamaTest_V1.instance_to_dict o
         = List.filter (fun kv => negb (is_none (snd kv))) metrics.
Proof.
  intros E w uml model c metrics Hret.
  destruct (run2_cases E w uml model) as [[_ Hr]|[_ Hp]];
    [rewrite Hr in Hret; discriminate Hret|].
  revert Hret.
  destruct Hp as [e _|T d _ _ _|T d tokens q _ _ _ _|T d tokens e _ _ _ _];
    intros [= <- <-].
  - exact (init_nine_entries
             (VStr model) (VStr (now_iso E (w_nows w))) (VInt (len uml))
             (VFloat (int_truediv (utf8_len uml) 1024))
             (VInt 0) (VInt 0) (VInt 0) (VBool false) (VStr (exn_str e))
             [] (or_introl eq_refl)).
  - exact (init_nine_entries
             (VStr model) (VStr (now_iso E (w_nows w))) (VInt (len uml))
             (VFloat (int_truediv (utf8_len uml) 1024))
             (VFloat (py_round (measured2 E w) 3)) (VInt (len T))
             (VFloat (int_truediv (utf8_len T) 1024)) (VBool true) VNone
             [] (or_introl eq_refl)).
  - apply (init_nine_entries
             (VStr model) (VStr (now_iso E (w_nows w))) (VInt (len uml))
             (VFloat (int_truediv (utf8_len uml) 1024))
             (VFloat (py_round (measured2 E w) 3)) (VInt (len T))
             (VFloat (int_truediv (utf8_len T) 1024)) (VBool true) VNone
             [(lit "tokens_generated", tokens);
              (lit "tokens_per_second", VFloat (py_round q 2))]).
    right. right. eexists _, _. reflexivity.
  - apply (init_nine_entries
             (VStr model) (VStr (now_iso E (w_nows w))) (VInt (len uml))
             (VFloat (int_truediv (utf8_len uml) 1024))
             (VInt 0) (VInt 0) (VInt 0) (VBool false) (VStr (exn_str e))
             [(lit "tokens_generated", tokens)]).
    right. left. eexists. reflexivity.
Qed.

Lemma legacy_save_accepts_second_version_dictionaries_witness :
  let E := example_env (VInt 26) in
  exists c metrics o,
    run2 E world0 (lit "<model/>") ollamaTest.default_model true
    = Ok (ollamaTest.WithMetrics c metrics)
    /\ ollamaTest_V1.BenchmarkMetrics_init metrics = Ok o
    /\ dict_get (lit "error") (ollamaTest_V1.instance_to_dict o) = None
    /\ dict_get (lit "error") metrics = Some VNone.
Proof.
  intros E.
  destruct (run2 E world0 (lit "<model/>") ollamaTest.default_model true)
    as [[c|c metrics]|e] eqn:Hr; try (vm_compute in Hr; discriminate Hr).
  destruct (legacy_save_accepts_second_version_dictionaries E world0
              (lit "<model/>") ollamaTest.default_model c metrics Hr)
    as (o & Ho & Hd).
  exists c, metrics, o. split; [reflexivity|]. split; [exact Ho|].
  rewrite Hd. vm_compute in Hr. injection Hr as <- <-.
  split; vm_compute; reflexivity.
Defined.

Lemma save_instance_asdict (E : env) (self : ollamaTest_V1.BenchmarkLogger)
    (m : ollamaTest_V1.BenchmarkMetrics) :
  ollamaTest_V1.save_instance E self (ollamaTest_V1.asdict m)
  = ollamaTest_V1.save E self m.
Proof. reflexivity. Qed.

Lemma legacy_save_of_to_dict (E : env) (w : world)
    (m : ollamaTest_V1.BenchmarkMetrics) (p : path) :
  ollamaTest_V1.save_benchmark_results E
    (ollamaTest_V1.FromDict (ollamaTest_V1.to_dict m)) p w
  = ollamaTest_V1.save E {| ollamaTest_V1.output_file := p |} m w.
Proof.
  unfold ollamaTest_V1.save_benchmark_results.
  pose proof (init_to_dict m) as H.
  rewrite H. unfold bind, lift. rewrite save_instance_asdict. reflexivity.
Qed.

(** X13: The legacy [save_benchmark_results] of the class-based version.  For
    the dictionary of a record, and for the record itself, it does what
    [BenchmarkLogger.save] does for the record.  For a dictionary that
    the constructor refuses, the [TypeError] reaches the caller as it is,
    not as an [IOError], and nothing is read, written or printed. *)
Theorem legacy_save_follows_save :
  forall (E : env) (w : world) (p : path),
    (forall m,
        ollamaTest_V1.save_benchmark_results E
          (ollamaTest_V1.FromDict (ollamaTest_V1.to_dict m)) p w
        = ollamaTest_V1.save E {| ollamaTest_V1.output_file := p |} m w
        /\ ollamaTest_V1.save_benchmark_results E (ollamaTest_V1.Object m) p w
           = ollamaTest_V1.save E {| ollamaTest_V1.output_file := p |} m w)
    /\ (forall d e,
          ollamaTest_V1.BenchmarkMetrics_init d = Raise e ->
          ollamaTest_V1.save_benchmark_results E (ollamaTest_V1.FromDict d) p w
          = (Raise e, w)).
Proof.
  intros E w p. split.
  - intros m. split; [apply legacy_save_of_to_dict|reflexivity].
  - intros d e H. unfold ollamaTest_V1.save_benchmark_results, bind, lift.
    rewrite H. reflexivity.
Qed.

Lemma legacy_save_follows_save_witness :
  let d := [(lit "model", VStr (lit "x")); (lit "success", VBool true)] in
  let E := simple_env [] (Ok VNone) in
  exists e,
    ollamaTest_V1.BenchmarkMetrics_init d = Raise e
    /\ exn_cls e = TypeError
    /\ ollamaTest_V1.save_benchmark_results E (ollamaTest_V1.FromDict d)
         results_file world0
       = (Raise e, world0).
Proof.
  intros d E.
  destruct (ollamaTest_V1.BenchmarkMetrics_init d) as [o|e] eqn:Hi;
    [vm_compute in Hi; discriminate Hi|].
  exists e. split; [reflexivity|]. split.
  - vm_compute in Hi. injection Hi as <-. reflexivity.
  - destruct (legacy_save_follows_save E world0 results_file) as [_ H].
    exact (H d e Hi).
Defined.

(** With [benchmark=True], [generate] returns a pair when it returns. *)
Lemma generate_true_pair (E : env) (w : world)
    (self : ollamaTest_V1.OntologyGenerator) (uml : pystr)
    (o : ollamaTest_V1.output) :
  outcome (ollamaTest_V1.generate E self uml true) w = Ok o ->
  exists c m, o = ollamaTest_V1.WithMetrics c m.
Proof.
  intros H. pose proof (generate_returns_accepted _ _ _ _ _ _ H) as Ha.
  rewrite generate_outcome in H by exact Ha.
  destruct (try_block E w self uml) as [[content response]|e].
  - destruct (record _ _ _ _ content response None); [|discriminate H].
    injection H as <-. eexists _, _. reflexivity.
  - destruct (record _ _ _ _ [] VNone _); [|discriminate H].
    injection H as <-. eexists _, _. reflexivity.
Qed.



(** ** From the generation to the log *)

(** X15: The legacy functions build the same log as the classes: generating
    through the legacy function and saving its dictionary through the
    legacy function gives the caller the same outcome and leaves the same
    world as [generate] followed by [save]. *)
Theorem legacy_pipeline_is_class_pipeline :
  forall (E : env) (w : world) (uml model : pystr) (p : path),
    legacy_generate_and_save E uml model p w
    = generate_and_save E {| ollamaTest_V1.self_model := model |}
        {| ollamaTest_V1.output_file := p |} uml w.
Proof.
  intros E w uml model p.
  unfold legacy_generate_and_save, generate_and_save,
    ollamaTest_V1.generate_ontology_with_ollama.
  set (self := {| ollamaTest_V1.self_model := model |}).
  unfold bind at 1 2 4.
  destruct (ollamaTest_V1.generate E self uml true w) as [[o|e] w1] eqn:Hg;
    [|reflexivity].
  assert (Ho : outcome (ollamaTest_V1.generate E self uml true) w = Ok o)
    by (unfold outcome; rewrite Hg; reflexivity).
  destruct (generate_true_pair E w self uml o Ho) as (c & m & ->).
  unfold ret at 1. unfold bind.
  rewrite legacy_save_of_to_dict. reflexivity.
Qed.

Lemma generate_and_save_logs (E : env) (w : world)
    (self : ollamaTest_V1.OntologyGenerator)
    (logger : ollamaTest_V1.BenchmarkLogger) (uml c : pystr)
    (m : ollamaTest_V1.BenchmarkMetrics) (t : path) (old : list pyval) :
  no_faults E ->
  stdout_prints E ->
  with_suffix E (ollamaTest_V1.output_file logger) (lit ".tmp") = Ok t ->
  log_at (w_fs w) (ollamaTest_V1.output_file logger) = Some old ->
  outcome (ollamaTest_V1.generate E self uml true) w
  = Ok (ollamaTest_V1.WithMetrics c m) ->
  outcome (generate_and_save E self logger uml) w = Ok c
  /\ w_fs (after (generate_and_save E self logger uml) w)
       !! ollamaTest_V1.output_file logger
     = Some (JsonDoc (VList (old ++ [stored m]))).
Proof.
  intros Hnf Hp Ht Hlog Ho.
  pose proof (generate_keeps_files E w self uml true) as Hfs.
  unfold outcome, after, generate_and_save, bind in *.
  destruct (ollamaTest_V1.generate E self uml true w) as [r w1].
  cbn [fst snd] in *. subst r. rewrite <- Hfs in Hlog.
  destruct (save_run E w1 logger m t old Hnf Hp Ht Hlog) as [Hs Hf].
  rewrite to_dict_stored in Hf.
  unfold outcome, after in *.
  destruct (ollamaTest_V1.save E logger m w1) as [[u|e] w2];
    [|discriminate Hs].
  cbn [fst snd] in *. split; [reflexivity|exact Hf].
Qed.

(** X16: Every generation on a text that UTF-8 encodes leaves its record
    in the log.  When no file operation is refused and stdout prints the
    last line of [save], [generate] with [benchmark=True] followed by
    [save] appends one record to the list in the file: a failed record
    with the error message when the [try] block failed, in which case
    the caller gets the empty string, and a successful record of the
    trimmed text on a well-formed reply with an encodable text.  The
    object in the file has the fields of the record that are not
    [None]. *)
Theorem every_generation_is_logged :
  forall (E : env) (w : world) (self : ollamaTest_V1.OntologyGenerator)
         (logger : ollamaTest_V1.BenchmarkLogger) (uml : pystr) (t : path)
         (old : list pyval),
    let p := ollamaTest_V1.output_file logger in
    let run := generate_and_save E self logger uml in
    no_faults E ->
    stdout_prints E ->
    with_suffix E p (lit ".tmp") = Ok t ->
    log_at (w_fs w) p = Some old ->
    accepted uml ->
    encodable uml = true ->
    (forall e,
        try_block E w self uml = Raise e ->
        outcome run w = Ok []
        /\ exists m,
             w_fs (after run w) !! p
             = Some (JsonDoc (VList (old ++ [stored m])))
             /\ ollamaTest_V1.success m = false
             /\ ollamaTest_V1.error m = Some (ollamaTest_V1.error_message e))
    /\ (forall response T,
          reply E w self uml = Ok response ->
          well_formed_reply response T ->
          encodable T = true ->
          outcome run w = Ok (strip T)
          /\ exists m,
               w_fs (after run w) !! p
               = Some (JsonDoc (VList (old ++ [stored m])))
               /\ ollamaTest_V1.success m = true
               /\ ollamaTest_V1.output_size_chars m = len (strip T)).
Proof.
  intros E w self logger uml t old p run Hnf Hp Ht Hlog Ha Hu. subst p run.
  split.
  - intros e Hb.
    pose proof (generate_outcome E w self uml true Ha) as Ho.
    rewrite Hb in Ho. unfold record in Ho.
    rewrite (encode_len_encodable uml Hu) in Ho. cbn in Ho.
    destruct (generate_and_save_logs E w self logger uml [] _ t old Hnf Hp Ht
                Hlog Ho) as [H1 H2].
    split; [exact H1|]. eexists. split; [exact H2|]. split; reflexivity.
  - intros response T Hr Hwf HT.
    destruct (generate_well_formed E w self uml T response Ha Hr Hwf)
      as (_ & Hg).
    destruct (Hg Hu HT) as (m & Hm & Ho).
    destruct (generate_and_save_logs E w self logger uml _ m t old Hnf Hp Ht
                Hlog Ho) as [H1 H2].
    destruct (record_fields _ _ _ _ _ _ _ _ Hm)
      as (_ & _ & Hc & _ & _ & Hs & _).
    split; [exact H1|]. exists m. split; [exact H2|].
    split; [exact Hs|exact Hc].
Qed.

Lemma every_generation_is_logged_witness :
  let E := simple_env [float_of_int 10; float_of_int 12]
             (Raise connection_refused) in
  let run := generate_and_save E llama logger (lit "<model/>") in
  outcome run world0 = Ok []
  /\ exists m,
       w_fs (after run world0) !! results_file
       = Some (JsonDoc (VList [stored m]))
       /\ ollamaTest_V1.success m = false.
Proof.
  intros E run.
  assert (Ha : accepted (lit "<model/>")) by (split; reflexivity).
  destruct (every_generation_is_logged E world0 llama logger (lit "<model/>")
              (lit "benchmark_results.tmp") []
              (simple_env_no_faults _ _) (simple_env_prints _ _) eq_refl
              (log_at_missing _ _ (lookup_empty _)) Ha eq_refl) as [H _].
  destruct (H connection_refused eq_refl) as (Ho & m & Hf & Hs & _).
  split; [exact Ho|]. exists m. split; [exact Hf|exact Hs].
Defined.

(** ** The loggers and the files *)


Lemma load_json_fs (E : env) (p : path) (w : world) :
  w_fs (snd (load_json E p w)) = w_fs w.
Proof.
  unfold load_json, bind, get_fs, io, ret, raise.
  destruct (io_fault E (w_io w) _); [reflexivity|].
  cbn -[lookup]. destruct (w_fs w !! p) as [[v|c]|]; cbn -[lookup];
    try reflexivity; destruct (io_fault E _ _); reflexivity.
Qed.

Lemma dump_json_frame (E : env) (p q : path) (v : pyval) (w : world) :
  q <> p -> w_fs (snd (dump_json E p v w)) !! q = w_fs w !! q.
Proof.
  intros Hq. unfold dump_json, bind, get_fs, set_fs, io.
  destruct (io_fault E (w_io w) _); [reflexivity|].
  cbn -[lookup insert]. destruct (io_fault E _ _); cbn -[lookup insert];
    apply lookup_insert_ne; congruence.
Qed.

Lemma path_replace_frame (E : env) (src dst q : path) (w : world) :
  q <> src -> q <> dst ->
  w_fs (snd (path_replace E src dst w)) !! q = w_fs w !! q.
Proof.
  intros Hs Hd. unfold path_replace, bind, get_fs, set_fs, io, raise.
  destruct (io_fault E (w_io w) _); [reflexivity|].
  cbn -[lookup insert delete].
  destruct (w_fs w !! src) as [c|]; [|reflexivity].
  cbn -[lookup insert delete].
  rewrite lookup_insert_ne by congruence. apply lookup_delete_ne. congruence.
Qed.

Lemma path_replace_raise (E : env) (src dst : path) (w w1 : world) (e : exn) :
  path_replace E src dst w = (Raise e, w1) -> w_fs w1 = w_fs w.
Proof.
  unfold path_replace, bind, get_fs, set_fs, io, raise.
  destruct (io_fault E (w_io w) _); [intros [= _ <-]; reflexivity|].
  cbn -[lookup insert delete].
  destruct (w_fs w !! src) as [c|]; [discriminate|].
  intros [= _ <-]. reflexivity.
Qed.

(** What [save] does to the files, whatever is refused: [r] is how its
    [try] block ends.  The results file changes by the renaming only,
    which comes before the last line is printed. *)
Lemma save_body_files (E : env) (w w1 : world) (p : path)
    (m : ollamaTest_V1.BenchmarkMetrics) (r : result unit) :
  ollamaTest_V1.save_body E {| ollamaTest_V1.output_file := p |} m w = (r, w1) ->
  (forall q, q <> p -> with_suffix E p (lit ".tmp") <> Ok q ->
             w_fs w1 !! q = w_fs w !! q)
  /\ (with_suffix E p (lit ".tmp") <> Ok p ->
      forall e, r = Raise e ->
        w_fs w1 !! p = w_fs w !! p
        \/ (stdout_fault E (length (w_out w)) (saved_line p) = Some e
            /\ exists old,
                 log_at (w_fs w) p = Some old
                 /\ w_fs w1 !! p
                    = Some (JsonDoc
                              (VList (old ++ [VDict (ollamaTest_V1.to_dict m)])))))
  /\ (forall t, with_suffix E p (lit ".tmp") = Ok t -> t <> p ->
      forall u, r = Ok u -> w_fs w1 !! t = None).
Proof.
  unfold ollamaTest_V1.save_body. cbn [ollamaTest_V1.output_file]. intros H.
  erewrite bind_ok in H by apply path_exists_run.
  assert (Hsame : forall w', w_fs w' = w_fs w -> forall e, r = Raise e ->
            (forall q, q <> p -> with_suffix E p (lit ".tmp") <> Ok q ->
                       w_fs w' !! q = w_fs w !! q)
            /\ (with_suffix E p (lit ".tmp") <> Ok p ->
                forall e, r = Raise e ->
                  w_fs w' !! p = w_fs w !! p
                  \/ (stdout_fault E (length (w_out w)) (saved_line p) = Some e
                      /\ exists old,
                           log_at (w_fs w) p = Some old
                           /\ w_fs w' !! p
                              = Some (JsonDoc
                                        (VList (old ++ [VDict (ollamaTest_V1.to_dict m)])))))
            /\ (forall t, with_suffix E p (lit ".tmp") = Ok t -> t <> p ->
                forall u, r = Ok u -> w_fs w' !! t = None)).
  { intros w' Hw' e ->. rewrite Hw'. split; [reflexivity|].
    split; [intros _ e' _; left; reflexivity|]. intros; discriminate. }
  apply bind_run in H as [(results & wa & Ha & H)|(e & Ha & ->)].
  2: { apply (Hsame w1) with e; [|reflexivity].
       destruct (w_fs w !! p).
       - pose proof (load_json_fs E p w) as Hl. rewrite Ha in Hl. exact Hl.
       - unfold ret in Ha. discriminate Ha. }
  assert (Hfa : w_fs wa = w_fs w /\ w_out wa = w_out w).
  { destruct (w_fs w !! p).
    - pose proof (load_json_fs E p w) as Hl. rewrite Ha in Hl.
      pose proof (load_json_out E p w) as Hl'. rewrite Ha in Hl'.
      split; assumption.
    - unfold ret in Ha. injection Ha as _ <-. split; reflexivity. }
  destruct Hfa as [Hfa Hoa].
  apply bind_run in H as [(results' & wb & Hb & H)|(e & Hb & ->)].
  2: { unfold lift in Hb. injection Hb as _ <-.
       apply (Hsame wa Hfa e). reflexivity. }
  unfold lift in Hb. injection Hb as Happ <-.
  apply bind_run in H as [(t & wc & Hc & H)|(e & Hc & ->)].
  2: { unfold lift in Hc. injection Hc as _ <-.
       apply (Hsame wa Hfa e). reflexivity. }
  unfold lift in Hc. injection Hc as Ht <-.
  assert (Hframe : forall q w', q <> t ->
            w_fs w' = w_fs (snd (dump_json E t results' wa)) ->
            w_fs w' !! q = w_fs w !! q).
  { intros q w' Hq ->. rewrite dump_json_frame by exact Hq.
    rewrite Hfa. reflexivity. }
  apply bind_run in H as [(u1 & wd & Hd & H)|(e & Hd & ->)].
  2: { assert (Hw1 : w_fs w1 = w_fs (snd (dump_json E t results' wa)))
         by (rewrite Hd; reflexivity).
       split; [|split].
       - intros q _ Hq. apply Hframe; [congruence|exact Hw1].
       - intros Hp e' _. left. apply Hframe; [congruence|exact Hw1].
       - intros; discriminate. }
  assert (Hwd : w_fs wd = w_fs (snd (dump_json E t results' wa)))
    by (rewrite Hd; reflexivity).
  assert (Hod : w_out wd = w_out w).
  { pose proof (dump_json_out E t results' wa) as Ho. rewrite Hd in Ho.
    cbn [snd] in Ho. congruence. }
  apply bind_run in H as [(u2 & we & He & H)|(e & He & ->)].
  2: { apply path_replace_raise in He.
       split; [|split].
       - intros q _ Hq. apply Hframe; [congruence|congruence].
       - intros Hp e' _. left. apply Hframe; [congruence|congruence].
       - intros; discriminate. }
  assert (Hoe : w_out we = w_out w).
  { pose proof (path_replace_out E t p wd) as Ho. rewrite He in Ho.
    cbn [snd] in Ho. congruence. }
  apply path_replace_inv in He as (c & Hsrc & He).
  assert (Hfe : forall q, q <> p -> q <> t -> w_fs we !! q = w_fs w !! q).
  { intros q Hp Hq. rewrite He. rewrite lookup_insert_ne by congruence.
    rewrite lookup_delete_ne by congruence.
    apply Hframe; [congruence|exact Hwd]. }
  assert (Hte : t <> p -> w_fs we !! t = None).
  { intros Hne. rewrite He. rewrite lookup_insert_ne by congruence.
    apply lookup_delete_eq. }
  unfold print_symbol in H.
  destruct (stdout_fault E (length (w_out we)) _) as [e'|] eqn:Hsf.
  - injection H as <- <-. split; [|split].
    + intros q Hp Hq. apply Hfe; congruence.
    + intros _ e [= <-]. right. split.
      * rewrite <- Hoe. exact Hsf.
      * apply method_append_inv in Happ as (old & -> & ->).
        exists old. split.
        -- unfold log_at. destruct (w_fs w !! p) as [c'|] eqn:Hw.
           ++ apply load_json_inv in Ha as [Ha _]. rewrite Hw in Ha.
              injection Ha as ->. reflexivity.
           ++ unfold ret in Ha. injection Ha as <- _. reflexivity.
        -- apply dump_json_inv in Hd. rewrite He. rewrite Hd in Hsrc |- *.
           exact (lookup_after_replace _ _ _ _ _ Hsrc).
    + intros; discriminate.
  - unfold print in H. injection H as <- <-. cbn [w_fs]. split; [|split].
    + intros q Hp Hq. apply Hfe; congruence.
    + intros _ e He'. discriminate He'.
    + intros t' Ht' Hne u _. rewrite Ht in Ht'. injection Ht' as <-.
      exact (Hte Hne).
Qed.

(** How [save] ends, from how its [try] block ends. *)
Lemma save_of_body (E : env) (w : world) (p : path)
    (m : ollamaTest_V1.BenchmarkMetrics) :
  exists r,
    ollamaTest_V1.save_body E {| ollamaTest_V1.output_file := p |} m w
    = (r, after (ollamaTest_V1.save E {| ollamaTest_V1.output_file := p |} m) w)
    /\ (forall e,
          outcome (ollamaTest_V1.save E {| ollamaTest_V1.output_file := p |} m) w
          = Raise e ->
          exists cause,
            r = Raise cause
            /\ e = Exn OSError
                     (lit "Failed to save benchmark results: " ++ exn_str cause)
                     (Some cause))
    /\ (outcome (ollamaTest_V1.save E {| ollamaTest_V1.output_file := p |} m) w
        = Ok tt -> exists u, r = Ok u).
Proof.
  unfold outcome, after, ollamaTest_V1.save, bind, attempt.
  destruct (ollamaTest_V1.save_body E _ m w) as [[u|cause] w1].
  - exists (Ok u). split; [reflexivity|]. split; [discriminate|].
    intros _. exists u. reflexivity.
  - exists (Raise cause). split; [reflexivity|]. split; [|discriminate].
    intros e [= <-]. exists cause. split; reflexivity.
Qed.

(** X17: [save] is all or nothing, up to its last line.  Unless the
    temporary file is the results file itself, a [save] that raises
    leaves the results file as it found it, with one exception: when what
    failed is the printing of the last line, on a stdout that cannot
    encode the check mark, the results file already holds the new list,
    and [save] raises the [IOError] made from the exception of stdout.
    So a [save] that raises on a stdout that takes the line has changed
    nothing in the results file. *)
Theorem save_is_all_or_nothing :
  forall (E : env) (w : world) (self : ollamaTest_V1.BenchmarkLogger)
         (m : ollamaTest_V1.BenchmarkMetrics) (e : exn),
    let p := ollamaTest_V1.output_file self in
    let w' := after (ollamaTest_V1.save E self m) w in
    with_suffix E p (lit ".tmp") <> Ok p ->
    outcome (ollamaTest_V1.save E self m) w = Raise e ->
    (w_fs w' !! p = w_fs w !! p
     \/ exists cause old,
          stdout_fault E (length (w_out w)) (saved_line p) = Some cause
          /\ e = Exn OSError
                   (lit "Failed to save benchmark results: " ++ exn_str cause)
                   (Some cause)
          /\ log_at (w_fs w) p = Some old
          /\ w_fs w' !! p = Some (JsonDoc (VList (old ++ [stored m]))))
    /\ (stdout_fault E (length (w_out w)) (saved_line p) = None ->
        w_fs w' !! p = w_fs w !! p).
Proof.
  intros E w [p] m e p' w' Ht Ho. subst p' w'.
  cbn [ollamaTest_V1.output_file] in *.
  destruct (save_of_body E w p m) as (r & Hb & Hr & _).
  destruct (Hr e Ho) as (cause & -> & ->).
  destruct (save_body_files E w _ p m _ Hb) as (_ & H & _).
  destruct (H Ht cause eq_refl) as [Hsame|(Hsf & old & Hlog & Hfs)].
  - split; [left; exact Hsame|intros _; exact Hsame].
  - split.
    + right. exists cause, old. rewrite <- to_dict_stored.
      repeat split; assumption.
    + intros Hnone. rewrite Hnone in Hsf. discriminate Hsf.
Qed.

Lemma save_is_all_or_nothing_witness :
  let m := sample_record false (Some (lit "RuntimeError: x")) in
  w_fs (after (ollamaTest_V1.save disk_full_env logger m) logged_world)
    !! results_file
  = w_fs logged_world !! results_file.
Proof.
  intros m.
  destruct (save_is_all_or_nothing disk_full_env logged_world logger m
              (Exn OSError
                 (lit "Failed to save benchmark results: [Errno 28] No space left on device")
                 (Some no_space_left))) as [_ H].
  - vm_compute. discriminate.
  - vm_compute. reflexivity.
  - apply H. reflexivity.
Defined.

(** The exception of the property: on a stdout without the check mark
    [save] raises after the results file was replaced. *)
Example save_raises_with_the_file_replaced :
  let m := sample_record false (Some (lit "RuntimeError: x")) in
  let w' := after (ollamaTest_V1.save ascii_stdout_env logger m) logged_world in
  outcome (ollamaTest_V1.save ascii_stdout_env logger m) logged_world
  = Raise (Exn OSError
             (lit "Failed to save benchmark results: " ++ exn_str no_check_mark)
             (Some no_check_mark))
  /\ w_fs w' !! results_file
     = Some (JsonDoc (VList [stored (sample_record true None); stored m]))
  /\ w_fs w' !! results_file <> w_fs logged_world !! results_file.
Proof.
  intros m w'. split; [vm_compute; reflexivity|].
  split; [vm_compute; reflexivity|]. vm_compute. discriminate.
Qed.

(** The hypothesis is needed: for a results file named [results.tmp] the
    temporary file is the results file, and a refused write leaves it
    truncated. *)
Example save_onto_its_temporary_file :
  let self := {| ollamaTest_V1.output_file := lit "results.tmp" |} in
  let w := World 0 0 [] [] 0 {[ lit "results.tmp" := JsonDoc (VList []) ]} in
  w_fs (after (ollamaTest_V1.save disk_full_env self (sample_record true None)) w)
    !! lit "results.tmp"
  = Some truncated.
Proof. vm_compute. reflexivity. Qed.

(** X18: [save] touches two files only.  Every file other than the results
    file and its temporary file is after [save] what it was before,
    however [save] ends; and after a [save] that returns, there is no
    temporary file left. *)
Theorem save_touches_two_files :
  forall (E : env) (w : world) (self : ollamaTest_V1.BenchmarkLogger)
         (m : ollamaTest_V1.BenchmarkMetrics),
    let p := ollamaTest_V1.output_file self in
    let w' := after (ollamaTest_V1.save E self m) w in
    (forall q,
        q <> p -> with_suffix E p (lit ".tmp") <> Ok q ->
        w_fs w' !! q = w_fs w !! q)
    /\ (forall t,
          with_suffix E p (lit ".tmp") = Ok t -> t <> p ->
          outcome (ollamaTest_V1.save E self m) w = Ok tt ->
          w_fs w' !! t = None).
Proof.
  intros E w [p] m p' w'. subst p' w'. cbn [ollamaTest_V1.output_file].
  destruct (save_of_body E w p m) as (r & Hb & _ & Hr).
  destruct (save_body_files E w _ p m _ Hb) as (Hq & _ & Ht).
  split; [exact Hq|].
  intros t Hs Hne Ho. destruct (Hr Ho) as [u ->].
  exact (Ht t Hs Hne u eq_refl).
Qed.

Lemma save_touches_two_files_witness :
  let m := sample_record true None in
  let w' := after (ollamaTest_V1.save (simple_env [] (Ok VNone)) logger m)
              logged_world in
  w_fs w' !! lit "notes.txt" = w_fs logged_world !! lit "notes.txt"
  /\ w_fs w' !! lit "benchmark_results.tmp" = None.
Proof.
  intros m w'.
  destruct (save_touches_two_files (simple_env [] (Ok VNone)) logged_world
              logger m) as [Hq Ht].
  split.
  - apply Hq; [vm_compute; discriminate|vm_compute; discriminate].
  - apply (Ht (lit "benchmark_results.tmp")).
    + vm_compute. reflexivity.
    + vm_compute. discriminate.
    + vm_compute. reflexivity.
Defined.

Lemma load_results_fs (E : env) (p : path) (w : world) :
  w_fs (snd (ollamaTest.load_results E p w)) = w_fs w.
Proof.
  unfold ollamaTest.load_results, bind, attempt.
  pose proof (load_json_fs E p w) as H.
  destruct (load_json E p w) as [[v|e] w1]; cbn [snd] in H; cbn.
  - exact H.
  - destruct (is_FileNotFoundError e); exact H.
Qed.

Lemma save_body2_frame (E : env) (w w1 : world) (metrics : pyval) (p q : path)
    (r : result unit) :
  ollamaTest.save_body E metrics p w = (r, w1) ->
  q <> p ->
  w_fs w1 !! q = w_fs w !! q.
Proof.
  unfold ollamaTest.save_body. intros H Hq.
  pose proof (load_results_fs E p w) as Hl.
  apply bind_run in H as [(results & wa & Ha & H)|(e & Ha & ->)].
  2: { rewrite Ha in Hl. cbn [snd] in Hl. rewrite Hl. reflexivity. }
  rewrite Ha in Hl. cbn [snd] in Hl.
  apply bind_run in H as [(results' & wb & Hb & H)|(e & Hb & ->)].
  2: { unfold lift in Hb. injection Hb as _ <-. rewrite Hl. reflexivity. }
  unfold lift in Hb. injection Hb as _ <-.
  pose proof (dump_json_frame E p q results' wa Hq) as Hd.
  apply bind_run in H as [(u & wd & Hw & H)|(e & Hw & ->)].
  2: { rewrite Hw in Hd. cbn [snd] in Hd. rewrite Hd, Hl. reflexivity. }
  rewrite Hw in Hd. cbn [snd] in Hd.
  unfold print in H. injection H as _ <-. cbn [w_fs].
  rewrite Hd, Hl. reflexivity.
Qed.

(** X19: [save_benchmark_results] touches one file only: every file other
    than [output_file] is afterwards what it was before, whatever is
    refused. *)
Theorem second_version_save_touches_one_file :
  forall (E : env) (w : world) (metrics : pyval) (p q : path),
    q <> p ->
    w_fs (after (ollamaTest.save_benchmark_results E metrics p) w) !! q
    = w_fs w !! q.
Proof.
  intros E w metrics p q Hq.
  unfold after, ollamaTest.save_benchmark_results, bind, attempt.
  destruct (ollamaTest.save_body E metrics p w) as [[u|e] w1] eqn:Hb;
    cbn -[lookup]; exact (save_body2_frame E w w1 metrics p q _ Hb Hq).
Qed.

Lemma second_version_save_touches_one_file_witness :
  w_fs (after (ollamaTest.save_benchmark_results disk_full_env VNone
                 (lit "other.json")) logged_world) !! results_file
  = w_fs logged_world !! results_file.
Proof.
  apply second_version_save_touches_one_file. vm_compute. discriminate.
Defined.



(** ** Files that hold no list *)

Lemma method_append_raises (results x : pyval) :
  (forall l, results <> VList l) -> exists e, method_append results x = Raise e.
Proof.
  intros H. destruct results; try (eexists; reflexivity).
  destruct (H l eq_refl).
Qed.

(** X21: [save] never overwrites a file that holds something else than a
    list: on a results file that is no JSON document, or a JSON document
    that is no list, it raises and every file is as it was, whatever is
    refused. *)
Theorem save_keeps_a_file_that_holds_no_list :
  forall (E : env) (w : world) (self : ollamaTest_V1.BenchmarkLogger)
         (m : ollamaTest_V1.BenchmarkMetrics),
    log_at (w_fs w) (ollamaTest_V1.output_file self) = None ->
    (exists e, outcome (ollamaTest_V1.save E self m) w = Raise e)
    /\ w_fs (after (ollamaTest_V1.save E self m) w) = w_fs w.
Proof.
  intros E w [p] m Hlog. cbn [ollamaTest_V1.output_file] in Hlog.
  assert (Hb : exists cause w1,
             ollamaTest_V1.save_body E {| ollamaTest_V1.output_file := p |} m w
             = (Raise cause, w1) /\ w_fs w1 = w_fs w).
  { unfold ollamaTest_V1.save_body. cbn [ollamaTest_V1.output_file].
    erewrite bind_ok by apply path_exists_run.
    unfold log_at in Hlog.
    pose proof (load_json_fs E p w) as Hfs.
    destruct (w_fs w !! p) as [c|] eqn:Hp; [|discriminate Hlog].
    unfold bind at 1.
    destruct (load_json E p w) as [[v|e] wa] eqn:Hl; cbn [snd] in Hfs.
    - apply load_json_inv in Hl as [Hv _]. rewrite Hp in Hv.
      injection Hv as ->.
      destruct (method_append_raises v (VDict (ollamaTest_V1.to_dict m)))
        as [e He].
      { intros l ->. discriminate Hlog. }
      unfold bind, lift. rewrite He. exists e, wa. split; [reflexivity|exact Hfs].
    - exists e, wa. split; [reflexivity|exact Hfs]. }
  destruct Hb as (cause & w1 & Hb & Hfs).
  unfold outcome, after, ollamaTest_V1.save, bind, attempt. rewrite Hb.
  cbn [fst snd]. split; [eexists; reflexivity|exact Hfs].
Qed.

Lemma save_keeps_a_file_that_holds_no_list_witness :
  w_fs (after (ollamaTest_V1.save (simple_env [] (Ok VNone)) logger
                 (sample_record true None)) broken_world)
  = w_fs broken_world.
Proof.
  apply (save_keeps_a_file_that_holds_no_list (simple_env [] (Ok VNone))
           broken_world logger (sample_record true None)).
  vm_compute. reflexivity.
Defined.


